(** * Video-Browser: the workflow core, embedded and verified

    A shallow embedding of the Python sources under [videobrowser/]:
    the blackboard ([core/state.py]), the routing functions
    ([graph/builder.py]), the stages ([nodes/*.py]) and the helpers they
    use ([utils/parser.py], [utils/metrics.py]).

    Python values are modelled as follows.
    - [str] is [string]; [int] is [Z]; JSON numbers that carry seconds are [Q].
    - A [dict] read by key is a [gmap]; a [dict] whose insertion order is
      observed ([list(d.values())]) is an association list; the loops of
      the Analyst walk a listing of the video store that is a [Section]
      variable, and what is proved of them holds for every order.
    - A state key that may be absent is an [option]; [state.get(k, d)] is
      [default d], [state[k]] fails on [None].
    - A raised exception is [None] of the result type ([Llm.Failed] for the
      language model, [Analyst.Raise] inside the loops of the Analyst);
      [try/except Exception] is a match on it.
    - External collaborators (language model, search providers, media
      tools, prompt templates, float formatting) are [Section] variables. *)

From Stdlib Require Import ZArith QArith String Ascii List Bool Lia DecimalString.
From stdpp Require Import gmap strings list fin_maps.

#[local] Set Warnings "-register-all".

Local Open Scope string_scope.
Local Open Scope list_scope.
Local Open Scope Z_scope.

(** ** Python string primitives used by the sources *)

Module PyStr.

(** [sub in s] for strings. *)
Fixpoint contains (sub s : string) : bool :=
  String.prefix sub s ||
  match s with
  | EmptyString => false
  | String _ s' => contains sub s'
  end.

(** [s.split(sep)] for a non-empty separator: non-overlapping occurrences,
    scanned left to right.  [skip] counts the characters of a separator
    occurrence still to be dropped, [cur] is the piece being built. *)
Fixpoint split_go (sep : string) (skip : nat) (cur s : string) : list string :=
  match s with
  | EmptyString => [cur]
  | String c s' =>
      match skip with
      | S k => split_go sep k cur s'
      | O =>
          if String.prefix sep s
          then cur :: split_go sep (String.length sep - 1) EmptyString s'
          else split_go sep O (cur +:+ String c EmptyString) s'
      end
  end.

Definition split (sep s : string) : list string :=
  split_go sep O EmptyString s.

(** [xs[-1]] and [xs[0]] on the (never empty) result of [split]. *)
Definition last_piece (xs : list string) : string := List.last xs EmptyString.
Definition first_piece (xs : list string) : string := List.hd EmptyString xs.

(** [s.replace(c, '')] for a one-character [c]. *)
Fixpoint remove_char (c : ascii) (s : string) : string :=
  match s with
  | EmptyString => EmptyString
  | String a s' =>
      if Ascii.eqb a c then remove_char c s' else String a (remove_char c s')
  end.

(** Truthiness of a string. *)
Definition truthy (s : string) : bool :=
  match s with EmptyString => false | _ => true end.

(** [l[:n]] for a list and a Python integer [n]. *)
Definition slice_to {A} (n : Z) (l : list A) : list A :=
  if 0 <=? n then take (Z.to_nat n) l
  else take (length l - Z.to_nat (- n)) l.

Fixpoint take_str (n : nat) (s : string) : string :=
  match n, s with
  | S k, String c s' => String c (take_str k s')
  | _, _ => EmptyString
  end.

(** [s[:n]] for a text: the characters are the bytes of [string], so the
    cut is Python's on ASCII text. *)
Definition slice_to_str (n : Z) (s : string) : string :=
  if 0 <=? n then take_str (Z.to_nat n) s
  else take_str (String.length s - Z.to_nat (- n)) s.

Definition double_quote : ascii := ascii_of_nat 34.
Definition newline : string := String (ascii_of_nat 10) EmptyString.

End PyStr.

(** ** [utils/parser.py] *)

Module Parser.
Import PyStr.

(** [extract_youtube_id(url)]; [None] is Python's [None]. *)
Definition extract_youtube_id (url : option string) : string :=
  match url with
  | None => EmptyString
  | Some u =>
      if negb (truthy u) then EmptyString
      else if contains "v=" u then
        first_piece (split "&" (last_piece (split "v=" u)))
      else if contains "/shorts/" u then
        first_piece (split "&" (first_piece (split "?" (last_piece (split "/shorts/" u)))))
      else if contains "youtu.be/" u then
        first_piece (split "&" (first_piece (split "?" (last_piece (split "youtu.be/" u)))))
      else u
  end.

End Parser.

(** ** [core/state.py]: the blackboard and its reducers *)

Module State.

Record EvidenceFragment := {
  source : string;
  content : string;
  timestamp_start : option string;
  timestamp_end : option string;
  confidence : Q }.

Record VideoResource := {
  video_id : string;
  title : string;
  url : string;
  duration : string;
  status : string;
  relevance_reason : string;
  evidence : list EvidenceFragment;
  summary : option string;
  transcript : option string }.

(** [res.status = s] (assignment to one attribute). *)
Definition set_status (s : string) (res : VideoResource) : VideoResource :=
  {| video_id := video_id res; title := title res; url := url res;
     duration := duration res; status := s;
     relevance_reason := relevance_reason res; evidence := evidence res;
     summary := summary res; transcript := transcript res |}.

(** [x in [a, b, ...]] on strings. *)
Definition str_in (x : string) (l : list string) : bool :=
  existsb (String.eqb x) l.

(** A value of the metrics record: a counter, or a per-category sub-map
    of counters. *)
Inductive metric :=
| MNum (n : Z)
| MCat (c : gmap string Z).

(** The blackboard.  Fields whose channel has a reducer start from the
    reducer's empty value and are always present; the others are absent
    until a stage or the caller writes them. *)
Record AgentState := {
  user_query : option string;
  constraints : option (list string);
  video_store : option (gmap string VideoResource);
  current_search_queries : option (list string);
  visual_hypothesis : option string;
  raw_candidates : option (list (gmap string string));
  ambiguity_note : option string;
  tried_queries : list string;
  visited_video_ids : list string;
  text_search_context : list string;
  plan_trace : list string;
  loop_step : option Z;
  final_answer : option string;
  routing_signal : option string;
  metrics : gmap string metric }.

(** [operator.add] on lists and [operator.ior] on dicts, the two reducers
    named in the annotations of [AgentState]. *)
Definition operator_add {A} (a b : list A) : list A := a ++ b.

Definition operator_ior {V} (a b : gmap string V) : gmap string V := b ∪ a.

End State.

(** A partial update: the dict a stage returns.  [None] is an omitted key. *)
Module Upd.

Record Update := {
  user_query : option string;
  constraints : option (list string);
  video_store : option (gmap string State.VideoResource);
  current_search_queries : option (list string);
  visual_hypothesis : option string;
  raw_candidates : option (list (gmap string string));
  ambiguity_note : option string;
  tried_queries : option (list string);
  visited_video_ids : option (list string);
  text_search_context : option (list string);
  plan_trace : option (list string);
  loop_step : option Z;
  final_answer : option string;
  routing_signal : option string;
  metrics : option (gmap string State.metric) }.

Definition empty : Update :=
  {| user_query := None; constraints := None; video_store := None;
     current_search_queries := None; visual_hypothesis := None;
     raw_candidates := None; ambiguity_note := None; tried_queries := None;
     visited_video_ids := None; text_search_context := None;
     plan_trace := None; loop_step := None; final_answer := None;
     routing_signal := None; metrics := None |}.

End Upd.

Module Merge.
Import State.

(** A field without a reducer keeps the last value written. *)
Definition last_value {A} (cur new : option A) : option A :=
  match new with Some v => Some v | None => cur end.

(** A field annotated with [operator.add]. *)
Definition append {A} (cur : list A) (new : option (list A)) : list A :=
  match new with Some l => operator_add cur l | None => cur end.

(** The field annotated with [operator.ior]. *)
Definition merge_metrics (cur : gmap string metric)
    (new : option (gmap string metric)) : gmap string metric :=
  match new with Some m => operator_ior cur m | None => cur end.

(** One merge of a stage's partial update into the blackboard, field by
    field with the reducer its annotation in [AgentState] selects. *)
Definition apply_update (st : AgentState) (u : Upd.Update) : AgentState :=
  {| user_query := last_value (user_query st) (Upd.user_query u);
     constraints := last_value (constraints st) (Upd.constraints u);
     video_store := last_value (video_store st) (Upd.video_store u);
     current_search_queries :=
       last_value (current_search_queries st) (Upd.current_search_queries u);
     visual_hypothesis := last_value (visual_hypothesis st) (Upd.visual_hypothesis u);
     raw_candidates := last_value (raw_candidates st) (Upd.raw_candidates u);
     ambiguity_note := last_value (ambiguity_note st) (Upd.ambiguity_note u);
     tried_queries := append (tried_queries st) (Upd.tried_queries u);
     visited_video_ids := append (visited_video_ids st) (Upd.visited_video_ids u);
     text_search_context := append (text_search_context st) (Upd.text_search_context u);
     plan_trace := append (plan_trace st) (Upd.plan_trace u);
     loop_step := last_value (loop_step st) (Upd.loop_step u);
     final_answer := last_value (final_answer st) (Upd.final_answer u);
     routing_signal := last_value (routing_signal st) (Upd.routing_signal u);
     metrics := merge_metrics (metrics st) (Upd.metrics u) |}.

(** Any number of merges, in order. *)
Definition apply_updates (st : AgentState) (us : list Upd.Update) : AgentState :=
  fold_left apply_update us st.

End Merge.

(** ** [graph/builder.py]: the routing functions *)

Module Builder.
Import State.

Definition route_checker_output (state : AgentState) : string :=
  let signal := default "planner" (routing_signal state) in
  if String.eqb signal "ask_user" then "user_proxy"
  else if String.eqb signal "analyst" then "analyst"
  else "planner".

(** [state["video_store"]] raises [KeyError] when the key is absent. *)
Definition route_selector_output (state : AgentState) : option string :=
  match video_store state with
  | None => None
  | Some store =>
      let candidates :=
        List.filter (fun v => str_in (status v) ["candidate"; "analyzing"])
                    (map_to_list store).*2 in
      Some (if (0 <? Z.of_nat (length candidates)) then "watcher" else "checker")
  end.

End Builder.

(** ** [nodes/checker.py] *)

Module Checker.
Import State.

Definition checker_node (max_loop_steps : Z) (state : AgentState) : Upd.Update :=
  let current_step := default 0 (loop_step state) + 1 in
  let routing_signal :=
    if current_step <? max_loop_steps then "planner" else "analyst" in
  {| Upd.user_query := None; Upd.constraints := None; Upd.video_store := None;
     Upd.current_search_queries := None; Upd.visual_hypothesis := None;
     Upd.raw_candidates := None; Upd.ambiguity_note := None;
     Upd.tried_queries := None; Upd.visited_video_ids := None;
     Upd.text_search_context := None; Upd.plan_trace := None;
     Upd.loop_step := Some current_step;
     Upd.final_answer := None;
     Upd.routing_signal := Some routing_signal;
     Upd.metrics := None |}.

(** The loop as the graph drives it: in each round the other stages'
    updates [others] are merged, then the Checker runs on the merged
    blackboard and its own update is merged.  Returns the routing signals
    the Checker emitted, in call order. *)
Fixpoint checker_rounds (max_loop_steps : Z) (rounds : list (list Upd.Update))
    (state : AgentState) : list (option string) :=
  match rounds with
  | [] => []
  | others :: rest =>
      let before := Merge.apply_updates state others in
      let out := checker_node max_loop_steps before in
      Upd.routing_signal out
        :: checker_rounds max_loop_steps rest (Merge.apply_update before out)
  end.

End Checker.

(** ** Values parsed from model output, and the model's responses *)

Module Json.

Inductive json :=
| JNull
| JBool (b : bool)
| JInt (n : Z)
| JFloat (q : Q)
| JStr (s : string)
| JArr (items : list json)
| JObj (fields : list (string * json)).

(** Python truthiness of a parsed value. *)
Definition truthy (j : json) : bool :=
  match j with
  | JNull => false
  | JBool b => b
  | JInt n => negb (n =? 0)
  | JFloat q => negb (Qeq_bool q 0)
  | JStr s => PyStr.truthy s
  | JArr items => match items with [] => false | _ => true end
  | JObj fields => match fields with [] => false | _ => true end
  end.

(** [d.get(k)] and [d[k] = v] on the fields of an object, kept in
    insertion order. *)
Fixpoint dict_get (fields : list (string * json)) (k : string) : option json :=
  match fields with
  | [] => None
  | (k', v) :: rest => if String.eqb k' k then Some v else dict_get rest k
  end.

Fixpoint dict_set (fields : list (string * json)) (k : string) (v : json)
    : list (string * json) :=
  match fields with
  | [] => [(k, v)]
  | (k', v') :: rest =>
      if String.eqb k' k then (k, v) :: rest else (k', v') :: dict_set rest k v
  end.

(** [isinstance(j, int)]: Python's [bool] is a subclass of [int]. *)
Definition as_int (j : json) : option Z :=
  match j with
  | JInt n => Some n
  | JBool b => Some (if b then 1 else 0)
  | _ => None
  end.

(** [j[:n]]: defined on lists and strings, a [TypeError] ([None]) on
    every other value. *)
Definition slice_to (n : Z) (j : json) : option json :=
  match j with
  | JArr items => Some (JArr (PyStr.slice_to n items))
  | JStr s => Some (JStr (PyStr.slice_to_str n s))
  | _ => None
  end.

End Json.

Module Llm.

(** What [llm.invoke] returns: the text and the token counters of
    [response_metadata["token_usage"]], each of which may be missing. *)
Record response := {
  content : string;
  prompt_tokens : option Z;
  completion_tokens : option Z;
  total_tokens : option Z }.

(** [llm.invoke] either returns or raises; [Failed e] carries [str(e)]. *)
Inductive outcome :=
| Responded (r : response)
| Failed (e : string).

Inductive content_part :=
| TextPart (text : string)
| ImagePart (image_url : string).

Inductive message :=
| SystemMessage (text : string)
| HumanMessage (text : string)
| HumanParts (parts : list content_part).

End Llm.

(** ** [utils/metrics.py] *)

Module Metrics.
Import State.

(** [d.get(k, 0) + n]: a [TypeError] when the stored value is a sub-map. *)
Definition add_counter (d : gmap string metric) (k : string) (n : Z)
    : option (gmap string metric) :=
  match d !! k with
  | None => Some (<[k := MNum (0 + n)]> d)
  | Some (MNum c) => Some (<[k := MNum (c + n)]> d)
  | Some (MCat _) => None
  end.

Definition add_cat_counter (d : gmap string Z) (k : string) (n : Z) : gmap string Z :=
  <[k := default 0 (d !! k) + n]> d.

Definition update_token_metrics (current_metrics : gmap string metric)
    (response : Llm.response) (category : option string)
    : option (gmap string metric) :=
  let prompt := default 0 (Llm.prompt_tokens response) in
  let completion := default 0 (Llm.completion_tokens response) in
  let total := default 0 (Llm.total_tokens response) in
  new_metrics ← add_counter current_metrics "input_tokens" prompt;
  new_metrics ← add_counter new_metrics "output_tokens" completion;
  new_metrics ← add_counter new_metrics "total_tokens" total;
  match category with
  | Some cat =>
      if PyStr.truthy cat then
        let cat_metrics :=
          match new_metrics !! cat with
          | Some (MCat c) => c
          | _ => ∅
          end in
        let cat_metrics := add_cat_counter cat_metrics "input_tokens" prompt in
        let cat_metrics := add_cat_counter cat_metrics "output_tokens" completion in
        let cat_metrics := add_cat_counter cat_metrics "total_tokens" total in
        Some (<[cat := MCat cat_metrics]> new_metrics)
      else Some new_metrics
  | None => Some new_metrics
  end.

End Metrics.

(** ** [nodes/planner.py] *)

Module Planner.
Import State Json.

(** What the Planner returns.  The queries come from the model's plan and
    are whatever JSON value it holds under ["search_queries"]. *)
Record PlannerUpdate := {
  plan_trace : list string;
  current_search_queries : json;
  metrics : gmap string metric }.

Section WithCollaborators.
(** [llm.invoke], [extract_json_from_text] ([None]: it raised),
    the two prompt renderers, [config.planner.max_queries], and
    [str()] of a parsed value that is neither a string nor [None]. *)
Variable llm_invoke : list Llm.message -> Llm.outcome.
Variable extract_json_from_text : string -> option json.
Variable format_planner_view : AgentState -> string.
Variable load_prompt : Z -> string.
Variable max_queries : Z.
Variable py_str : json -> string.

(** The body of the [try]: [None] when any statement in it raises. *)
Definition try_plan (text : string) : option (list (string * json)) :=
  plan ← extract_json_from_text text;
  match plan with
  | JObj fields =>
      match dict_get fields "search_queries" with
      | Some qs =>
          if truthy qs then
            cut ← slice_to max_queries qs;
            Some (dict_set fields "search_queries" cut)
          else Some fields
      | None => Some fields
      end
  | _ => None
  end.

(** [f"{plan.get(k)}"] *)
Definition fmt (v : option json) : string :=
  match v with
  | None | Some JNull => "None"
  | Some (JStr s) => s
  | Some j => py_str j
  end.

(** [None] is an exception that leaves [planner_node]. *)
Definition planner_node (state : AgentState) : option PlannerUpdate :=
  let messages :=
    [Llm.SystemMessage (load_prompt max_queries);
     Llm.HumanMessage (format_planner_view state)] in
  match llm_invoke messages with
  | Llm.Failed _ => None
  | Llm.Responded response =>
      metrics ← Metrics.update_token_metrics (State.metrics state) response None;
      plan ←
        match try_plan (Llm.content response) with
        | Some fields => Some fields
        | None =>
            q ← user_query state;
            Some [("thought", JStr "Parsing error, fallback to original query.");
                  ("search_queries", JArr [JStr q])]
        end;
      Some {| plan_trace := ["Thought: " +:+ fmt (dict_get plan "thought")];
              current_search_queries :=
                default (JArr []) (dict_get plan "search_queries");
              metrics := metrics |}
  end.

End WithCollaborators.

(** The Planner's return value as a typed partial update, when the
    queries are a list of strings as [AgentState] declares. *)
Definition as_str (j : json) : option string :=
  match j with JStr s => Some s | _ => None end.

Definition to_update (p : PlannerUpdate) : option Upd.Update :=
  match current_search_queries p with
  | JArr items =>
      qs ← mapM as_str items;
      Some {| Upd.user_query := None; Upd.constraints := None;
              Upd.video_store := None;
              Upd.current_search_queries := Some qs;
              Upd.visual_hypothesis := None; Upd.raw_candidates := None;
              Upd.ambiguity_note := None; Upd.tried_queries := None;
              Upd.visited_video_ids := None; Upd.text_search_context := None;
              Upd.plan_trace := Some (plan_trace p);
              Upd.loop_step := None; Upd.final_answer := None;
              Upd.routing_signal := None;
              Upd.metrics := Some (metrics p) |}
  | _ => None
  end.

End Planner.

(** ** [nodes/searcher.py] *)

Module Searcher.
Import State.

(** [unique_candidates]: a dict whose insertion order is the order of the
    returned list. *)
Definition has_key {V} (k : string) (d : list (string * V)) : bool :=
  existsb (fun kv => String.eqb (fst kv) k) d.

(** One pass of the deduplication loop over [all_video_candidates]. *)
Definition dedup_step (unique_candidates : list (string * gmap string string))
    (cand : gmap string string) : list (string * gmap string string) :=
  match cand !! "link" with
  | Some link =>
      if PyStr.truthy link then
        let video_id := Parser.extract_youtube_id (Some link) in
        let cand := <["id" := video_id]> cand in
        if has_key video_id unique_candidates then unique_candidates
        else unique_candidates ++ [(video_id, cand)]
      else unique_candidates
  | None => unique_candidates
  end.

Definition dedup_candidates (all_video_candidates : list (gmap string string))
    : list (gmap string string) :=
  (fold_left dedup_step all_video_candidates []).*2.

Section WithCollaborators.
(** The four search tools ([None]: the call raised) and the two
    provider names of [config.search]. *)
Variable youtube_search serper_search : string -> option (list (gmap string string)).
Variable tavily_search serper_web_search : string -> option (list (gmap string string)).
Variable video_provider : string.
Variable text_provider : option string.

Definition video_results (clean_q : string) : list (gmap string string) :=
  if String.eqb video_provider "youtube" then default [] (youtube_search clean_q)
  else if String.eqb video_provider "serper" then
    default [] (serper_search (clean_q +:+ " video"))
  else [].

Definition text_line (url_key content_key : string) (res : gmap string string)
    : string :=
  "Source: " +:+ default "Unknown" (res !! "title") +:+ " ("
    +:+ default "No URL" (res !! url_key) +:+ ")" +:+ PyStr.newline
    +:+ "Content: " +:+ default EmptyString (res !! content_key).

Definition text_results (q : string) : list string :=
  if bool_decide (text_provider = Some "tavily") then
    text_line "url" "content" <$> default [] (tavily_search q)
  else if bool_decide (text_provider = Some "serper") then
    text_line "link" "snippet" <$> default [] (serper_web_search q)
  else [].

(** The loop over the queries: both accumulators, in query order. *)
Definition search_all (queries : list string)
    : list (gmap string string) * list string :=
  fold_left
    (fun (acc : list (gmap string string) * list string) q =>
       let clean_q := PyStr.remove_char PyStr.double_quote q in
       ((acc.1 ++ video_results clean_q)%list, (acc.2 ++ text_results q)%list))
    queries ([], []).

Definition searcher_node (state : AgentState) : Upd.Update :=
  let queries := default [] (current_search_queries state) in
  match queries with
  | [] =>
      {| Upd.user_query := None; Upd.constraints := None;
         Upd.video_store := None; Upd.current_search_queries := None;
         Upd.visual_hypothesis := None; Upd.raw_candidates := Some [];
         Upd.ambiguity_note := None; Upd.tried_queries := None;
         Upd.visited_video_ids := None; Upd.text_search_context := None;
         Upd.plan_trace := None; Upd.loop_step := None;
         Upd.final_answer := None; Upd.routing_signal := None;
         Upd.metrics := None |}
  | _ =>
      let found := search_all queries in
      let final_video_list := dedup_candidates found.1 in
      (* list(set(...)): duplicates removed, order unspecified *)
      let final_text_context := elements (list_to_set found.2 : gset string) in
      {| Upd.user_query := None; Upd.constraints := None;
         Upd.video_store := None; Upd.current_search_queries := None;
         Upd.visual_hypothesis := None;
         Upd.raw_candidates := Some final_video_list;
         Upd.ambiguity_note := None;
         Upd.tried_queries := Some queries;
         Upd.visited_video_ids := None;
         Upd.text_search_context := Some final_text_context;
         Upd.plan_trace := None; Upd.loop_step := None;
         Upd.final_answer := None; Upd.routing_signal := None;
         Upd.metrics := None |}
  end.

End WithCollaborators.

End Searcher.

(** ** [nodes/selector.py] *)

Module Selector.
Import State Json.

(** [a or b] on strings. *)
Definition str_or (a b : string) : string := if PyStr.truthy a then a else b.

(** [f"vid_{i}"] *)
Definition vid_name (i : nat) : string :=
  "vid_" +:+ NilEmpty.string_of_uint (Nat.to_uint i).

(** The candidates that carry a URL, each with the URL stored under ["url"]. *)
Definition valid_candidates_of (raw_candidates : list (gmap string string))
    : list (gmap string string) :=
  omap (fun raw =>
          let url := str_or (default EmptyString (raw !! "link"))
                            (default EmptyString (raw !! "videourl")) in
          if PyStr.truthy url then Some (<["url" := url]> raw) else None)
       raw_candidates.

(** The loop over the indices the model selected, with its [break]. *)
Fixpoint pick (top_k : Z) (valid_candidates : list (gmap string string))
    (indices : list json) (target_videos : list (gmap string string))
    : list (gmap string string) :=
  match indices with
  | [] => target_videos
  | idx :: rest =>
      match as_int idx with
      | Some n =>
          if (0 <=? n) && (n <? Z.of_nat (length valid_candidates)) then
            match valid_candidates !! Z.to_nat n with
            | Some v =>
                let target_videos := target_videos ++ [v] in
                if Z.of_nat (length target_videos) >=? top_k then target_videos
                else pick top_k valid_candidates rest target_videos
            | None => pick top_k valid_candidates rest target_videos
            end
          else pick top_k valid_candidates rest target_videos
      | None => pick top_k valid_candidates rest target_videos
      end
  end.

(** One pass of the loop that writes the selected videos into the store;
    [i] is the index [enumerate] gives, [target_id] the [video_id] the
    pass computes. *)
Definition target_id (i : nat) (video : gmap string string) : string :=
  let video_url := default EmptyString (video !! "url") in
  str_or (Parser.extract_youtube_id (Some video_url)) (vid_name i).

Definition store_step (updated_store : gmap string VideoResource)
    (i : nat) (video : gmap string string) : gmap string VideoResource :=
  let video_url := default EmptyString (video !! "url") in
  let video_id := target_id i video in
  match updated_store !! video_id with
  | None =>
      <[video_id :=
          {| video_id := video_id;
             title := default "Unknown" (video !! "title");
             url := video_url;
             duration := default "Unknown" (video !! "duration");
             status := "candidate";
             relevance_reason := EmptyString;
             evidence := [];
             summary := Some EmptyString;
             transcript := Some EmptyString |}]> updated_store
  | Some res =>
      if negb (str_in (status res) ["verified"; "watched"])
      then <[video_id := set_status "candidate" res]> updated_store
      else updated_store
  end.

Fixpoint store_loop (updated_store : gmap string VideoResource) (i : nat)
    (target_videos : list (gmap string string)) : gmap string VideoResource :=
  match target_videos with
  | [] => updated_store
  | video :: rest => store_loop (store_step updated_store i video) (S i) rest
  end.

Definition only_store (video_store : gmap string VideoResource) : Upd.Update :=
  {| Upd.user_query := None; Upd.constraints := None;
     Upd.video_store := Some video_store;
     Upd.current_search_queries := None; Upd.visual_hypothesis := None;
     Upd.raw_candidates := None; Upd.ambiguity_note := None;
     Upd.tried_queries := None; Upd.visited_video_ids := None;
     Upd.text_search_context := None; Upd.plan_trace := None;
     Upd.loop_step := None; Upd.final_answer := None;
     Upd.routing_signal := None; Upd.metrics := None |}.

Section WithCollaborators.
(** [llm.invoke], [extract_json_from_text] ([None]: it raised), the
    prompt renderer and [config.selector.top_k]. *)
Variable llm_invoke : list Llm.message -> Llm.outcome.
Variable extract_json_from_text : string -> option json.
Variable load_prompt : string -> Z -> list (gmap string string) -> string.
Variable top_k : Z.

(** The [try] block and its [except]: the videos selected and the
    metrics as they stand afterwards. *)
Definition select (metrics : gmap string metric) (user_query : string)
    (valid_candidates : list (gmap string string))
    : list (gmap string string) * gmap string metric :=
  let fallback := PyStr.slice_to top_k valid_candidates in
  match llm_invoke [Llm.HumanMessage (load_prompt user_query top_k valid_candidates)] with
  | Llm.Failed _ => (fallback, metrics)
  | Llm.Responded response =>
      match Metrics.update_token_metrics metrics response (Some "jit_selector") with
      | None => (fallback, metrics)
      | Some metrics =>
          match extract_json_from_text (Llm.content response) with
          | None => (fallback, metrics)
          | Some (JArr indices) => (pick top_k valid_candidates indices [], metrics)
          | Some (JObj fields) => (pick top_k valid_candidates fields.*2 [], metrics)
          | Some _ => (fallback, metrics)
          end
      end
  end.

(** The videos the store loop runs over. *)
Definition target_videos_of (metrics : gmap string metric) (user_query : string)
    (valid_candidates : list (gmap string string))
    : list (gmap string string) * gmap string metric :=
  let sel := select metrics user_query valid_candidates in
  match sel.1 with
  | [] => (PyStr.slice_to top_k valid_candidates, sel.2)
  | _ => sel
  end.

Definition selector_node (state : AgentState) : Upd.Update :=
  let metrics := State.metrics state in
  let video_store := default ∅ (State.video_store state) in
  let raw_candidates := default [] (State.raw_candidates state) in
  let user_query := default EmptyString (State.user_query state) in
  match raw_candidates with
  | [] => only_store video_store
  | _ =>
      let valid_candidates := valid_candidates_of raw_candidates in
      match valid_candidates with
      | [] => only_store video_store
      | _ =>
          let sel := target_videos_of metrics user_query valid_candidates in
          {| Upd.user_query := None; Upd.constraints := None;
             Upd.video_store := Some (store_loop video_store 0 sel.1);
             Upd.current_search_queries := None; Upd.visual_hypothesis := None;
             Upd.raw_candidates := None; Upd.ambiguity_note := None;
             Upd.tried_queries := None; Upd.visited_video_ids := None;
             Upd.text_search_context := None; Upd.plan_trace := None;
             Upd.loop_step := None; Upd.final_answer := None;
             Upd.routing_signal := None; Upd.metrics := Some sel.2 |}
      end
  end.

End WithCollaborators.

End Selector.

(** ** [nodes/analyst.py] *)

Module Analyst.
Import State Json.

(** A window of the analysis once its two bounds have been read as
    numbers and its reasoning as text. *)
Record window := {
  start_time_seconds : Q;
  end_time_seconds : Q;
  reasoning : string }.

Record frame := {
  timestamp : Q;
  image : string }.

(** What the Analyst does when it returns: the partial update and the
    calls it made to the synthesis model, in order. *)
Record AnalystRun := {
  update : Upd.Update;
  llm_calls : list (list Llm.content_part) }.

(** What one pass of a loop body comes to: [continue], the value the
    rest of the pass works on, or an exception that nothing catches. *)
Inductive pass (A : Type) :=
| Skip
| Take (a : A)
| Raise.
Arguments Skip {A}.
Arguments Take {A} a.
Arguments Raise {A}.

(** What a call of [download_video_file] comes to: a path, [None], or an
    exception raised outside its own [try] blocks. *)
Inductive download :=
| Saved (path : string)
| NotSaved
| DownloadRaised.

Definition answer_only (msg : string) : Upd.Update :=
  {| Upd.user_query := None; Upd.constraints := None; Upd.video_store := None;
     Upd.current_search_queries := None; Upd.visual_hypothesis := None;
     Upd.raw_candidates := None; Upd.ambiguity_note := None;
     Upd.tried_queries := None; Upd.visited_video_ids := None;
     Upd.text_search_context := None; Upd.plan_trace := None;
     Upd.loop_step := None; Upd.final_answer := Some msg;
     Upd.routing_signal := None; Upd.metrics := None |}.

Definition opt_truthy (s : option string) : bool :=
  match s with Some t => PyStr.truthy t | None => false end.

(** [k in d] on the fields of an object. *)
Definition has_field (fields : list (string * json)) (k : string) : bool :=
  match dict_get fields k with Some _ => true | None => false end.

(** A parsed value as a Python number: [int], [float] and [bool] compare
    with one another and take the format [.1f]; no other parsed value
    takes that format.  A float is held as the rational it stands for;
    the non-finite floats that [json.loads] also reads have no place in
    [json]. *)
Definition as_number (j : json) : option Q :=
  match j with
  | JInt n => Some (inject_Z n)
  | JFloat q => Some q
  | JBool b => Some (if b then 1%Q else 0%Q)
  | _ => None
  end.

(** The elements [for win in windows] goes through, once [len(windows)]
    has been taken: those of a list, the characters of a string (here its
    bytes: each is a string either way), the keys of an object; [len] of
    any other value is a [TypeError] ([None]). *)
Definition elements_of (windows : json) : option (list json) :=
  match windows with
  | JArr elements => Some elements
  | JStr s => Some ((fun c => JStr (String c EmptyString)) <$> list_ascii_of_string s)
  | JObj fields => Some ((fun kv : string * json => JStr kv.1) <$> fields)
  | _ => None
  end.

Section WithCollaborators.
(** [video_store.items()], the entries in the insertion order of the
    dict, which the map of the blackboard does not record; [json.loads]
    on a summary ([None]: it raised); the media tools; [<=] between two
    parsed values that are not both numbers ([None]: [TypeError]);
    [str] of a parsed value; [str.splitlines]; the timestamp pattern
    matched on a transcript line; [f"{x:.1f}"]; [s[:n]] on a text; the
    prompt renderer; the synthesis model; and the text of the error
    [update_token_metrics] raises. *)
Variable items : gmap string VideoResource -> list (string * VideoResource).
Variable json_loads : string -> option json.
Variable download_video_file : string -> download.
Variable extract_frames_from_window : string -> Q -> Q -> list frame.
Variable le_other : json -> json -> option bool.
Variable str_of : json -> string.
Variable splitlines : string -> list string.
Variable line_times : string -> option (Q * Q).
Variable fmt1 : Q -> string.
Variable slice_chars : Z -> string -> string.
Variable load_prompt : string -> string.
Variable llm_invoke : list Llm.message -> Llm.outcome.
Variable metrics_error : string.

(** The first loop for one resource, up to its inner loop: the path of
    the video file and the windows to go through.  [analysis.get] is
    called outside the [try] that guards [json.loads], so a summary that
    parses to anything but an object raises [AttributeError]. *)
Definition windows_of (res : VideoResource) : pass (string * list json) :=
  if negb (String.eqb (status res) "verified") || negb (opt_truthy (summary res))
  then Skip
  else
    match json_loads (default EmptyString (summary res)) with
    | None => Skip
    | Some (JObj analysis) =>
        if negb (truthy (default (JBool false) (dict_get analysis "relevant")))
        then Skip
        else
          let windows := default (JArr []) (dict_get analysis "windows") in
          let windows :=
            if truthy windows then Some windows
            else if has_field analysis "start_time_seconds"
                 then Some (JArr [JObj analysis])
                 else None in
          match windows with
          | None => Skip
          | Some windows =>
              match elements_of windows with
              | None => Raise
              | Some elements =>
                  match download_video_file (url res) with
                  | DownloadRaised => Raise
                  | NotSaved => Skip
                  | Saved video_path =>
                      if PyStr.truthy video_path then Take (video_path, elements)
                      else Skip
                  end
              end
          end
    | Some _ => Raise
    end.

(** The head of the inner loop for one window: [win.get] raises on
    anything but an object; [end <= start] sends the loop to its next
    window; bounds that are not numbers raise in [<=] or, when [<=]
    answers [False], in the format [.1f] of the line printed next. *)
Definition read_window (win : json) : pass window :=
  match win with
  | JObj fields =>
      let start := default (JFloat 0%Q) (dict_get fields "start_time_seconds") in
      let end_ := default (JFloat 0%Q) (dict_get fields "end_time_seconds") in
      let reason := default (JStr EmptyString) (dict_get fields "reasoning") in
      match as_number start, as_number end_ with
      | Some s, Some e =>
          if Qle_bool e s then Skip
          else Take {| start_time_seconds := s; end_time_seconds := e;
                       reasoning := match reason with
                                    | JStr text => text
                                    | _ => str_of reason
                                    end |}
      | _, _ =>
          match le_other end_ start with
          | Some true => Skip
          | Some false => Raise
          | None => Raise
          end
      end
  | _ => Raise
  end.

Definition frame_parts (f : frame) : list Llm.content_part :=
  [Llm.TextPart ("[Frame at " +:+ fmt1 (timestamp f) +:+ "s]");
   Llm.ImagePart ("data:image/jpeg;base64," +:+ image f)].

Definition overlaps (win : window) (line : string) : bool :=
  match line_times line with
  | Some (t_start, t_end) =>
      Qle_bool (start_time_seconds win) t_end
      && Qle_bool t_start (end_time_seconds win)
  | None => false
  end.

Definition join_lines (ls : list string) : string :=
  match ls with
  | [] => EmptyString
  | l :: rest => fold_left (fun acc x => acc +:+ PyStr.newline +:+ x) rest l
  end.

(** The rest of the inner loop for one window that was read. *)
Definition window_parts (res : VideoResource) (video_path : string)
    (full_transcript_lines : list string) (win : window)
    : list Llm.content_part :=
  let start := start_time_seconds win in
  let end_ := end_time_seconds win in
  let frames := extract_frames_from_window video_path start end_ in
  let clip :=
    match frames with
    | [] => []
    | _ =>
        Llm.TextPart
          (PyStr.newline +:+ "=== Video: " +:+ title res +:+ " [Clip: "
             +:+ fmt1 start +:+ "s - " +:+ fmt1 end_ +:+ "s] ===" +:+ PyStr.newline
             +:+ "Reasoning: " +:+ reasoning win +:+ PyStr.newline)
          :: concat (frame_parts <$> frames)
    end in
  let relevant_lines := List.filter (overlaps win) full_transcript_lines in
  let text :=
    match relevant_lines with
    | [] => []
    | _ => [Llm.TextPart ("Transcript Segment:" +:+ PyStr.newline
                            +:+ join_lines relevant_lines)]
    end in
  clip ++ text.

(** One pass of the inner loop: the parts gathered so far and
    [has_relevant_content], or [None] once an exception is on its way
    out of the function. *)
Definition window_step (res : VideoResource) (video_path : string)
    (full_transcript_lines : list string)
    (acc : option (list Llm.content_part * bool)) (win : json)
    : option (list Llm.content_part * bool) :=
  match acc with
  | None => None
  | Some a =>
      match read_window win with
      | Raise => None
      | Skip => Some a
      | Take w =>
          Some (a.1 ++ window_parts res video_path full_transcript_lines w, true)
      end
  end.

(** One pass of the first loop. *)
Definition gather_step (acc : option (list Llm.content_part * bool))
    (res : VideoResource) : option (list Llm.content_part * bool) :=
  match acc with
  | None => None
  | Some a =>
      match windows_of res with
      | Raise => None
      | Skip => Some a
      | Take (video_path, windows) =>
          let full_transcript_lines :=
            if opt_truthy (transcript res)
            then splitlines (default EmptyString (transcript res)) else [] in
          fold_left (window_step res video_path full_transcript_lines) windows (Some a)
      end
  end.

(** One pass of the fallback loop over whole transcripts. *)
Definition transcript_step (acc : list Llm.content_part * bool) (res : VideoResource)
    : list Llm.content_part * bool :=
  if opt_truthy (transcript res) then
    (acc.1 ++ [Llm.TextPart
                 (PyStr.newline +:+ "=== Video Transcript: " +:+ title res
                    +:+ " ===" +:+ PyStr.newline
                    +:+ slice_chars 25000 (default EmptyString (transcript res))
                    +:+ "...")],
     true)
  else acc.

(** The call to the synthesis model and what is returned after it. *)
Definition synthesize (metrics : gmap string metric) (user_query : string)
    (content_parts : list Llm.content_part) : AnalystRun :=
  let instruction_text := load_prompt user_query in
  let content_parts :=
    Llm.TextPart ("User Query: " +:+ user_query +:+ PyStr.newline +:+ PyStr.newline
                    +:+ "Analyze the following video clips and transcripts to answer the query.")
      :: content_parts ++ [Llm.TextPart instruction_text] in
  let result :=
    match llm_invoke [Llm.HumanParts content_parts] with
    | Llm.Failed e => ("Error: " +:+ e, metrics)
    | Llm.Responded response =>
        match Metrics.update_token_metrics metrics response (Some "jit_analyst") with
        | Some metrics => (Llm.content response, metrics)
        | None => ("Error: " +:+ metrics_error, metrics)
        end
    end in
  {| update :=
       {| Upd.user_query := None; Upd.constraints := None;
          Upd.video_store := None; Upd.current_search_queries := None;
          Upd.visual_hypothesis := None; Upd.raw_candidates := None;
          Upd.ambiguity_note := None; Upd.tried_queries := None;
          Upd.visited_video_ids := None; Upd.text_search_context := None;
          Upd.plan_trace := None; Upd.loop_step := None;
          Upd.final_answer := Some result.1;
          Upd.routing_signal := None;
          Upd.metrics := Some result.2 |};
     llm_calls := [content_parts] |}.

(** [None]: an exception leaves the function. *)
Definition analyst_node (state : AgentState) : option AnalystRun :=
  let video_store := default ∅ (State.video_store state) in
  let user_query := default EmptyString (State.user_query state) in
  let metrics := State.metrics state in
  if (size video_store =? 0)%nat then
    Some {| update := answer_only "No videos were successfully processed.";
            llm_calls := [] |}
  else
    let resources := (items video_store).*2 in
    match fold_left gather_step resources (Some ([], false)) with
    | None => None
    | Some gathered =>
        let gathered :=
          if gathered.2 then gathered
          else fold_left transcript_step resources gathered in
        if gathered.2 then Some (synthesize metrics user_query gathered.1)
        else
          Some {| update :=
                    answer_only
                      "No relevant video content or transcripts found to answer the query.";
                  llm_calls := [] |}
    end.

End WithCollaborators.

End Analyst.

(** ** The metrics merge as the specification words it

    Stated from the specification text, to be compared with the reducer
    [State.operator_ior] that [AgentState] declares: top-level keys of the
    partial update overwrite or extend the current record, and where both
    sides hold a per-category sub-map the two sub-maps are merged key by
    key in the same way. *)

Module MetricsSpec.
Import State.

Definition two_level_merge (current partial : gmap string metric)
    : gmap string metric :=
  union_with
    (fun p c =>
       match p, c with
       | MCat pc, MCat cc => Some (MCat (pc ∪ cc))
       | _, _ => Some p
       end)
    partial current.

End MetricsSpec.

(** ** Blackboards and updates used in the examples *)

Module Fixtures.
Import State.

(** The blackboard a session starts with: only the user query. *)
Definition initial (q : string) : AgentState :=
  {| user_query := Some q; constraints := None; video_store := None;
     current_search_queries := None; visual_hypothesis := None;
     raw_candidates := None; ambiguity_note := None; tried_queries := [];
     visited_video_ids := []; text_search_context := []; plan_trace := [];
     loop_step := None; final_answer := None; routing_signal := None;
     metrics := ∅ |}.

(** A partial update that writes one replace-policy field. *)
Definition signal_update (s : string) : Upd.Update :=
  {| Upd.user_query := None; Upd.constraints := None; Upd.video_store := None;
     Upd.current_search_queries := None; Upd.visual_hypothesis := None;
     Upd.raw_candidates := None; Upd.ambiguity_note := None;
     Upd.tried_queries := None; Upd.visited_video_ids := None;
     Upd.text_search_context := None; Upd.plan_trace := None;
     Upd.loop_step := None; Upd.final_answer := None;
     Upd.routing_signal := Some s; Upd.metrics := None |}.

Definition queries_update (qs : list string) : Upd.Update :=
  {| Upd.user_query := None; Upd.constraints := None; Upd.video_store := None;
     Upd.current_search_queries := Some qs; Upd.visual_hypothesis := None;
     Upd.raw_candidates := None; Upd.ambiguity_note := None;
     Upd.tried_queries := None; Upd.visited_video_ids := None;
     Upd.text_search_context := None; Upd.plan_trace := None;
     Upd.loop_step := None; Upd.final_answer := None;
     Upd.routing_signal := None; Upd.metrics := None |}.

Definition candidates_update (cs : list (gmap string string)) : Upd.Update :=
  {| Upd.user_query := None; Upd.constraints := None; Upd.video_store := None;
     Upd.current_search_queries := None; Upd.visual_hypothesis := None;
     Upd.raw_candidates := Some cs; Upd.ambiguity_note := None;
     Upd.tried_queries := None; Upd.visited_video_ids := None;
     Upd.text_search_context := None; Upd.plan_trace := None;
     Upd.loop_step := None; Upd.final_answer := None;
     Upd.routing_signal := None; Upd.metrics := None |}.

(** A partial update that holds a final answer and nothing else. *)
Definition answer_update (msg : string) : Upd.Update :=
  {| Upd.user_query := None; Upd.constraints := None; Upd.video_store := None;
     Upd.current_search_queries := None; Upd.visual_hypothesis := None;
     Upd.raw_candidates := None; Upd.ambiguity_note := None;
     Upd.tried_queries := None; Upd.visited_video_ids := None;
     Upd.text_search_context := None; Upd.plan_trace := None;
     Upd.loop_step := None; Upd.final_answer := Some msg;
     Upd.routing_signal := None; Upd.metrics := None |}.

Definition video (vid st : string) (tr : option string) : VideoResource :=
  {| video_id := vid; title := "A title"; url := "https://youtu.be/" +:+ vid;
     duration := "3:14"; status := st; relevance_reason := EmptyString;
     evidence := []; summary := None; transcript := tr |}.

Definition with_store (store : gmap string VideoResource) (st : AgentState)
    : AgentState :=
  Merge.apply_update st (Selector.only_store store).

End Fixtures.

(** * Properties *)

(** ** Routing after the Checker *)

Section RouteChecker.
Import State.

Lemma route_checker_absent (st : AgentState) :
  routing_signal st = None -> Builder.route_checker_output st = "planner".
Proof. unfold Builder.route_checker_output. by intros ->. Qed.

(** C1, as the code has it: for every blackboard, the routing function
    after the Checker returns "user_proxy" when the routing signal is
    "ask_user", "analyst" when it is "analyst", and "planner" for every
    other signal, an absent one included. *)
Theorem route_checker_output_table (st : AgentState) :
  Builder.route_checker_output st =
    if bool_decide (routing_signal st = Some "ask_user") then "user_proxy"
    else if bool_decide (routing_signal st = Some "analyst") then "analyst"
    else "planner".
Proof.
  unfold Builder.route_checker_output.
  destruct (routing_signal st) as [sig|]; simpl; [|done].
  destruct (String.eqb_spec sig "ask_user") as [->|Hask].
  - by rewrite bool_decide_eq_true_2.
  - rewrite bool_decide_eq_false_2 by congruence.
    destruct (String.eqb_spec sig "analyst") as [->|Han].
    + by rewrite bool_decide_eq_true_2.
    + by rewrite bool_decide_eq_false_2 by congruence.
Qed.

(** C1, as the claim words it, fails: a blackboard whose routing signal
    is "ask_user" is not routed to "ask_user". *)
Lemma route_checker_ask_user_not_ask_user :
  ~ (forall st : AgentState,
       routing_signal st = Some "ask_user" ->
       Builder.route_checker_output st = "ask_user").
Proof.
  intros H.
  specialize (H (Merge.apply_update (Fixtures.initial "X")
                   (Fixtures.signal_update "ask_user")) eq_refl).
  vm_compute in H. discriminate H.
Qed.

End RouteChecker.

(** ** Routing after the Selector *)

Section RouteSelector.
Import State.

Definition watchable (res : VideoResource) : Prop :=
  status res = "candidate" \/ status res = "analyzing".

Lemma str_in_watchable (res : VideoResource) :
  str_in (status res) ["candidate"; "analyzing"] = true <-> watchable res.
Proof.
  unfold str_in, watchable; simpl.
  rewrite !orb_true_iff, !String.eqb_eq. intuition discriminate.
Qed.

Lemma filter_empty_iff {A} (f : A -> bool) (l : list A) :
  List.filter f l = [] <-> (forall x, x ∈ l -> f x = false).
Proof.
  induction l as [|a l IH]; simpl.
  - split; [intros _ x Hx; by apply elem_of_nil in Hx | done].
  - destruct (f a) eqn:Ha.
    + split; [done|]. intros H.
      assert (f a = false) by (apply H, elem_of_cons; by left). congruence.
    + rewrite IH. split.
      * intros H x Hx. apply elem_of_cons in Hx as [->|Hx]; auto.
      * intros H x Hx. apply H, elem_of_cons. by right.
Qed.

Lemma filter_head {A} (f : A -> bool) (l : list A) (c : A) (cs : list A) :
  List.filter f l = c :: cs -> c ∈ l /\ f c = true.
Proof.
  intros E. rewrite list_elem_of_In. apply filter_In. rewrite E. by left.
Qed.

Lemma store_values (store : gmap string VideoResource) (res : VideoResource) :
  res ∈ (map_to_list store).*2 <-> exists vid, store !! vid = Some res.
Proof.
  rewrite list_elem_of_fmap. split.
  - intros [[vid r] [-> Hin]]. exists vid. by apply elem_of_map_to_list.
  - intros [vid Hvid]. exists (vid, res). split; [done|].
    by apply elem_of_map_to_list.
Qed.

(** C8: on a blackboard that has a video store, the routing function after
    the Selector returns "watcher" exactly when some resource of the store
    has status "candidate" or "analyzing", and "checker" otherwise. *)
Theorem route_selector_output_iff (st : AgentState)
    (store : gmap string VideoResource) :
  video_store st = Some store ->
  (Builder.route_selector_output st = Some "watcher" <->
     exists vid res, store !! vid = Some res /\ watchable res) /\
  (~ (exists vid res, store !! vid = Some res /\ watchable res) ->
     Builder.route_selector_output st = Some "checker").
Proof.
  intros Hstore. unfold Builder.route_selector_output. rewrite Hstore.
  set (cands := List.filter _ _).
  assert (Hc : cands = [] <->
               ~ (exists vid res, store !! vid = Some res /\ watchable res)).
  { unfold cands. rewrite filter_empty_iff. split.
    - intros H (vid & res & Hl & Hw).
      assert (Hin : res ∈ (map_to_list store).*2) by (apply store_values; eauto).
      apply H in Hin. apply str_in_watchable in Hw. congruence.
    - intros H res Hin. apply store_values in Hin as [vid Hl].
      destruct (str_in _ _) eqn:E; [|done].
      exfalso. apply H. exists vid, res. split; [done|]. by apply str_in_watchable. }
  destruct cands as [|c cs] eqn:E.
  - simpl. split.
    + split; [discriminate|]. intros Hex. by apply Hc in Hex.
    + done.
  - replace (0 <? Z.of_nat (length (c :: cs))) with true
      by (symmetry; apply Z.ltb_lt; simpl; lia).
    split.
    + split; [intros _|done].
      apply filter_head in E as [Hin Hf].
      apply store_values in Hin as [vid Hl].
      exists vid, c. split; [done|]. by apply str_in_watchable.
    + intros Hn. apply Hc in Hn. discriminate.
Qed.

End RouteSelector.

Lemma route_selector_output_iff_witness :
  let store : gmap string State.VideoResource :=
    {[ "abc" := Fixtures.video "abc" "candidate" None ]} in
  let st := Fixtures.with_store store (Fixtures.initial "X") in
  State.video_store st = Some store /\
  ((Builder.route_selector_output st = Some "watcher" <->
      exists vid res, store !! vid = Some res /\ watchable res) /\
   (~ (exists vid res, store !! vid = Some res /\ watchable res) ->
      Builder.route_selector_output st = Some "checker")).
Proof.
  intros store st. split; [reflexivity|].
  apply (route_selector_output_iff st store). reflexivity.
Defined.

Example route_selector_verified_only :
  Builder.route_selector_output
    (Fixtures.with_store {[ "abc" := Fixtures.video "abc" "verified" None ]}
       (Fixtures.initial "X")) = Some "checker".
Proof. vm_compute. reflexivity. Qed.

Example route_selector_no_store :
  Builder.route_selector_output (Fixtures.initial "X") = None.
Proof. reflexivity. Qed.

(** ** The Checker and its loop bound *)

Section CheckerLoop.
Import State.

Definition keeps_loop_step (u : Upd.Update) : Prop := Upd.loop_step u = None.

Lemma apply_updates_loop_step (us : list Upd.Update) (st : AgentState) :
  Forall keeps_loop_step us ->
  loop_step (Merge.apply_updates st us) = loop_step st.
Proof.
  unfold Merge.apply_updates.
  revert st. induction us as [|u us IH]; intros st Hus; [done|].
  apply Forall_cons in Hus as [Hu Hus]. simpl. rewrite IH by done.
  simpl. unfold keeps_loop_step in Hu. by rewrite Hu.
Qed.

Lemma checker_node_step (max_loop_steps : Z) (st : AgentState) :
  Upd.loop_step (Checker.checker_node max_loop_steps st)
  = Some (default 0 (loop_step st) + 1).
Proof. reflexivity. Qed.

Lemma checker_node_signal (max_loop_steps : Z) (st : AgentState) :
  Upd.routing_signal (Checker.checker_node max_loop_steps st)
  = Some (if default 0 (loop_step st) + 1 <? max_loop_steps
          then "planner" else "analyst").
Proof. reflexivity. Qed.

(** The Checker reads nothing of the blackboard but the loop counter. *)
Lemma checker_node_content_independent (max_loop_steps : Z) (st st' : AgentState) :
  default 0 (loop_step st) = default 0 (loop_step st') ->
  Checker.checker_node max_loop_steps st = Checker.checker_node max_loop_steps st'.
Proof. unfold Checker.checker_node. by intros ->. Qed.

(** From a counter at [k], the calls that remain until the bound is reached
    all ask for another round, and the call that reaches it hands over to
    the Analyst. *)
Lemma checker_rounds_from (rounds : list (list Upd.Update)) :
  forall (st : AgentState) (k : Z),
    Forall (Forall keeps_loop_step) rounds ->
    default 0 (loop_step st) = k ->
    rounds <> [] ->
    Checker.checker_rounds (k + Z.of_nat (length rounds)) rounds st
    = replicate (length rounds - 1) (Some "planner") ++ [Some "analyst"].
Proof.
  induction rounds as [|others rest IH]; intros st k Hall Hk Hne; [done|].
  apply Forall_cons in Hall as [Hothers Hrest].
  cbn [Checker.checker_rounds]. rewrite checker_node_signal.
  rewrite apply_updates_loop_step by done. rewrite Hk.
  destruct rest as [|r rest'].
  - simpl. by destruct (Z.ltb_spec (k + 1) (k + Z.of_nat 1)); [lia|].
  - replace (k + 1 <? k + Z.of_nat (length (others :: r :: rest'))) with true
      by (symmetry; apply Z.ltb_lt; simpl length; lia).
    replace (k + Z.of_nat (length (others :: r :: rest')))
      with ((k + 1) + Z.of_nat (length (r :: rest'))) by (simpl length; lia).
    rewrite (IH _ (k + 1)); [| done | | done].
    + simpl. by rewrite Nat.sub_0_r.
    + simpl. rewrite apply_updates_loop_step by done. by rewrite Hk.
Qed.

(** C3: every Checker call returns the incoming loop counter plus one; and
    with the loop bound set to N, N consecutive rounds that start from a
    counter of 0 (absent or written) make the Checker emit "planner" on its
    first N-1 calls and "analyst" on the N-th, whatever the blackboard
    holds at the start and whatever the other stages merge in between. *)
Theorem checker_counts_rounds (N : nat) (st : AgentState)
    (rounds : list (list Upd.Update)) :
  (1 <= N)%nat ->
  length rounds = N ->
  Forall (Forall keeps_loop_step) rounds ->
  default 0 (loop_step st) = 0 ->
  (forall max_loop_steps st',
     Upd.loop_step (Checker.checker_node max_loop_steps st')
     = Some (default 0 (loop_step st') + 1)) /\
  Checker.checker_rounds (Z.of_nat N) rounds st
  = replicate (N - 1) (Some "planner") ++ [Some "analyst"].
Proof.
  intros HN Hlen Hall H0. split; [intros; apply checker_node_step|].
  subst N. replace (Z.of_nat (length rounds)) with (0 + Z.of_nat (length rounds)) by lia.
  apply checker_rounds_from; [done|done|].
  intros ->. simpl in HN. lia.
Qed.

End CheckerLoop.

Lemma checker_counts_rounds_witness :
  let st := Fixtures.with_store {[ "abc" := Fixtures.video "abc" "verified" None ]}
              (Fixtures.initial "X") in
  let rounds := [[Fixtures.queries_update ["q1"]]; []; [Fixtures.signal_update "noise"]] in
  (forall max_loop_steps st',
     Upd.loop_step (Checker.checker_node max_loop_steps st')
     = Some (default 0 (State.loop_step st') + 1)) /\
  Checker.checker_rounds 3 rounds st
  = [Some "planner"; Some "planner"; Some "analyst"].
Proof.
  intros st rounds.
  apply (checker_counts_rounds 3 st rounds).
  - lia.
  - reflexivity.
  - repeat constructor.
  - reflexivity.
Defined.

Example checker_two_rounds :
  Checker.checker_rounds 2 [[]; []] (Fixtures.initial "X")
  = [Some "planner"; Some "analyst"].
Proof. reflexivity. Qed.

(** ** The append reducer *)

Section AppendPolicy.
Import State.

(** What one partial update contributes to an append-policy field. *)
Definition contribution {A} (field : Upd.Update -> option (list A))
    (u : Upd.Update) : list A :=
  default [] (field u).

Lemma append_contribution {A} (cur : list A) (new : option (list A)) :
  Merge.append cur new = cur ++ default [] new.
Proof. destruct new; simpl; [done|]. by rewrite app_nil_r. Qed.

Lemma apply_update_tried_queries (st : AgentState) (u : Upd.Update) :
  tried_queries (Merge.apply_update st u)
  = tried_queries st ++ contribution Upd.tried_queries u.
Proof. apply append_contribution. Qed.

(** Each of the four history fields after any number of merges. *)
Lemma apply_updates_history (us : list Upd.Update) :
  forall st : AgentState,
    tried_queries (Merge.apply_updates st us)
      = tried_queries st ++ concat (contribution Upd.tried_queries <$> us) /\
    visited_video_ids (Merge.apply_updates st us)
      = visited_video_ids st ++ concat (contribution Upd.visited_video_ids <$> us) /\
    text_search_context (Merge.apply_updates st us)
      = text_search_context st ++ concat (contribution Upd.text_search_context <$> us) /\
    plan_trace (Merge.apply_updates st us)
      = plan_trace st ++ concat (contribution Upd.plan_trace <$> us).
Proof.
  unfold Merge.apply_updates.
  induction us as [|u us IH]; intros st; simpl.
  - by rewrite !app_nil_r.
  - destruct (IH (Merge.apply_update st u)) as (H1 & H2 & H3 & H4).
    rewrite H1, H2, H3, H4. simpl. rewrite !append_contribution.
    unfold contribution. by rewrite <- !app_assoc.
Qed.

Section Searches.
Variable youtube_search serper_search : string -> option (list (gmap string string)).
Variable tavily_search serper_web_search : string -> option (list (gmap string string)).
Variable video_provider : string.
Variable text_provider : option string.

Let searcher_node :=
  Searcher.searcher_node youtube_search serper_search tavily_search
    serper_web_search video_provider text_provider.

(** One search round: the Planner's queries are merged, the Searcher runs
    on the merged blackboard, and its update is merged. *)
Definition search_round (st : AgentState) (qs : list string) : AgentState :=
  let st := Merge.apply_update st (Fixtures.queries_update qs) in
  Merge.apply_update st (searcher_node st).

(** The Searcher hands the queries it was given to the history. *)
Lemma searcher_contribution (st : AgentState) :
  contribution Upd.tried_queries (searcher_node st)
  = default [] (current_search_queries st).
Proof.
  unfold contribution, searcher_node, Searcher.searcher_node.
  by destruct (default [] (current_search_queries st)).
Qed.

Lemma search_round_history (st : AgentState) (qs : list string) :
  tried_queries (search_round st qs) = tried_queries st ++ qs.
Proof.
  unfold search_round. rewrite !apply_update_tried_queries.
  rewrite searcher_contribution. simpl. by rewrite app_nil_r.
Qed.

(** C9: each append-policy field, after any number of merges, is its
    initial value followed by every update's contribution in merge order,
    nothing dropped or reordered; and three Searcher rounds of one query
    each leave the three queries in the history in call order, repeated
    queries included. *)
Theorem append_fields_concatenate (st : AgentState) (us : list Upd.Update)
    (q1 q2 q3 : string) :
  (tried_queries (Merge.apply_updates st us)
     = tried_queries st ++ concat (contribution Upd.tried_queries <$> us) /\
   visited_video_ids (Merge.apply_updates st us)
     = visited_video_ids st ++ concat (contribution Upd.visited_video_ids <$> us) /\
   text_search_context (Merge.apply_updates st us)
     = text_search_context st ++ concat (contribution Upd.text_search_context <$> us) /\
   plan_trace (Merge.apply_updates st us)
     = plan_trace st ++ concat (contribution Upd.plan_trace <$> us)) /\
  tried_queries (search_round (search_round (search_round st [q1]) [q2]) [q3])
    = tried_queries st ++ [q1; q2; q3].
Proof.
  split; [apply apply_updates_history|].
  rewrite !search_round_history. by rewrite <- !app_assoc.
Qed.

End Searches.
End AppendPolicy.

Example three_searches_with_a_repeat :
  State.tried_queries
    (search_round (fun _ => Some []) (fun _ => None) (fun _ => Some []) (fun _ => None)
       "youtube" (Some "tavily")
       (search_round (fun _ => Some []) (fun _ => None) (fun _ => Some []) (fun _ => None)
          "youtube" (Some "tavily")
          (search_round (fun _ => Some []) (fun _ => None) (fun _ => Some []) (fun _ => None)
             "youtube" (Some "tavily") (Fixtures.initial "X") ["a"])
          ["b"])
       ["a"])
  = ["a"; "b"; "a"].
Proof. vm_compute. reflexivity. Qed.

(** ** The metrics reducer *)

Section MetricsMerge.
Import State.

(** C2, as the code has it: the metrics field is merged one level deep.
    Every top-level key of the partial update takes the update's value, a
    per-category sub-map included, which replaces the current sub-map as a
    whole; every other top-level key keeps its current value, so
    categories under different keys accumulate independently; an update
    without metrics leaves the record as it is. *)
Theorem metrics_merge_one_level (cur : gmap string metric) :
  (forall (part : gmap string metric) (k : string),
     Merge.merge_metrics cur (Some part) !! k
     = match part !! k with Some v => Some v | None => cur !! k end) /\
  Merge.merge_metrics cur None = cur.
Proof.
  split; [|done]. intros part k.
  unfold Merge.merge_metrics, operator_ior.
  rewrite lookup_union. destruct (part !! k), (cur !! k); done.
Qed.

(** The per-category counters are added by the stage, before the merge:
    [update_token_metrics] keeps every key of the record it is given other
    than the three global counters and the category. *)
Lemma update_token_metrics_other_keys (cur new : gmap string metric)
    (r : Llm.response) (cat : option string) (k : string) :
  Metrics.update_token_metrics cur r cat = Some new ->
  k <> "input_tokens" -> k <> "output_tokens" -> k <> "total_tokens" ->
  Some k <> cat ->
  new !! k = cur !! k.
Proof.
  unfold Metrics.update_token_metrics, Metrics.add_counter.
  intros H Hi Ho Ht Hc.
  repeat match type of H with
         | context [match ?m !! ?key with _ => _ end] =>
             destruct (m !! key) as [[?|?]|] eqn:?; simpl in H; try discriminate
         end;
    destruct cat as [c|]; try destruct (PyStr.truthy c);
    inversion H; subst; clear H;
    rewrite ?lookup_insert_ne by congruence; done.
Qed.

End MetricsMerge.

Definition cur_metrics_cex : gmap string State.metric :=
  {[ "jit_watcher" := State.MCat {[ "input_tokens" := 5 ]} ]}.

Definition part_metrics_cex : gmap string State.metric :=
  {[ "jit_watcher" := State.MCat {[ "output_tokens" := 7 ]} ]}.

(** C2, as the claim words it, fails: merging a partial update whose
    "jit_watcher" sub-map holds only "output_tokens" into a record whose
    "jit_watcher" sub-map holds "input_tokens" drops "input_tokens", where
    a key-by-key merge of the sub-maps keeps both. *)
Lemma metrics_merge_not_two_level :
  Merge.merge_metrics cur_metrics_cex (Some part_metrics_cex) !! "jit_watcher"
    = Some (State.MCat {[ "output_tokens" := 7 ]}) /\
  MetricsSpec.two_level_merge cur_metrics_cex part_metrics_cex !! "jit_watcher"
    = Some (State.MCat ({[ "output_tokens" := 7 ]} ∪ {[ "input_tokens" := 5 ]})) /\
  Merge.merge_metrics cur_metrics_cex (Some part_metrics_cex)
    <> MetricsSpec.two_level_merge cur_metrics_cex part_metrics_cex.
Proof.
  assert (H1 : Merge.merge_metrics cur_metrics_cex (Some part_metrics_cex) !! "jit_watcher"
               = Some (State.MCat {[ "output_tokens" := 7 ]})).
  { unfold Merge.merge_metrics, State.operator_ior, cur_metrics_cex, part_metrics_cex.
    rewrite lookup_union, !lookup_singleton_eq. done. }
  assert (H2 : MetricsSpec.two_level_merge cur_metrics_cex part_metrics_cex !! "jit_watcher"
               = Some (State.MCat ({[ "output_tokens" := 7 ]} ∪ {[ "input_tokens" := 5 ]}))).
  { unfold MetricsSpec.two_level_merge, cur_metrics_cex, part_metrics_cex.
    rewrite lookup_union_with, !lookup_singleton_eq. done. }
  split; [done|]. split; [done|].
  intros Heq. rewrite Heq, H2 in H1.
  assert (Hm : ({[ "output_tokens" := 7 ]} ∪ {[ "input_tokens" := 5 ]} : gmap string Z)
               = {[ "output_tokens" := 7 ]}) by congruence.
  assert (Hl : ({[ "output_tokens" := 7 ]} ∪ {[ "input_tokens" := 5 ]} : gmap string Z)
                 !! "input_tokens" = Some 5).
  { rewrite lookup_union, lookup_singleton_ne by done.
    by rewrite lookup_singleton_eq. }
  rewrite Hm in Hl. rewrite lookup_singleton_ne in Hl by done. discriminate.
Qed.

(** ** The video-identifier resolver *)

Section Resolver.
Import PyStr.

(** A URL that shows none of the three patterns the resolver knows. *)
Definition no_known_pattern (u : string) : Prop :=
  contains "v=" u = false /\
  contains "/shorts/" u = false /\
  contains "youtu.be/" u = false.

Lemma extract_youtube_id_unmatched (u : string) :
  no_known_pattern u -> Parser.extract_youtube_id (Some u) = u.
Proof.
  intros (Hv & Hs & Hb). unfold Parser.extract_youtube_id.
  destruct u as [|c u']; [done|].
  cbn [truthy negb]. by rewrite Hv, Hs, Hb.
Qed.

(** C10: the resolver returns the empty string for a missing or an empty
    URL, and returns a URL that matches none of "v=", "/shorts/" and
    "youtu.be/" unchanged; so the Searcher files such a candidate in its
    deduplication table under the full raw URL, which is also the "id" it
    writes on the candidate. *)
Theorem extract_youtube_id_fallback :
  Parser.extract_youtube_id None = EmptyString /\
  Parser.extract_youtube_id (Some EmptyString) = EmptyString /\
  forall u : string,
    no_known_pattern u ->
    Parser.extract_youtube_id (Some u) = u /\
    forall (cand : gmap string string) (acc : list (string * gmap string string)),
      cand !! "link" = Some u ->
      truthy u = true ->
      Searcher.dedup_step acc cand
      = if Searcher.has_key u acc then acc
        else acc ++ [(u, <["id" := u]> cand)].
Proof.
  split; [done|]. split; [done|].
  intros u Hu. split; [by apply extract_youtube_id_unmatched|].
  intros cand acc Hlink Ht. unfold Searcher.dedup_step.
  by rewrite Hlink, Ht, extract_youtube_id_unmatched.
Qed.

End Resolver.

Definition vimeo_a : gmap string string :=
  {[ "link" := "https://vimeo.com/12345?autoplay=1"; "title" := "First" ]}.

Definition vimeo_b : gmap string string :=
  {[ "link" := "https://vimeo.com/12345?autoplay=0"; "title" := "Second" ]}.

Lemma extract_youtube_id_fallback_witness :
  no_known_pattern "https://vimeo.com/12345?autoplay=1" /\
  vimeo_a !! "link" = Some "https://vimeo.com/12345?autoplay=1" /\
  Parser.extract_youtube_id (Some "https://vimeo.com/12345?autoplay=1")
    = "https://vimeo.com/12345?autoplay=1" /\
  Searcher.dedup_step [] vimeo_a
    = [("https://vimeo.com/12345?autoplay=1",
        <["id" := "https://vimeo.com/12345?autoplay=1"]> vimeo_a)].
Proof.
  assert (Hn : no_known_pattern "https://vimeo.com/12345?autoplay=1")
    by (repeat split; reflexivity).
  assert (Hl : vimeo_a !! "link" = Some "https://vimeo.com/12345?autoplay=1")
    by reflexivity.
  split; [exact Hn|]. split; [exact Hl|].
  destruct extract_youtube_id_fallback as (_ & _ & H).
  destruct (H _ Hn) as [Hid Hstep].
  split; [exact Hid|].
  exact (Hstep vimeo_a [] Hl eq_refl).
Defined.

(** A link that shows none of "watch?v=", "/shorts/" and "youtu.be/" and
    still holds "v=". *)
Definition watch_slash_link : string := "https://www.facebook.com/watch/?v=1234567".

Definition rev_link : string := "https://example.org/clip?rev=1234567".

(** C10, as the claim words it, fails: the resolver tests the bare "v=",
    not "watch?v=", so a link without any of "watch?v=", "/shorts/" and
    "youtu.be/" is not always returned unchanged. *)
Lemma extract_youtube_id_bare_v_pattern :
  ~ (forall u : string,
       PyStr.contains "watch?v=" u = false ->
       PyStr.contains "/shorts/" u = false ->
       PyStr.contains "youtu.be/" u = false ->
       Parser.extract_youtube_id (Some u) = u).
Proof.
  intros H. specialize (H watch_slash_link eq_refl eq_refl eq_refl).
  vm_compute in H. discriminate H.
Qed.

(** The link is cut to what follows its "v=", and the Searcher files it
    under that piece, together with an unrelated link that ends in the
    same piece. *)
Example watch_slash_link_is_cut :
  Parser.extract_youtube_id (Some watch_slash_link) = "1234567" /\
  Searcher.dedup_candidates
    [ {[ "link" := watch_slash_link ]}; {[ "link" := rev_link ]} ]
  = [ <["id" := "1234567"]> {[ "link" := watch_slash_link ]} ].
Proof. split; vm_compute; reflexivity. Qed.

(** Two links to the same video that differ in the query string and match
    no known pattern are filed under different keys, and both survive. *)
Example unmatched_links_both_survive :
  length (Searcher.dedup_candidates [vimeo_a; vimeo_b]) = 2%nat.
Proof. vm_compute. reflexivity. Qed.

Example extract_watch :
  Parser.extract_youtube_id (Some "https://www.youtube.com/watch?v=abc123&t=10s") = "abc123".
Proof. reflexivity. Qed.

Example extract_shorts :
  Parser.extract_youtube_id (Some "https://www.youtube.com/shorts/xyz?feature=share") = "xyz".
Proof. reflexivity. Qed.

Example extract_short_link :
  Parser.extract_youtube_id (Some "https://youtu.be/Q1w2?t=3") = "Q1w2".
Proof. reflexivity. Qed.

Example split_overlap : PyStr.split "aa" "aaa" = [EmptyString; "a"].
Proof. reflexivity. Qed.

(** ** Deduplication in the Searcher *)

Section Dedup.
Import Searcher.

(** The identifier a raw candidate resolves to; none when it has no link. *)
Definition key_of (cand : gmap string string) : option string :=
  match cand !! "link" with
  | Some link =>
      if PyStr.truthy link then Some (Parser.extract_youtube_id (Some link)) else None
  | None => None
  end.

Definition resolves_to (k : string) (cand : gmap string string) : bool :=
  bool_decide (key_of cand = Some k).

Definition has_id (k : string) (entry : gmap string string) : bool :=
  bool_decide (entry !! "id" = Some k).

(** [unique_candidates.get(k)] *)
Fixpoint entry (k : string) (acc : list (string * gmap string string))
    : option (gmap string string) :=
  match acc with
  | [] => None
  | (k', e) :: rest => if String.eqb k' k then Some e else entry k rest
  end.

(** Keys are distinct and every stored candidate carries its key as "id". *)
Definition well_keyed (acc : list (string * gmap string string)) : Prop :=
  NoDup acc.*1 /\ Forall (fun kv => kv.2 !! "id" = Some kv.1) acc.

Lemma dedup_step_key (acc : list (string * gmap string string))
    (c : gmap string string) :
  dedup_step acc c =
    match key_of c with
    | Some k => if has_key k acc then acc else acc ++ [(k, <["id" := k]> c)]
    | None => acc
    end.
Proof.
  unfold dedup_step, key_of. destruct (c !! "link") as [l|]; [|done].
  by destruct (PyStr.truthy l).
Qed.

Lemma has_key_entry (k : string) (acc : list (string * gmap string string)) :
  has_key k acc = false <-> entry k acc = None.
Proof.
  unfold has_key. induction acc as [|[k' e] acc IH]; simpl; [done|].
  destruct (String.eqb k' k); simpl; [split; discriminate | exact IH].
Qed.

Lemma has_key_elem (k : string) (acc : list (string * gmap string string)) :
  has_key k acc = false <-> k ∉ acc.*1.
Proof.
  unfold has_key. induction acc as [|[k' e] acc IH]; simpl.
  - split; [intros _ H; by apply elem_of_nil in H | done].
  - rewrite not_elem_of_cons, <- IH.
    destruct (String.eqb_spec k' k) as [->|Hne]; simpl.
    + split; [discriminate | intros [? _]; done].
    + split; [intros H; split; [congruence | done] | intros [_ H]; done].
Qed.

Lemma entry_app (k k' : string) (e : gmap string string)
    (acc : list (string * gmap string string)) :
  entry k (acc ++ [(k', e)]) =
    match entry k acc with
    | Some x => Some x
    | None => if String.eqb k' k then Some e else None
    end.
Proof.
  induction acc as [|[k0 e0] acc IH]; simpl; [done|].
  by destruct (String.eqb k0 k).
Qed.

Lemma entry_step (k : string) (acc : list (string * gmap string string))
    (c : gmap string string) :
  entry k (dedup_step acc c) =
    match entry k acc with
    | Some x => Some x
    | None => if resolves_to k c then Some (<["id" := k]> c) else None
    end.
Proof.
  rewrite dedup_step_key. unfold resolves_to.
  destruct (key_of c) as [k'|].
  - destruct (has_key k' acc) eqn:Hk.
    + destruct (entry k acc) eqn:He; [done|].
      rewrite bool_decide_eq_false_2; [done|].
      intros [= ->]. apply has_key_entry in He. congruence.
    + rewrite entry_app. destruct (entry k acc); [done|].
      destruct (String.eqb_spec k' k) as [->|Hne].
      * by rewrite bool_decide_eq_true_2.
      * rewrite bool_decide_eq_false_2; [done | congruence].
  - destruct (entry k acc); [done|]. by rewrite bool_decide_eq_false_2.
Qed.

Lemma entry_fold (k : string) (cands : list (gmap string string)) :
  forall acc,
    entry k (fold_left dedup_step cands acc) =
      match entry k acc with
      | Some x => Some x
      | None => (fun c => <["id" := k]> c) <$> List.find (resolves_to k) cands
      end.
Proof.
  induction cands as [|c cands IH]; intros acc; simpl.
  - by destruct (entry k acc).
  - rewrite IH, entry_step. destruct (entry k acc); [done|].
    by destruct (resolves_to k c).
Qed.

Lemma well_keyed_step (acc : list (string * gmap string string))
    (c : gmap string string) :
  well_keyed acc -> well_keyed (dedup_step acc c).
Proof.
  intros [Hnd Hid]. rewrite dedup_step_key.
  destruct (key_of c) as [k|]; [|done].
  destruct (has_key k acc) eqn:Hk; [done|].
  apply has_key_elem in Hk. split.
  - rewrite fmap_app. apply NoDup_app. split; [done|]. split.
    + intros x Hx Hx'. apply list_elem_of_singleton in Hx'. simpl in Hx'. by subst.
    + apply NoDup_singleton.
  - apply Forall_app. split; [done|]. constructor; [|done].
    simpl. by rewrite lookup_insert_eq.
Qed.

Lemma well_keyed_fold (cands : list (gmap string string)) :
  forall acc, well_keyed acc -> well_keyed (fold_left dedup_step cands acc).
Proof.
  induction cands as [|c cands IH]; intros acc H; simpl; [done|].
  by apply IH, well_keyed_step.
Qed.

Lemma filter_has_id (k : string) (acc : list (string * gmap string string)) :
  well_keyed acc ->
  List.filter (has_id k) acc.*2 =
    match entry k acc with Some e => [e] | None => [] end.
Proof.
  induction acc as [|[k' e] acc IH]; intros [Hnd Hid]; [done|].
  apply NoDup_cons in Hnd as [Hnotin Hnd]. apply Forall_cons in Hid as [He Hid].
  simpl in He, Hnotin. cbn [fmap list_fmap snd List.filter entry].
  unfold has_id at 1. rewrite He.
  destruct (String.eqb_spec k' k) as [->|Hne].
  - rewrite bool_decide_eq_true_2 by done.
    rewrite IH by done. apply has_key_elem, has_key_entry in Hnotin.
    by rewrite Hnotin.
  - rewrite bool_decide_eq_false_2 by congruence. by apply IH.
Qed.

Lemma dedup_keeps_first (cands : list (gmap string string)) (k : string)
    (c : gmap string string) :
  List.find (resolves_to k) cands = Some c ->
  List.filter (has_id k) (dedup_candidates cands) = [<["id" := k]> c].
Proof.
  intros Hfind. unfold dedup_candidates.
  rewrite filter_has_id by (apply well_keyed_fold; split; constructor).
  by rewrite entry_fold, Hfind.
Qed.

Section Searches.
Variable youtube_search serper_search : string -> option (list (gmap string string)).
Variable tavily_search serper_web_search : string -> option (list (gmap string string)).
Variable video_provider : string.
Variable text_provider : option string.

(** Everything the video searches of this call returned, in order. *)
Definition all_video_candidates (st : State.AgentState) : list (gmap string string) :=
  (search_all youtube_search serper_search tavily_search serper_web_search
     video_provider text_provider
     (default [] (State.current_search_queries st))).1.

(** C5: when raw candidates of a Searcher call resolve to the video
    identifier [k], the returned raw_candidates list holds exactly one
    entry for [k]: the first such candidate in input order, with the
    identifier written under "id". *)
Theorem searcher_dedup_keeps_first (st : State.AgentState) (k : string)
    (c : gmap string string) :
  List.find (resolves_to k) (all_video_candidates st) = Some c ->
  exists out,
    Upd.raw_candidates
      (searcher_node youtube_search serper_search tavily_search serper_web_search
         video_provider text_provider st) = Some out /\
    List.filter (has_id k) out = [<["id" := k]> c].
Proof.
  unfold all_video_candidates, searcher_node.
  destruct (default [] (State.current_search_queries st)) as [|q qs]; [done|].
  intros Hfind. eexists. split; [reflexivity|].
  by apply dedup_keeps_first.
Qed.

End Searches.
End Dedup.

Definition watch_a : gmap string string :=
  {[ "link" := "https://www.youtube.com/watch?v=abc123&t=10s"; "title" := "First" ]}.

Definition watch_b : gmap string string :=
  {[ "link" := "https://www.youtube.com/watch?v=abc123&pp=xyz"; "title" := "Second" ]}.

Definition no_link : gmap string string := {[ "title" := "No link" ]}.

Definition one_query : State.AgentState :=
  Merge.apply_update (Fixtures.initial "X") (Fixtures.queries_update ["cats"]).

Lemma searcher_dedup_keeps_first_witness :
  let youtube := fun _ : string => Some [no_link; watch_a; watch_b] in
  let none := fun _ : string => @None (list (gmap string string)) in
  List.find (resolves_to "abc123")
    (all_video_candidates youtube none none none "youtube" None one_query)
    = Some watch_a /\
  exists out,
    Upd.raw_candidates
      (Searcher.searcher_node youtube none none none "youtube" None one_query)
      = Some out /\
    List.filter (has_id "abc123") out = [<["id" := "abc123"]> watch_a].
Proof.
  intros youtube none.
  assert (H : List.find (resolves_to "abc123")
                (all_video_candidates youtube none none none "youtube" None one_query)
              = Some watch_a) by (vm_compute; reflexivity).
  split; [exact H|].
  exact (searcher_dedup_keeps_first youtube none none none "youtube" None
           one_query "abc123" watch_a H).
Defined.

Example searcher_returns_one_of_two :
  Searcher.dedup_candidates [no_link; watch_a; watch_b]
  = [<["id" := "abc123"]> watch_a].
Proof. vm_compute. reflexivity. Qed.

(** ** The Selector and the status of known videos *)

Section SelectorStore.
Import State Selector.

(** What a pass of the store loop leaves of a resource it finds. *)
Definition mark (res : VideoResource) : VideoResource :=
  if str_in (status res) ["verified"; "watched"] then res
  else set_status "candidate" res.

(** The identifiers the store loop computes, from index [i] on. *)
Fixpoint selected_ids (i : nat) (target_videos : list (gmap string string))
    : list string :=
  match target_videos with
  | [] => []
  | video :: rest => target_id i video :: selected_ids (S i) rest
  end.

Lemma mark_status (res : VideoResource) :
  status (mark res)
  = if str_in (status res) ["verified"; "watched"] then status res else "candidate".
Proof. unfold mark. by destruct (str_in _ _). Qed.

Lemma mark_idempotent (res : VideoResource) : mark (mark res) = mark res.
Proof.
  unfold mark at 2 3. destruct (str_in (status res) _) eqn:E.
  - unfold mark. by rewrite E.
  - reflexivity.
Qed.

Lemma mark_candidate (res : VideoResource) :
  status res = "candidate" -> status (mark res) = "candidate".
Proof. intros H. rewrite mark_status, H. reflexivity. Qed.

Lemma store_step_other (store : gmap string VideoResource) (i : nat)
    (video : gmap string string) (vid : string) :
  vid <> target_id i video ->
  store_step store i video !! vid = store !! vid.
Proof.
  intros Hne. unfold store_step.
  destruct (store !! target_id i video) as [res|].
  - destruct (negb _); [|done]. by rewrite lookup_insert_ne.
  - by rewrite lookup_insert_ne.
Qed.

Lemma store_step_known (store : gmap string VideoResource) (i : nat)
    (video : gmap string string) (res : VideoResource) :
  store !! target_id i video = Some res ->
  store_step store i video !! target_id i video = Some (mark res).
Proof.
  intros Hres. unfold store_step, mark. rewrite Hres.
  destruct (str_in (status res) _); simpl; [done|].
  by rewrite lookup_insert_eq.
Qed.

Lemma store_step_unseen (store : gmap string VideoResource) (i : nat)
    (video : gmap string string) :
  store !! target_id i video = None ->
  exists res, store_step store i video !! target_id i video = Some res /\
              status res = "candidate".
Proof.
  intros Hnone. unfold store_step. rewrite Hnone.
  eexists. by rewrite lookup_insert_eq.
Qed.

Lemma store_loop_known (target_videos : list (gmap string string)) :
  forall (store : gmap string VideoResource) (i : nat) (vid : string)
         (res : VideoResource),
    store !! vid = Some res ->
    store_loop store i target_videos !! vid
    = Some (if bool_decide (vid ∈ selected_ids i target_videos)
            then mark res else res).
Proof.
  induction target_videos as [|video rest IH]; intros store i vid res Hres.
  - cbn [store_loop selected_ids].
    by rewrite bool_decide_eq_false_2 by apply not_elem_of_nil.
  - cbn [store_loop selected_ids].
    destruct (decide (vid = target_id i video)) as [->|Hne].
    + rewrite (IH _ _ _ (mark res)) by by apply store_step_known.
      assert (Hin : target_id i video ∈ target_id i video :: selected_ids (S i) rest)
        by (apply elem_of_cons; by left).
      rewrite (bool_decide_eq_true_2 _ Hin), mark_idempotent.
      by destruct (bool_decide _).
    + rewrite (IH _ _ _ res) by by rewrite store_step_other.
      f_equal. apply (f_equal (fun b : bool => if b then mark res else res)).
      apply bool_decide_ext. rewrite elem_of_cons.
      split; [by right | by intros [?|?]].
Qed.

Lemma store_loop_unseen (target_videos : list (gmap string string)) :
  forall (store : gmap string VideoResource) (i : nat) (vid : string),
    store !! vid = None ->
    vid ∈ selected_ids i target_videos ->
    exists res, store_loop store i target_videos !! vid = Some res /\
                status res = "candidate".
Proof.
  induction target_videos as [|video rest IH]; intros store i vid Hnone Hin.
  - by apply elem_of_nil in Hin.
  - cbn [store_loop selected_ids] in *.
    destruct (decide (vid = target_id i video)) as [->|Hne].
    + destruct (store_step_unseen store i video Hnone) as (r0 & Hr0 & Hst).
      rewrite (store_loop_known rest _ _ _ r0 Hr0).
      eexists. split; [reflexivity|].
      destruct (bool_decide _); [by apply mark_candidate | done].
    + apply elem_of_cons in Hin as [?|Hin]; [done|].
      apply IH; [|done]. by rewrite store_step_other.
Qed.

Section Run.
Variable llm_invoke : list Llm.message -> Llm.outcome.
Variable extract_json_from_text : string -> option Json.json.
Variable load_prompt : string -> Z -> list (gmap string string) -> string.
Variable top_k : Z.

(** The videos one Selector call selects; none when it returns early. *)
Definition selected (st : AgentState) : list (gmap string string) :=
  match default [] (raw_candidates st) with
  | [] => []
  | raw :: raws =>
      match valid_candidates_of (raw :: raws) with
      | [] => []
      | valid =>
          (target_videos_of llm_invoke extract_json_from_text load_prompt top_k
             (metrics st) (default EmptyString (user_query st)) valid).1
      end
  end.

Lemma selector_node_store (st : AgentState) :
  Upd.video_store
    (selector_node llm_invoke extract_json_from_text load_prompt top_k st)
  = Some (store_loop (default ∅ (video_store st)) 0 (selected st)).
Proof.
  unfold selector_node, selected.
  destruct (default [] (raw_candidates st)) as [|raw raws]; [done|].
  by destruct (valid_candidates_of (raw :: raws)).
Qed.

(** C4: in the store a Selector call returns, a resource that was
    "verified" or "watched" is unchanged, whether or not the call selected
    its identifier again; a selected identifier that the store held with
    any other status is marked "candidate" again; and a selected identifier
    that the store did not hold is inserted with status "candidate". *)
Theorem selector_keeps_verified (st : AgentState) :
  exists new,
    Upd.video_store
      (selector_node llm_invoke extract_json_from_text load_prompt top_k st)
      = Some new /\
    (forall vid res,
       default ∅ (video_store st) !! vid = Some res ->
       str_in (status res) ["verified"; "watched"] = true ->
       new !! vid = Some res) /\
    (forall vid,
       vid ∈ selected_ids 0 (selected st) ->
       match default ∅ (video_store st) !! vid with
       | Some res =>
           new !! vid
           = Some (if str_in (status res) ["verified"; "watched"] then res
                   else set_status "candidate" res)
       | None => exists res, new !! vid = Some res /\ status res = "candidate"
       end).
Proof.
  eexists. split; [apply selector_node_store|]. split.
  - intros vid res Hres Hst. rewrite (store_loop_known _ _ _ _ res Hres).
    unfold mark. rewrite Hst. by destruct (bool_decide _).
  - intros vid Hin. destruct (default ∅ (video_store st) !! vid) as [res|] eqn:Hres.
    + rewrite (store_loop_known _ _ _ _ res Hres).
      by rewrite bool_decide_eq_true_2.
    + by apply store_loop_unseen.
Qed.

End Run.
End SelectorStore.


Definition raw_known : gmap string string :=
  {[ "link" := "https://youtu.be/abc?t=5"; "title" := "Known" ]}.

Definition raw_fresh : gmap string string :=
  {[ "link" := "https://www.youtube.com/watch?v=new1"; "title" := "Fresh" ]}.

Definition raw_retry : gmap string string :=
  {[ "link" := "https://www.youtube.com/shorts/old9"; "title" := "Retry" ]}.

Definition rediscovery : State.AgentState :=
  Merge.apply_update
    (Fixtures.with_store
       {[ "abc" := Fixtures.video "abc" "verified" (Some "text");
          "old9" := Fixtures.video "old9" "rejected" None ]}
       (Fixtures.initial "X"))
    (Fixtures.candidates_update [raw_known; raw_fresh; raw_retry]).

Example selector_rediscovers_three :
  let new :=
    default ∅
      (Upd.video_store
         (Selector.selector_node (fun _ => Llm.Failed "offline") (fun _ => None)
            (fun _ _ _ => EmptyString) 5 rediscovery)) in
  State.status <$> new !! "abc" = Some "verified" /\
  State.status <$> new !! "new1" = Some "candidate" /\
  State.status <$> new !! "old9" = Some "candidate".
Proof. vm_compute. repeat split. Qed.

Lemma selector_keeps_verified_witness :
  let llm := fun _ : list Llm.message => Llm.Failed "offline" in
  let parse := fun _ : string => @None Json.json in
  let prompt := fun (_ : string) (_ : Z) (_ : list (gmap string string)) => EmptyString in
  "abc" ∈ selected_ids 0 (selected llm parse prompt 5 rediscovery) /\
  "new1" ∈ selected_ids 0 (selected llm parse prompt 5 rediscovery) /\
  exists new,
    Upd.video_store (Selector.selector_node llm parse prompt 5 rediscovery) = Some new /\
    new !! "abc" = Some (Fixtures.video "abc" "verified" (Some "text")) /\
    new !! "old9" = Some (Fixtures.video "old9" "candidate" None) /\
    exists res, new !! "new1" = Some res /\ State.status res = "candidate".
Proof.
  intros llm parse prompt.
  assert (Ha : "abc" ∈ selected_ids 0 (selected llm parse prompt 5 rediscovery))
    by (vm_compute; repeat constructor).
  assert (Hn : "new1" ∈ selected_ids 0 (selected llm parse prompt 5 rediscovery))
    by (vm_compute; repeat constructor).
  assert (Ho : "old9" ∈ selected_ids 0 (selected llm parse prompt 5 rediscovery))
    by (vm_compute; repeat constructor).
  split; [exact Ha|]. split; [exact Hn|].
  destruct (selector_keeps_verified llm parse prompt 5 rediscovery)
    as (new & Hnew & Hkeep & Hsel).
  exists new. split; [exact Hnew|]. split; [|split].
  - apply Hkeep; reflexivity.
  - exact (Hsel "old9" Ho).
  - exact (Hsel "new1" Hn).
Defined.

(** ** The Planner's fallback *)

Section PlannerFallback.
Import State Json.

Variable llm_invoke : list Llm.message -> Llm.outcome.
Variable extract_json_from_text : string -> option json.
Variable format_planner_view : AgentState -> string.
Variable load_prompt : Z -> string.
Variable max_queries : Z.
Variable py_str : json -> string.

Let planner_node :=
  Planner.planner_node llm_invoke extract_json_from_text format_planner_view
    load_prompt max_queries py_str.

Let try_plan := Planner.try_plan extract_json_from_text max_queries.

Definition fallback_thought : string :=
  "Thought: Parsing error, fallback to original query.".

(** The three ways the [try] block fails: the text holds no JSON, the JSON
    is not an object, or its queries cannot be sliced. *)
Lemma try_plan_no_json (text : string) :
  extract_json_from_text text = None -> try_plan text = None.
Proof. unfold try_plan, Planner.try_plan. by intros ->. Qed.

Lemma try_plan_not_an_object (text : string) (j : json) :
  extract_json_from_text text = Some j ->
  (forall fields, j <> JObj fields) ->
  try_plan text = None.
Proof.
  unfold try_plan, Planner.try_plan. intros -> Hj. simpl.
  destruct j; try done. by destruct (Hj fields).
Qed.

Lemma try_plan_unsliceable (text : string) (fields : list (string * json))
    (qs : json) :
  extract_json_from_text text = Some (JObj fields) ->
  dict_get fields "search_queries" = Some qs ->
  truthy qs = true ->
  slice_to max_queries qs = None ->
  try_plan text = None.
Proof.
  unfold try_plan, Planner.try_plan. intros -> Hqs Ht Hs. simpl.
  by rewrite Hqs, Ht, Hs.
Qed.

(** C6: when the model answered and the [try] block that parses its
    answer fails, the Planner returns the user query as its only search
    query and a plan trace of exactly one entry that notes the fallback;
    and whatever the parser makes of the answer, the Planner returns. *)
Theorem planner_falls_back (st : AgentState) (response : Llm.response)
    (q : string) (m : gmap string metric) :
  llm_invoke [Llm.SystemMessage (load_prompt max_queries);
              Llm.HumanMessage (format_planner_view st)] = Llm.Responded response ->
  Metrics.update_token_metrics (metrics st) response None = Some m ->
  user_query st = Some q ->
  (exists out, planner_node st = Some out) /\
  (try_plan (Llm.content response) = None ->
   exists out u,
     planner_node st = Some out /\
     Planner.plan_trace out = [fallback_thought] /\
     Planner.current_search_queries out = JArr [JStr q] /\
     Planner.to_update out = Some u /\
     Upd.current_search_queries u = Some [q] /\
     Upd.plan_trace u = Some [fallback_thought]).
Proof.
  intros Hllm Hm Hq. unfold planner_node, try_plan, Planner.planner_node.
  rewrite Hllm, Hm. cbn [mbind option_bind].
  split.
  - destruct (Planner.try_plan _ _ _) as [fields|]; [by eexists|].
    rewrite Hq. by eexists.
  - intros ->. rewrite Hq. cbn [mbind option_bind].
    do 2 eexists. split; [reflexivity|]. by repeat split.
Qed.

End PlannerFallback.

Definition prose_answer : Llm.response :=
  {| Llm.content := "Sorry, I cannot produce a plan.";
     Llm.prompt_tokens := Some 12; Llm.completion_tokens := Some 7;
     Llm.total_tokens := Some 19 |}.

Lemma planner_falls_back_witness :
  let llm := fun _ : list Llm.message => Llm.Responded prose_answer in
  let parse := fun _ : string => @None Json.json in
  let view := fun _ : State.AgentState => "view" in
  let prompt := fun _ : Z => "prompt" in
  let str := fun _ : Json.json => "?" in
  Planner.try_plan parse 3 (Llm.content prose_answer) = None /\
  exists out u,
    Planner.planner_node llm parse view prompt 3 str (Fixtures.initial "X") = Some out /\
    Planner.plan_trace out = [fallback_thought] /\
    Planner.current_search_queries out = Json.JArr [Json.JStr "X"] /\
    Planner.to_update out = Some u /\
    Upd.current_search_queries u = Some ["X"] /\
    Upd.plan_trace u = Some [fallback_thought].
Proof.
  intros llm parse view prompt str.
  split; [reflexivity|].
  refine (proj2 (planner_falls_back llm parse view prompt 3 str (Fixtures.initial "X")
                   prose_answer "X"
                   {[ "input_tokens" := State.MNum 12; "output_tokens" := State.MNum 7;
                      "total_tokens" := State.MNum 19 ]} _ _ _) eq_refl).
  - reflexivity.
  - vm_compute. reflexivity.
  - reflexivity.
Defined.

(** A plan that is a list, not an object, is a parse failure as well. *)
Example planner_list_plan :
  Planner.current_search_queries <$>
    Planner.planner_node (fun _ => Llm.Responded prose_answer)
      (fun _ => Some (Json.JArr [Json.JStr "q1"])) (fun _ => "view") (fun _ => "prompt")
      3 (fun _ => "?") (Fixtures.initial "X")
  = Some (Json.JArr [Json.JStr "X"]).
Proof. vm_compute. reflexivity. Qed.

(** A well-formed plan is cut to the configured number of queries. *)
Example planner_cuts_queries :
  Planner.current_search_queries <$>
    Planner.planner_node (fun _ => Llm.Responded prose_answer)
      (fun _ => Some (Json.JObj
                        [("thought", Json.JStr "t");
                         ("search_queries",
                          Json.JArr [Json.JStr "a"; Json.JStr "b"; Json.JStr "c"])]))
      (fun _ => "view") (fun _ => "prompt") 2 (fun _ => "?") (Fixtures.initial "X")
  = Some (Json.JArr [Json.JStr "a"; Json.JStr "b"]).
Proof. vm_compute. reflexivity. Qed.

(** ** The Analyst's outcomes *)

Section AnalystOutcomes.
Import State Json Analyst.

Variable items : gmap string VideoResource -> list (string * VideoResource).
Variable json_loads : string -> option json.
Variable download_video_file : string -> download.
Variable extract_frames_from_window : string -> Q -> Q -> list frame.
Variable le_other : json -> json -> option bool.
Variable str_of : json -> string.
Variable splitlines : string -> list string.
Variable line_times : string -> option (Q * Q).
Variable fmt1 : Q -> string.
Variable slice_chars : Z -> string -> string.
Variable load_prompt : string -> string.
Variable llm_invoke : list Llm.message -> Llm.outcome.
Variable metrics_error : string.

(** Whatever the insertion order of the store is, [items] lists its
    entries, each of them once. *)
Hypothesis items_listing : forall m, items m ≡ₚ map_to_list m.

Let analyst_node :=
  Analyst.analyst_node items json_loads download_video_file extract_frames_from_window
    le_other str_of splitlines line_times fmt1 slice_chars load_prompt llm_invoke
    metrics_error.

Let windows_of := Analyst.windows_of json_loads download_video_file.
Let read_window := Analyst.read_window le_other str_of.

Let window_step :=
  Analyst.window_step extract_frames_from_window le_other str_of line_times fmt1.

Let gather_step :=
  Analyst.gather_step json_loads download_video_file extract_frames_from_window
    le_other str_of splitlines line_times fmt1.

Let transcript_step := Analyst.transcript_step slice_chars.
Let synthesize := Analyst.synthesize load_prompt llm_invoke metrics_error.

Definition no_videos_answer : string := "No videos were successfully processed.".

Definition no_content_answer : string :=
  "No relevant video content or transcripts found to answer the query.".

(** The window sends an exception out of the inner loop. *)
Definition window_raises (win : json) : bool :=
  match read_window win with Raise => true | _ => false end.

(** The window ends after it starts: the inner loop works on it. *)
Definition window_usable (win : json) : bool :=
  match read_window win with Take _ => true | _ => false end.

(** The first loop raises on the resource: its summary parses to
    something that is not an object, or its windows have no length, or
    the download raises, or one of the windows raises. *)
Definition raises (res : VideoResource) : bool :=
  match windows_of res with
  | Raise => true
  | Skip => false
  | Take (_, windows) => existsb window_raises windows
  end.

(** The resource yields a relevant window: it is verified, its summary
    parses to a relevant analysis, its file can be retrieved, and one of
    its windows ends after it starts. *)
Definition yields_window (res : VideoResource) : bool :=
  match windows_of res with
  | Take (_, windows) => existsb window_usable windows
  | _ => false
  end.

Definition with_transcript (res : VideoResource) : bool :=
  opt_truthy (transcript res).

(** Some resource of the store passes the test [f]. *)
Definition some_resource (f : VideoResource -> bool) (st : AgentState) : Prop :=
  exists vid res, default ∅ (video_store st) !! vid = Some res /\ f res = true.

Lemma raised_stays (res : VideoResource) (path : string) (lines : list string)
    (windows : list json) :
  fold_left (window_step res path lines) windows None = None.
Proof. by induction windows. Qed.

Lemma gather_raised_stays (rs : list VideoResource) :
  fold_left gather_step rs None = None.
Proof. by induction rs. Qed.

Lemma window_fold (res : VideoResource) (path : string) (lines : list string)
    (windows : list json) :
  forall a : list Llm.content_part * bool,
    (existsb window_raises windows = true /\
     fold_left (window_step res path lines) windows (Some a) = None) \/
    (existsb window_raises windows = false /\
     exists parts,
       fold_left (window_step res path lines) windows (Some a)
       = Some (parts, a.2 || existsb window_usable windows)).
Proof.
  induction windows as [|win windows IH]; intros a.
  - right. split; [done|]. exists a.1. cbn. by rewrite orb_false_r; destruct a.
  - cbn [fold_left existsb]. unfold window_raises at 1 3, window_usable at 1.
    unfold window_step at 2 4, Analyst.window_step. fold read_window.
    destruct (read_window win) as [|w|].
    + cbn [orb]. apply IH.
    + cbn [orb].
      destruct (IH (a.1 ++ window_parts extract_frames_from_window line_times fmt1
                            res path lines w, true))
        as [[Hr Hf]|[Hr [parts Hf]]].
      * left. by split.
      * right. split; [done|]. exists parts. rewrite Hf. cbn [snd].
        by rewrite orb_true_r.
    + left. split; [done|]. apply raised_stays.
Qed.

Lemma gather_fold (rs : list VideoResource) :
  forall a : list Llm.content_part * bool,
    (existsb raises rs = true /\ fold_left gather_step rs (Some a) = None) \/
    (existsb raises rs = false /\
     exists parts,
       fold_left gather_step rs (Some a)
       = Some (parts, a.2 || existsb yields_window rs)).
Proof.
  induction rs as [|res rs IH]; intros a.
  - right. split; [done|]. exists a.1. cbn. by rewrite orb_false_r; destruct a.
  - cbn [fold_left existsb]. unfold raises at 1 3, yields_window at 1.
    unfold gather_step at 2 4, Analyst.gather_step. fold windows_of.
    destruct (windows_of res) as [|[path windows]|].
    + cbn [orb]. apply IH.
    + fold window_step.
      destruct (window_fold res path
                  (if opt_truthy (transcript res)
                   then splitlines (default EmptyString (transcript res)) else [])
                  windows a) as [[Hr Hf]|[Hr [parts Hf]]]; rewrite Hf, Hr.
      * left. split; [done|]. apply gather_raised_stays.
      * cbn [orb].
        destruct (IH (parts, a.2 || existsb window_usable windows))
          as [[Hr' Hf']|[Hr' [parts' Hf']]].
        -- left. by split.
        -- right. split; [done|]. exists parts'. rewrite Hf'. cbn [snd].
           by rewrite orb_assoc.
    + left. split; [done|]. apply gather_raised_stays.
Qed.

Lemma transcript_fold (rs : list VideoResource) :
  forall a : list Llm.content_part * bool,
    (fold_left transcript_step rs a).2 = a.2 || existsb with_transcript rs.
Proof.
  induction rs as [|res rs IH]; intros a.
  - cbn. by rewrite orb_false_r.
  - cbn [fold_left existsb]. rewrite IH.
    unfold transcript_step, Analyst.transcript_step, with_transcript.
    destruct (opt_truthy (transcript res)); cbn [snd orb]; [|done].
    by rewrite orb_true_r.
Qed.

(** A test passes on a listed resource exactly when it passes on a
    resource of the store: the order of the listing does not matter. *)
Lemma existsb_store (f : VideoResource -> bool) (st : AgentState) :
  existsb f (items (default ∅ (video_store st))).*2 = true <-> some_resource f st.
Proof.
  rewrite existsb_exists. unfold some_resource. split.
  - intros (res & Hin & Hf). apply list_elem_of_In in Hin.
    apply list_elem_of_fmap in Hin as ([vid r] & -> & Hin).
    rewrite items_listing in Hin. apply elem_of_map_to_list in Hin.
    by exists vid, r.
  - intros (vid & res & Hres & Hf). exists res. split; [|done].
    apply list_elem_of_In, list_elem_of_fmap. exists (vid, res). split; [done|].
    rewrite items_listing. by apply elem_of_map_to_list.
Qed.

Lemma existsb_store_false (f : VideoResource -> bool) (st : AgentState) :
  existsb f (items (default ∅ (video_store st))).*2 = false <-> ~ some_resource f st.
Proof.
  rewrite <- existsb_store. by destruct (existsb _ _).
Qed.

(** The four ways a call of the Analyst ends. *)
Lemma analyst_node_cases (st : AgentState) :
  (default ∅ (video_store st) = ∅ /\
   analyst_node st
   = Some {| update := answer_only no_videos_answer; llm_calls := [] |}) \/
  (default ∅ (video_store st) <> ∅ /\
   some_resource raises st /\
   analyst_node st = None) \/
  (default ∅ (video_store st) <> ∅ /\
   ~ some_resource raises st /\
   ~ some_resource yields_window st /\
   ~ some_resource with_transcript st /\
   analyst_node st
   = Some {| update := answer_only no_content_answer; llm_calls := [] |}) \/
  (default ∅ (video_store st) <> ∅ /\
   ~ some_resource raises st /\
   (some_resource yields_window st \/ some_resource with_transcript st) /\
   exists parts,
     analyst_node st
     = Some (synthesize (metrics st) (default EmptyString (user_query st)) parts)).
Proof.
  unfold analyst_node, Analyst.analyst_node.
  destruct (Nat.eqb_spec (size (default ∅ (video_store st))) 0) as [Hsize|Hsize].
  { left. split; [by apply map_size_empty_iff | done]. }
  right.
  assert (Hne : default ∅ (video_store st) <> ∅)
    by (intros H; apply Hsize; by apply map_size_empty_iff).
  fold gather_step transcript_step synthesize.
  destruct (gather_fold (items (default ∅ (video_store st))).*2 ([], false))
    as [[Hr Hf]|[Hr [parts Hf]]]; rewrite Hf.
  { left. split; [done|]. split; [by apply existsb_store | done]. }
  right. apply existsb_store_false in Hr. cbn [snd orb].
  destruct (existsb yields_window _) eqn:Hy.
  { right. split; [done|]. split; [done|]. split; [left; by apply existsb_store|].
    by exists parts. }
  pose proof (transcript_fold (items (default ∅ (video_store st))).*2 (parts, false))
    as Ht.
  cbn [snd orb] in Ht. rewrite Ht.
  destruct (existsb with_transcript _) eqn:Htr.
  - right. split; [done|]. split; [done|]. split; [right; by apply existsb_store|].
    by eexists.
  - left. split; [done|]. split; [done|].
    split; [by apply existsb_store_false|]. split; [by apply existsb_store_false|].
    done.
Qed.

End AnalystOutcomes.

(** ** The Analyst on a window analysis that is not an object *)

Section AnalystArraySummary.
Import State Json Analyst.

Variable items : gmap string VideoResource -> list (string * VideoResource).
Variable json_loads : string -> option json.
Variable download_video_file : string -> download.
Variable extract_frames_from_window : string -> Q -> Q -> list frame.
Variable le_other : json -> json -> option bool.
Variable str_of : json -> string.
Variable splitlines : string -> list string.
Variable line_times : string -> option (Q * Q).
Variable fmt1 : Q -> string.
Variable slice_chars : Z -> string -> string.
Variable load_prompt : string -> string.
Variable llm_invoke : list Llm.message -> Llm.outcome.
Variable metrics_error : string.

Let analyst_node :=
  Analyst.analyst_node items json_loads download_video_file extract_frames_from_window
    le_other str_of splitlines line_times fmt1 slice_chars load_prompt llm_invoke
    metrics_error.

(** A resource as the Watcher leaves it when the model answered its
    window question with the empty JSON array and no transcript could be
    fetched. *)
Definition array_summary : VideoResource :=
  {| video_id := "abc"; title := "A title"; url := "https://youtu.be/abc";
     duration := "3:14"; status := "verified"; relevance_reason := EmptyString;
     evidence := []; summary := Some "[]"; transcript := Some EmptyString |}.

Definition array_summary_store : AgentState :=
  Fixtures.with_store {[ "abc" := array_summary ]} (Fixtures.initial "X").

(** C7: the store below is not empty, its one resource has no transcript
    and yields no relevant window, and the Analyst does not return the
    fixed answer: [analysis.get] raises on the list that [json.loads]
    makes of the summary, and the exception leaves the function. *)
Theorem analyst_raises_on_array_summary :
  (forall m, items m ≡ₚ map_to_list m) ->
  json_loads "[]" = Some (JArr []) ->
  default ∅ (video_store array_summary_store) <> ∅ /\
  (forall vid res,
     default ∅ (video_store array_summary_store) !! vid = Some res ->
     with_transcript res = false /\
     yields_window json_loads download_video_file le_other str_of res = false) /\
  analyst_node array_summary_store = None.
Proof.
  intros Hitems Hloads.
  assert (Hraises : raises json_loads download_video_file le_other str_of
                      array_summary = true).
  { unfold raises, windows_of. cbn. by rewrite Hloads. }
  split; [apply insert_non_empty|]. split.
  - intros vid res Hres.
    change (({[ "abc" := array_summary ]} : gmap string VideoResource) !! vid = Some res)
      in Hres.
    apply lookup_singleton_Some in Hres as [_ <-]. split; [done|].
    unfold yields_window, windows_of. cbn. by rewrite Hloads.
  - destruct (analyst_node_cases items json_loads download_video_file
                extract_frames_from_window le_other str_of splitlines line_times
                fmt1 slice_chars load_prompt llm_invoke metrics_error Hitems
                array_summary_store)
      as [[He _]|[(_ & _ & H)|[(_ & Hn & _)|(_ & Hn & _)]]]; [|exact H| |].
    + exfalso. revert He. apply insert_non_empty.
    + destruct Hn. exists "abc", array_summary. by split.
    + destruct Hn. exists "abc", array_summary. by split.
Qed.

End AnalystArraySummary.

(** The collaborators of the examples: no file can be downloaded, and
    [json.loads] reads the empty array and an analysis with one window. *)
Definition loads_example (s : string) : option Json.json :=
  if String.eqb s "[]" then Some (Json.JArr [])
  else if String.eqb s "{window}" then
         Some (Json.JObj [("relevant", Json.JBool true);
                          ("start_time_seconds", Json.JInt 2);
                          ("end_time_seconds", Json.JFloat (7 # 2))])
  else None.

Definition offline_analyst (llm_invoke : list Llm.message -> Llm.outcome)
    : State.AgentState -> option Analyst.AnalystRun :=
  Analyst.analyst_node map_to_list loads_example (fun _ => Analyst.NotSaved)
    (fun _ _ _ => []) (fun _ _ => None) (fun _ => EmptyString) (fun s => [s])
    (fun _ => None) (fun _ => "0.0") (fun _ s => s) (fun _ => "instructions")
    llm_invoke "error".

Lemma analyst_raises_on_array_summary_witness :
  default ∅ (State.video_store array_summary_store) <> ∅ /\
  (forall vid res,
     default ∅ (State.video_store array_summary_store) !! vid = Some res ->
     with_transcript res = false /\
     yields_window loads_example (fun _ => Analyst.NotSaved) (fun _ _ => None)
       (fun _ => EmptyString) res = false) /\
  offline_analyst (fun _ => Llm.Failed "must not be called") array_summary_store = None.
Proof.
  unfold offline_analyst.
  apply analyst_raises_on_array_summary.
  - intros m. reflexivity.
  - reflexivity.
Defined.

(** The sibling case: a summary that [json.loads] rejects is skipped, and
    the fixed answer is returned. *)
Example analyst_skips_unparsable_summary :
  offline_analyst (fun _ => Llm.Failed "must not be called")
    (Fixtures.with_store
       {[ "abc" := {| State.video_id := "abc"; State.title := "A title";
                      State.url := "https://youtu.be/abc"; State.duration := "3:14";
                      State.status := "verified";
                      State.relevance_reason := EmptyString; State.evidence := [];
                      State.summary := Some "Analysis failed.";
                      State.transcript := Some EmptyString |} ]}
       (Fixtures.initial "X"))
  = Some {| Analyst.update :=
              Fixtures.answer_update
                "No relevant video content or transcripts found to answer the query.";
            Analyst.llm_calls := [] |}.
Proof. vm_compute. reflexivity. Qed.

(** The first half of the claim: an empty store gives the first fixed
    answer. *)
Example analyst_on_empty_store :
  offline_analyst (fun _ => Llm.Failed "must not be called") (Fixtures.initial "X")
  = Some {| Analyst.update :=
              Fixtures.answer_update "No videos were successfully processed.";
            Analyst.llm_calls := [] |}.
Proof. vm_compute. reflexivity. Qed.

(** * Further properties of the sources *)

(** ** [utils/parser.py]: what [extract_youtube_id] resolves *)

Section ResolverPieces.
Import PyStr.

Lemma append_cons (c : ascii) (s t : string) :
  String c s +:+ t = String c (s +:+ t).
Proof. reflexivity. Qed.

Lemma append_empty_l (t : string) : EmptyString +:+ t = t.
Proof. reflexivity. Qed.

Lemma append_empty_r (s : string) : s +:+ EmptyString = s.
Proof.
  induction s as [|c s IH]; [done|]. by rewrite append_cons, IH.
Qed.

Lemma append_assoc3 (a b c : string) : (a +:+ b) +:+ c = a +:+ (b +:+ c).
Proof.
  induction a as [|x a IH]; [done|]. by rewrite !append_cons, IH.
Qed.

Lemma append_snoc (cur : string) (c : ascii) (s : string) :
  (cur +:+ String c EmptyString) +:+ s = cur +:+ String c s.
Proof. by rewrite append_assoc3. Qed.

Lemma split_go_nonempty (sep : string) (s : string) :
  forall skip cur, split_go sep skip cur s <> [].
Proof.
  induction s as [|c s IH]; intros skip cur; cbn [split_go]; [done|].
  destruct skip as [|k]; [|apply IH].
  destruct (String.prefix sep (String c s)); [done | apply IH].
Qed.

Lemma last_cons_nonempty {A} (a d : A) (l : list A) :
  l <> [] -> List.last (a :: l) d = List.last l d.
Proof. by destruct l. Qed.

(** A string without the separator is a single piece. *)
Lemma split_go_absent (sep : string) (s : string) :
  forall cur, contains sep s = false -> split_go sep O cur s = [cur +:+ s].
Proof.
  induction s as [|c s IH]; intros cur H; cbn [split_go].
  - by rewrite append_empty_r.
  - cbn [contains] in H. apply orb_false_iff in H as [Hp Hc].
    rewrite Hp, IH by done. by rewrite append_snoc.
Qed.

Lemma prefix_empty (t : string) : String.prefix EmptyString t = true.
Proof. by destruct t. Qed.

Lemma prefix_append (sep t : string) : String.prefix sep (sep +:+ t) = true.
Proof.
  induction sep as [|a sep IH]; [rewrite append_empty_l; by destruct t|].
  rewrite append_cons. cbn [String.prefix]. by destruct (ascii_dec a a).
Qed.

Lemma contains_prefix (sep x : string) :
  String.prefix sep x = true -> contains sep x = true.
Proof. intros H. destruct x; cbn [contains]; by rewrite H. Qed.

Lemma contains_intro (sep pre t : string) :
  contains sep (pre +:+ sep +:+ t) = true.
Proof.
  induction pre as [|c pre IH].
  - rewrite append_empty_l. apply contains_prefix, prefix_append.
  - rewrite append_cons. cbn [contains]. rewrite IH. apply orb_true_r.
Qed.

(** The piece after the last "v=". *)
Lemma last_piece_after_v (t : string) :
  contains "v=" t = false ->
  forall (n : nat) (pre cur : string),
    (String.length pre <= n)%nat ->
    last_piece (split_go "v=" O cur (pre +:+ "v=" +:+ t)) = t.
Proof.
  intros Ht. unfold last_piece.
  assert (Hbase : forall cur,
             List.last (split_go "v=" O cur (EmptyString +:+ "v=" +:+ t)) EmptyString = t).
  { intros cur. rewrite append_empty_l, !append_cons, append_empty_l.
    cbn [split_go String.prefix].
    destruct (ascii_dec "v" "v"); [|done]. destruct (ascii_dec "=" "="); [|done].
    rewrite prefix_empty. cbn [String.length Nat.sub split_go].
    by rewrite split_go_absent. }
  induction n as [|n IH]; intros pre cur Hlen.
  - destruct pre; [apply Hbase | simpl in Hlen; lia].
  - destruct pre as [|c pre]; [apply Hbase|].
    rewrite append_cons. cbn [split_go]. simpl in Hlen.
    destruct pre as [|c' pre].
    + (* the last character before the final "v=" *)
      rewrite append_empty_l, append_cons.
      replace (String.prefix "v=" (String c (String "v" ("=" +:+ t)))) with false
        by (cbn [String.prefix];
            destruct (ascii_dec "v" c); [destruct (ascii_dec "=" "v")|]; done).
      specialize (IH EmptyString (cur +:+ String c EmptyString)).
      rewrite append_empty_l, append_cons in IH. apply IH. simpl. lia.
    + rewrite append_cons.
      destruct (String.prefix "v=" (String c (String c' (pre +:+ "v=" +:+ t)))) eqn:Hp.
      * assert (c' = "="%char) as ->.
        { cbn [String.prefix] in Hp. destruct (ascii_dec "v" c); [|done].
          by destruct (ascii_dec "=" c'). }
        cbn [String.length Nat.sub split_go].
        rewrite last_cons_nonempty by apply split_go_nonempty.
        apply IH. simpl in Hlen. lia.
      * specialize (IH (String c' pre) (cur +:+ String c EmptyString)).
        rewrite append_cons in IH. apply IH. simpl in *. lia.
Qed.

(** The piece before the first occurrence of a one-character separator. *)
Lemma first_piece_before (a : ascii) (x r : string) :
  contains (String a EmptyString) x = false ->
  forall cur,
    first_piece (split_go (String a EmptyString) O cur (x +:+ String a r))
    = cur +:+ x.
Proof.
  unfold first_piece. induction x as [|c x IH]; intros Hx cur.
  - rewrite append_empty_l. cbn [split_go String.prefix].
    destruct (ascii_dec a a); [|done].
    rewrite prefix_empty. cbn [hd]. by rewrite append_empty_r.
  - cbn [contains] in Hx. apply orb_false_iff in Hx as [Hp Hc].
    rewrite append_cons. cbn [split_go].
    assert (Hp' : String.prefix (String a EmptyString) (String c (x +:+ String a r)) = false).
    { cbn [String.prefix] in *. destruct (ascii_dec a c); [|done].
      by rewrite prefix_empty in Hp. }
    rewrite Hp', IH by done. by rewrite append_snoc.
Qed.

(** X1: a watch URL resolves to the text between its last "v=" and the
    next "&", whatever query parameters follow. *)
Theorem extract_youtube_id_watch (pre id rest : string) :
  contains "v=" (id +:+ rest) = false ->
  contains "&" id = false ->
  rest = EmptyString \/ (exists r, rest = String "&" r) ->
  Parser.extract_youtube_id (Some (pre +:+ "v=" +:+ id +:+ rest)) = id.
Proof.
  intros Hv Hamp Hrest. unfold Parser.extract_youtube_id.
  assert (Ht : truthy (pre +:+ "v=" +:+ id +:+ rest) = true) by by destruct pre.
  rewrite Ht. cbn [negb]. rewrite contains_intro.
  unfold split. rewrite (last_piece_after_v _ Hv (String.length pre)) by lia.
  destruct Hrest as [->|[r ->]].
  - rewrite append_empty_r. by rewrite split_go_absent.
  - by rewrite first_piece_before.
Qed.

End ResolverPieces.

Lemma extract_youtube_id_watch_witness :
  Parser.extract_youtube_id
    (Some ("https://www.youtube.com/watch?" +:+ "v=" +:+ "abc123" +:+ "&t=10s&pp=xyz"))
  = "abc123".
Proof.
  apply (extract_youtube_id_watch "https://www.youtube.com/watch?" "abc123" "&t=10s&pp=xyz").
  - reflexivity.
  - reflexivity.
  - right. by eexists.
Defined.

Section ResolverShape.
Import PyStr.

Definition is_char (a c : ascii) : bool := if ascii_dec a c then true else false.

Lemma contains_char_cons (a c : ascii) (s : string) :
  contains (String a EmptyString) (String c s)
  = is_char a c || contains (String a EmptyString) s.
Proof.
  cbn [contains String.prefix]. unfold is_char.
  destruct (ascii_dec a c); [by rewrite prefix_empty | done].
Qed.

Lemma contains_char_snoc (a c : ascii) (cur : string) :
  contains (String a EmptyString) (cur +:+ String c EmptyString)
  = contains (String a EmptyString) cur || is_char a c.
Proof.
  induction cur as [|x cur IH].
  - rewrite append_empty_l, contains_char_cons. cbn. by rewrite orb_false_r.
  - rewrite append_cons, !contains_char_cons, IH. by rewrite orb_assoc.
Qed.

(** The first piece holds no separator. *)
Lemma first_piece_no_separator (a : ascii) (s : string) :
  forall cur,
    contains (String a EmptyString) cur = false ->
    contains (String a EmptyString)
      (first_piece (split_go (String a EmptyString) O cur s)) = false.
Proof.
  unfold first_piece. induction s as [|c s IH]; intros cur Hcur; [done|].
  cbn [split_go String.prefix]. destruct (ascii_dec a c) as [<-|Hne].
  - by rewrite prefix_empty.
  - apply IH. rewrite contains_char_snoc, Hcur. unfold is_char.
    by destruct (ascii_dec a c).
Qed.

(** The first piece holds no character that the string did not hold. *)
Lemma first_piece_no_new_char (a b : ascii) (s : string) :
  forall cur,
    contains (String b EmptyString) cur = false ->
    contains (String b EmptyString) s = false ->
    contains (String b EmptyString)
      (first_piece (split_go (String a EmptyString) O cur s)) = false.
Proof.
  unfold first_piece. induction s as [|c s IH]; intros cur Hcur Hs; [done|].
  rewrite contains_char_cons in Hs. apply orb_false_iff in Hs as [Hc Hs].
  cbn [split_go]. destruct (String.prefix (String a EmptyString) (String c s)).
  - done.
  - apply IH; [|done]. by rewrite contains_char_snoc, Hcur, Hc.
Qed.

(** X2: an identifier resolved through one of the three known patterns
    holds no "&"; one resolved through "/shorts/" or "youtu.be/" holds no
    "?" either. *)
Theorem extract_youtube_id_no_parameters (u : string) :
  (contains "v=" u || contains "/shorts/" u || contains "youtu.be/" u = true ->
   contains "&" (Parser.extract_youtube_id (Some u)) = false) /\
  (contains "v=" u = false ->
   contains "/shorts/" u || contains "youtu.be/" u = true ->
   contains "?" (Parser.extract_youtube_id (Some u)) = false).
Proof.
  unfold Parser.extract_youtube_id, split.
  destruct (truthy u) eqn:Hu; cbn [negb]; [|by destruct u].
  split.
  - intros H.
    destruct (contains "v=" u); [by apply first_piece_no_separator|].
    destruct (contains "/shorts/" u); [by apply first_piece_no_separator|].
    destruct (contains "youtu.be/" u); [by apply first_piece_no_separator | done].
  - intros -> H.
    destruct (contains "/shorts/" u).
    + apply first_piece_no_new_char; [done|]. by apply first_piece_no_separator.
    + destruct (contains "youtu.be/" u); [|done].
      apply first_piece_no_new_char; [done|]. by apply first_piece_no_separator.
Qed.

End ResolverShape.

Lemma extract_youtube_id_no_parameters_witness :
  PyStr.contains "&"
    (Parser.extract_youtube_id (Some "https://youtu.be/Q1w2?t=3&x=1")) = false /\
  PyStr.contains "?"
    (Parser.extract_youtube_id (Some "https://youtu.be/Q1w2?t=3&x=1")) = false.
Proof.
  destruct (extract_youtube_id_no_parameters "https://youtu.be/Q1w2?t=3&x=1") as [H1 H2].
  split; [apply H1 | apply H2]; reflexivity.
Defined.

(** ** [utils/metrics.py]: token accounting *)

Section TokenMetrics.
Import State Metrics.

(** The number [d.get(k, 0)] reads; none when a sub-map sits under [k]. *)
Definition counter (d : gmap string metric) (k : string) : option Z :=
  match d !! k with
  | None => Some 0
  | Some (MNum n) => Some n
  | Some (MCat _) => None
  end.

Definition global_keys : list string :=
  ["input_tokens"; "output_tokens"; "total_tokens"].

(** A category that does not shadow a global counter. *)
Definition plain_category (cat : option string) : Prop :=
  forall c, cat = Some c -> c ∉ global_keys.

Definition prompt (r : Llm.response) : Z := default 0 (Llm.prompt_tokens r).
Definition completion (r : Llm.response) : Z := default 0 (Llm.completion_tokens r).
Definition total (r : Llm.response) : Z := default 0 (Llm.total_tokens r).

Lemma add_counter_counter (d : gmap string metric) (k : string) (n : Z) :
  add_counter d k n = (fun c => <[k := MNum (c + n)]> d) <$> counter d k.
Proof.
  unfold add_counter, counter. by destruct (d !! k) as [[c|m]|].
Qed.

Lemma counter_insert_eq (d : gmap string metric) (k : string) (n : Z) :
  counter (<[k := MNum n]> d) k = Some n.
Proof. unfold counter. by rewrite lookup_insert_eq. Qed.

Lemma counter_insert_ne (d : gmap string metric) (k k' : string) (v : metric) :
  k <> k' -> counter (<[k := v]> d) k' = counter d k'.
Proof. intros H. unfold counter. by rewrite lookup_insert_ne. Qed.

(** The three global counters after the first half of the function. *)
Definition bump_globals (d : gmap string metric) (i o t : Z) (r : Llm.response)
    : gmap string metric :=
  <["total_tokens" := MNum (t + total r)]>
    (<["output_tokens" := MNum (o + completion r)]>
       (<["input_tokens" := MNum (i + prompt r)]> d)).

Lemma update_token_metrics_globals (cur : gmap string metric) (r : Llm.response)
    (cat : option string) (i o t : Z) :
  counter cur "input_tokens" = Some i ->
  counter cur "output_tokens" = Some o ->
  counter cur "total_tokens" = Some t ->
  update_token_metrics cur r cat =
    match cat with
    | Some c =>
        if PyStr.truthy c then
          let sub := match bump_globals cur i o t r !! c with
                     | Some (MCat m) => m
                     | _ => ∅
                     end in
          Some (<[c := MCat
                         (add_cat_counter
                            (add_cat_counter
                               (add_cat_counter sub "input_tokens" (prompt r))
                               "output_tokens" (completion r))
                            "total_tokens" (total r))]>
                  (bump_globals cur i o t r))
        else Some (bump_globals cur i o t r)
    | None => Some (bump_globals cur i o t r)
    end.
Proof.
  intros Hi Ho Ht. unfold update_token_metrics.
  rewrite !add_counter_counter, Hi. cbn [fmap option_fmap option_map mbind option_bind].
  rewrite add_counter_counter, counter_insert_ne, Ho by done.
  cbn [fmap option_fmap option_map mbind option_bind].
  rewrite add_counter_counter, !counter_insert_ne, Ht by done.
  reflexivity.
Qed.

(** A sub-map under a global counter stops the function. *)
Lemma update_token_metrics_stuck (cur : gmap string metric) (r : Llm.response)
    (cat : option string) (k : string) :
  k ∈ global_keys -> counter cur k = None ->
  update_token_metrics cur r cat = None.
Proof.
  intros Hk Hnone. unfold update_token_metrics.
  rewrite add_counter_counter.
  destruct (counter cur "input_tokens") as [i|] eqn:Hi; [|done].
  cbn [fmap option_fmap option_map mbind option_bind].
  rewrite add_counter_counter, counter_insert_ne by done.
  destruct (counter cur "output_tokens") as [o|] eqn:Ho; [|done].
  cbn [fmap option_fmap option_map mbind option_bind].
  rewrite add_counter_counter, !counter_insert_ne by done.
  destruct (counter cur "total_tokens") as [t|] eqn:Ht; [|done].
  unfold global_keys in Hk.
  repeat (apply elem_of_cons in Hk as [->|Hk]; [congruence|]).
  by apply elem_of_nil in Hk.
Qed.

Lemma global_key_cases :
  "input_tokens" ∈ global_keys /\ "output_tokens" ∈ global_keys /\
  "total_tokens" ∈ global_keys.
Proof. unfold global_keys. rewrite !elem_of_cons. tauto. Qed.

(** X3: [update_token_metrics] raises exactly when one of the three
    global counters of the record it is given holds a sub-map instead of a
    number. *)
Theorem update_token_metrics_raises_iff (cur : gmap string metric)
    (r : Llm.response) (cat : option string) :
  update_token_metrics cur r cat = None <->
  exists k, k ∈ global_keys /\ counter cur k = None.
Proof.
  destruct global_key_cases as (Gi & Go & Gt).
  split.
  - intros H.
    destruct (counter cur "input_tokens") as [i|] eqn:Hi;
      [|by exists "input_tokens"].
    destruct (counter cur "output_tokens") as [o|] eqn:Ho;
      [|by exists "output_tokens"].
    destruct (counter cur "total_tokens") as [t|] eqn:Ht;
      [|by exists "total_tokens"].
    rewrite (update_token_metrics_globals cur r cat i o t) in H by done.
    destruct cat as [c|]; [destruct (PyStr.truthy c)|]; done.
  - intros (k & Hk & Hnone). by apply (update_token_metrics_stuck _ _ _ k).
Qed.

Lemma not_global (c : string) :
  c ∉ global_keys ->
  c <> "input_tokens" /\ c <> "output_tokens" /\ c <> "total_tokens".
Proof.
  unfold global_keys. rewrite !not_elem_of_cons. by intros (? & ? & ? & _).
Qed.

Lemma counter_bump_globals (d : gmap string metric) (i o t : Z) (r : Llm.response) :
  counter (bump_globals d i o t r) "input_tokens" = Some (i + prompt r) /\
  counter (bump_globals d i o t r) "output_tokens" = Some (o + completion r) /\
  counter (bump_globals d i o t r) "total_tokens" = Some (t + total r).
Proof.
  unfold bump_globals. repeat split.
  - by rewrite !counter_insert_ne, counter_insert_eq by done.
  - by rewrite counter_insert_ne, counter_insert_eq by done.
  - by rewrite counter_insert_eq.
Qed.

Lemma update_token_metrics_counters (cur : gmap string metric) (r : Llm.response)
    (cat : option string) (i o t : Z) :
  counter cur "input_tokens" = Some i ->
  counter cur "output_tokens" = Some o ->
  counter cur "total_tokens" = Some t ->
  plain_category cat ->
  exists new,
    update_token_metrics cur r cat = Some new /\
    counter new "input_tokens" = Some (i + prompt r) /\
    counter new "output_tokens" = Some (o + completion r) /\
    counter new "total_tokens" = Some (t + total r).
Proof.
  intros Hi Ho Ht Hcat.
  rewrite (update_token_metrics_globals cur r cat i o t) by done.
  destruct (counter_bump_globals cur i o t r) as (H1 & H2 & H3).
  destruct cat as [c|]; [|by eexists].
  destruct (PyStr.truthy c); [|by eexists].
  destruct (not_global c (Hcat c eq_refl)) as (N1 & N2 & N3).
  eexists. split; [reflexivity|].
  by rewrite !counter_insert_ne by done.
Qed.

(** X4: on a record whose global counters are numbers, and with a category
    that is none of the three global names, [update_token_metrics] returns
    a record whose global counters are the old ones plus the response's
    token counts, a missing count adding 0, and in which every key other
    than those three and the category is as it was. *)
Theorem update_token_metrics_adds (cur : gmap string metric) (r : Llm.response)
    (cat : option string) (i o t : Z) :
  counter cur "input_tokens" = Some i ->
  counter cur "output_tokens" = Some o ->
  counter cur "total_tokens" = Some t ->
  plain_category cat ->
  exists new,
    update_token_metrics cur r cat = Some new /\
    counter new "input_tokens" = Some (i + prompt r) /\
    counter new "output_tokens" = Some (o + completion r) /\
    counter new "total_tokens" = Some (t + total r) /\
    forall k, k ∉ global_keys -> Some k <> cat -> new !! k = cur !! k.
Proof.
  intros Hi Ho Ht Hcat.
  destruct (update_token_metrics_counters cur r cat i o t Hi Ho Ht Hcat)
    as (new & Hnew & Ni & No & Nt).
  exists new. repeat split; try done.
  intros k Hk Hc. destruct (not_global k Hk) as (N1 & N2 & N3).
  by apply (update_token_metrics_other_keys cur new r cat).
Qed.

(** X5: two stages that account for their responses one after the other
    leave global counters that hold the sum of both responses. *)
Theorem update_token_metrics_accumulates (cur : gmap string metric)
    (r1 r2 : Llm.response) (cat1 cat2 : option string) (i o t : Z) :
  counter cur "input_tokens" = Some i ->
  counter cur "output_tokens" = Some o ->
  counter cur "total_tokens" = Some t ->
  plain_category cat1 -> plain_category cat2 ->
  exists mid new,
    update_token_metrics cur r1 cat1 = Some mid /\
    update_token_metrics mid r2 cat2 = Some new /\
    counter new "input_tokens" = Some (i + prompt r1 + prompt r2) /\
    counter new "output_tokens" = Some (o + completion r1 + completion r2) /\
    counter new "total_tokens" = Some (t + total r1 + total r2).
Proof.
  intros Hi Ho Ht Hc1 Hc2.
  destruct (update_token_metrics_counters cur r1 cat1 i o t Hi Ho Ht Hc1)
    as (mid & Hmid & Mi & Mo & Mt).
  destruct (update_token_metrics_counters mid r2 cat2 _ _ _ Mi Mo Mt Hc2)
    as (new & Hnew & Ni & No & Nt).
  by exists mid, new.
Qed.

(** The counters of a category's sub-map. *)
Definition cat_counter (d : gmap string metric) (c k : string) : Z :=
  match d !! c with
  | Some (MCat m) => default 0 (m !! k)
  | _ => 0
  end.

Lemma cat_counters_bumped (m : gmap string Z) (r : Llm.response) :
  let m' := add_cat_counter
              (add_cat_counter (add_cat_counter m "input_tokens" (prompt r))
                 "output_tokens" (completion r))
              "total_tokens" (total r) in
  m' !! "input_tokens" = Some (default 0 (m !! "input_tokens") + prompt r) /\
  m' !! "output_tokens" = Some (default 0 (m !! "output_tokens") + completion r) /\
  m' !! "total_tokens" = Some (default 0 (m !! "total_tokens") + total r) /\
  forall k, k ∉ global_keys -> m' !! k = m !! k.
Proof.
  unfold add_cat_counter. repeat split.
  - by rewrite !lookup_insert_ne, lookup_insert_eq by done.
  - by rewrite lookup_insert_ne, lookup_insert_eq, lookup_insert_ne by done.
  - by rewrite lookup_insert_eq, !lookup_insert_ne by done.
  - intros k Hk. destruct (not_global k Hk) as (N1 & N2 & N3).
    by rewrite !lookup_insert_ne by done.
Qed.

(** X6: with a non-empty category that is none of the global names, the
    category's own three counters grow by the response's token counts,
    starting from 0 when the category is new or holds a number, and every
    other key of the category's sub-map is kept. *)
Theorem update_token_metrics_category (cur new : gmap string metric)
    (r : Llm.response) (c : string) :
  PyStr.truthy c = true ->
  c ∉ global_keys ->
  update_token_metrics cur r (Some c) = Some new ->
  exists m',
    new !! c = Some (MCat m') /\
    m' !! "input_tokens" = Some (cat_counter cur c "input_tokens" + prompt r) /\
    m' !! "output_tokens" = Some (cat_counter cur c "output_tokens" + completion r) /\
    m' !! "total_tokens" = Some (cat_counter cur c "total_tokens" + total r) /\
    forall m k, cur !! c = Some (MCat m) -> k ∉ global_keys -> m' !! k = m !! k.
Proof.
  intros Htruthy Hc Hnew.
  destruct (not_global c Hc) as (N1 & N2 & N3).
  destruct global_key_cases as (Gi & Go & Gt).
  destruct (counter cur "input_tokens") as [i|] eqn:Hi.
  2:{ rewrite (update_token_metrics_stuck _ _ _ "input_tokens") in Hnew; done. }
  destruct (counter cur "output_tokens") as [o|] eqn:Ho.
  2:{ rewrite (update_token_metrics_stuck _ _ _ "output_tokens") in Hnew; done. }
  destruct (counter cur "total_tokens") as [t|] eqn:Ht.
  2:{ rewrite (update_token_metrics_stuck _ _ _ "total_tokens") in Hnew; done. }
  rewrite (update_token_metrics_globals cur r (Some c) i o t), Htruthy in Hnew by done.
  injection Hnew as <-.
  assert (Hsame : bump_globals cur i o t r !! c = cur !! c)
    by (unfold bump_globals; by rewrite !lookup_insert_ne by done).
  rewrite Hsame. unfold cat_counter.
  eexists. split; [by rewrite lookup_insert_eq|].
  destruct (cur !! c) as [[n|m]|] eqn:Hcur.
  - destruct (cat_counters_bumped ∅ r) as (H1 & H2 & H3 & _).
    rewrite lookup_empty in *. by repeat split.
  - destruct (cat_counters_bumped m r) as (H1 & H2 & H3 & H4).
    repeat split; try done. intros m0 k [= <-] Hk. by apply H4.
  - destruct (cat_counters_bumped ∅ r) as (H1 & H2 & H3 & _).
    rewrite lookup_empty in *. by repeat split.
Qed.

(** X7: the record [update_token_metrics] returns holds every key of the
    record it was given, so merging it into that record with the
    [operator.ior] reducer yields the returned record itself. *)
Theorem update_token_metrics_absorbs (cur new : gmap string metric)
    (r : Llm.response) (cat : option string) :
  update_token_metrics cur r cat = Some new ->
  Merge.merge_metrics cur (Some new) = new.
Proof.
  intros Hnew. unfold Merge.merge_metrics, operator_ior.
  apply map_eq. intros k. rewrite lookup_union.
  destruct (new !! k) as [v|] eqn:Hk; [by destruct (cur !! k)|].
  destruct (cur !! k) as [w|] eqn:Hcur; [|done]. exfalso.
  assert (Hsome : is_Some (new !! k)); [|rewrite Hk in Hsome; by destruct Hsome].
  unfold update_token_metrics, add_counter in Hnew.
  repeat match type of Hnew with
         | context [match ?m !! ?key with _ => _ end] =>
             destruct (m !! key) as [[?|?]|] eqn:?; simpl in Hnew; try discriminate
         end;
    destruct cat as [c|]; try destruct (PyStr.truthy c);
    inversion Hnew; subst; clear Hnew;
    rewrite ?lookup_insert_is_Some'; eauto 10.
Qed.

End TokenMetrics.

Definition metrics_so_far : gmap string State.metric :=
  {[ "input_tokens" := State.MNum 10; "output_tokens" := State.MNum 4;
     "total_tokens" := State.MNum 14;
     "jit_watcher" := State.MCat {[ "input_tokens" := 3; "frames" := 8 ]} ]}.

Lemma plain_jit_watcher : plain_category (Some "jit_watcher").
Proof.
  intros c [= <-]. unfold global_keys. rewrite !not_elem_of_cons.
  repeat split; try done. apply not_elem_of_nil.
Defined.

Lemma plain_no_category : plain_category None.
Proof. intros c H. discriminate H. Defined.

Lemma update_token_metrics_adds_witness :
  exists new,
    Metrics.update_token_metrics metrics_so_far prose_answer (Some "jit_watcher")
      = Some new /\
    counter new "input_tokens" = Some 22 /\
    counter new "output_tokens" = Some 11 /\
    counter new "total_tokens" = Some 33 /\
    forall k, k ∉ global_keys -> Some k <> Some "jit_watcher" ->
              new !! k = metrics_so_far !! k.
Proof.
  apply (update_token_metrics_adds metrics_so_far prose_answer (Some "jit_watcher")
           10 4 14).
  - reflexivity.
  - reflexivity.
  - reflexivity.
  - exact plain_jit_watcher.
Defined.

Lemma update_token_metrics_accumulates_witness :
  exists mid new,
    Metrics.update_token_metrics metrics_so_far prose_answer None = Some mid /\
    Metrics.update_token_metrics mid prose_answer (Some "jit_watcher") = Some new /\
    counter new "input_tokens" = Some 34 /\
    counter new "output_tokens" = Some 18 /\
    counter new "total_tokens" = Some 52.
Proof.
  apply (update_token_metrics_accumulates metrics_so_far prose_answer prose_answer
           None (Some "jit_watcher") 10 4 14).
  - reflexivity.
  - reflexivity.
  - reflexivity.
  - exact plain_no_category.
  - exact plain_jit_watcher.
Defined.

Definition metrics_after_watcher : gmap string State.metric :=
  default ∅ (Metrics.update_token_metrics metrics_so_far prose_answer (Some "jit_watcher")).

Lemma update_token_metrics_category_witness :
  exists m',
    metrics_after_watcher !! "jit_watcher" = Some (State.MCat m') /\
    m' !! "input_tokens" = Some 15 /\
    m' !! "output_tokens" = Some 7 /\
    m' !! "total_tokens" = Some 19 /\
    m' !! "frames" = Some 8.
Proof.
  destruct (update_token_metrics_category metrics_so_far metrics_after_watcher
              prose_answer "jit_watcher")
    as (m' & Hm & Hi & Ho & Ht & Hkeep).
  - reflexivity.
  - unfold global_keys. rewrite !not_elem_of_cons.
    repeat split; try done. apply not_elem_of_nil.
  - vm_compute. reflexivity.
  - exists m'. split; [exact Hm|]. split; [exact Hi|]. split; [exact Ho|].
    split; [exact Ht|].
    rewrite (Hkeep {[ "input_tokens" := 3; "frames" := 8 ]} "frames").
    + reflexivity.
    + reflexivity.
    + unfold global_keys. rewrite !not_elem_of_cons.
      repeat split; try done. apply not_elem_of_nil.
Defined.

Lemma update_token_metrics_absorbs_witness :
  Merge.merge_metrics metrics_so_far (Some metrics_after_watcher)
  = metrics_after_watcher.
Proof.
  apply (update_token_metrics_absorbs metrics_so_far metrics_after_watcher
           prose_answer (Some "jit_watcher")).
  vm_compute. reflexivity.
Defined.

(** ** [nodes/checker.py] with [graph/builder.py]: where the Checker leads *)

Section CheckerRoute.
Import State.

(** X8: once the Checker's update is merged, the routing function returns
    "planner" while the new counter is below the bound and "analyst"
    otherwise, never "user_proxy"; the merge writes the counter and the
    signal and nothing else: the store, the four histories, the metrics
    and every other field are as they were. *)
Theorem checker_then_route (max_loop_steps : Z) (st : AgentState) :
  let st' := Merge.apply_update st (Checker.checker_node max_loop_steps st) in
  let signal :=
    if default 0 (loop_step st) + 1 <? max_loop_steps then "planner" else "analyst" in
  Builder.route_checker_output st' = signal /\
  Builder.route_checker_output st' <> "user_proxy" /\
  st' = {| user_query := user_query st;
           constraints := constraints st;
           video_store := video_store st;
           current_search_queries := current_search_queries st;
           visual_hypothesis := visual_hypothesis st;
           raw_candidates := raw_candidates st;
           ambiguity_note := ambiguity_note st;
           tried_queries := tried_queries st;
           visited_video_ids := visited_video_ids st;
           text_search_context := text_search_context st;
           plan_trace := plan_trace st;
           loop_step := Some (default 0 (loop_step st) + 1);
           final_answer := final_answer st;
           routing_signal := Some signal;
           metrics := metrics st |}.
Proof.
  intros st' signal.
  assert (Hroute : Builder.route_checker_output st' = signal).
  { unfold Builder.route_checker_output, st', signal. cbn.
    by destruct (default 0 (loop_step st) + 1 <? max_loop_steps). }
  split; [exact Hroute|]. split.
  - rewrite Hroute. unfold signal. by destruct (_ <? _).
  - reflexivity.
Qed.

(** X9: the bound is final.  Once the Checker has signalled "analyst",
    it signals "analyst" on every later call, whatever the other stages
    merge in between, as long as they leave the counter alone. *)
Theorem checker_stays_at_analyst (max_loop_steps : Z) (st : AgentState)
    (others : list Upd.Update) :
  Upd.routing_signal (Checker.checker_node max_loop_steps st) = Some "analyst" ->
  Forall keeps_loop_step others ->
  Upd.routing_signal
    (Checker.checker_node max_loop_steps
       (Merge.apply_updates
          (Merge.apply_update st (Checker.checker_node max_loop_steps st)) others))
  = Some "analyst".
Proof.
  intros Hsig Hothers. rewrite checker_node_signal in *.
  rewrite apply_updates_loop_step by done. cbn.
  destruct (Z.ltb_spec (default 0 (loop_step st) + 1) max_loop_steps); [done|].
  by destruct (Z.ltb_spec (default 0 (loop_step st) + 1 + 1) max_loop_steps); [lia|].
Qed.

End CheckerRoute.

Lemma checker_stays_at_analyst_witness :
  let st := Merge.apply_update (Fixtures.initial "X")
              (Checker.checker_node 1 (Fixtures.initial "X")) in
  Upd.routing_signal
    (Checker.checker_node 2
       (Merge.apply_updates (Merge.apply_update st (Checker.checker_node 2 st))
          [Fixtures.queries_update ["q"]; Fixtures.signal_update "planner"]))
  = Some "analyst".
Proof.
  intros st.
  apply (checker_stays_at_analyst 2 st).
  - reflexivity.
  - repeat constructor.
Defined.

(** ** [core/state.py]: fields without a reducer *)

Section ReplacePolicy.
Import State.

(** The last value a sequence of updates writes to a field, if any. *)
Definition last_write {A} (field : Upd.Update -> option A) (us : list Upd.Update)
    : option A :=
  last (omap field us).

Lemma fold_last_value {A} (field : Upd.Update -> option A) (us : list Upd.Update) :
  forall init : option A,
    fold_left (fun acc u => Merge.last_value acc (field u)) us init
    = match last_write field us with Some v => Some v | None => init end.
Proof.
  unfold last_write.
  induction us as [|u us IH]; intros init; [done|].
  cbn [fold_left]. rewrite IH.
  change (omap field (u :: us))
    with (match field u with Some v => v :: omap field us | None => omap field us end).
  destruct (field u) as [v|]; [|reflexivity].
  cbn [Merge.last_value]. rewrite last_cons.
  by destruct (last (omap field us)).
Qed.

Lemma apply_updates_fold {A} (get : AgentState -> option A)
    (field : Upd.Update -> option A) :
  (forall st u, get (Merge.apply_update st u) = Merge.last_value (get st) (field u)) ->
  forall us st,
    get (Merge.apply_updates st us)
    = fold_left (fun acc u => Merge.last_value acc (field u)) us (get st).
Proof.
  intros Hstep. unfold Merge.apply_updates.
  induction us as [|u us IH]; intros st; [done|].
  simpl. by rewrite IH, Hstep.
Qed.

(** X10: a field without a reducer holds, after any number of merges, the
    value of the last update that wrote it, and its initial value when no
    update did; an update that omits the field does not clear it. *)
Theorem replace_fields_hold_last_write (st : AgentState) (us : list Upd.Update) :
  loop_step (Merge.apply_updates st us)
    = match last_write Upd.loop_step us with Some v => Some v | None => loop_step st end /\
  routing_signal (Merge.apply_updates st us)
    = match last_write Upd.routing_signal us with
      | Some v => Some v | None => routing_signal st end /\
  final_answer (Merge.apply_updates st us)
    = match last_write Upd.final_answer us with
      | Some v => Some v | None => final_answer st end /\
  video_store (Merge.apply_updates st us)
    = match last_write Upd.video_store us with
      | Some v => Some v | None => video_store st end /\
  current_search_queries (Merge.apply_updates st us)
    = match last_write Upd.current_search_queries us with
      | Some v => Some v | None => current_search_queries st end /\
  raw_candidates (Merge.apply_updates st us)
    = match last_write Upd.raw_candidates us with
      | Some v => Some v | None => raw_candidates st end.
Proof.
  repeat split;
    (rewrite <- fold_last_value; by apply apply_updates_fold).
Qed.

End ReplacePolicy.

Example stale_candidates_are_replaced :
  State.raw_candidates
    (Merge.apply_updates (Fixtures.initial "X")
       [Fixtures.candidates_update [watch_a]; Fixtures.queries_update ["q"];
        Fixtures.candidates_update []])
  = Some [].
Proof. reflexivity. Qed.

(** ** [nodes/searcher.py]: what a search round returns *)

Section SearcherResults.
Import State Searcher.

(** An entry of the deduplication table that stems from a candidate of the
    input: the candidate has a non-empty link, the key is the identifier
    the link resolves to, and the entry is the candidate with that
    identifier written under "id". *)
Definition from_input (all : list (gmap string string))
    (kv : string * gmap string string) : Prop :=
  exists c link,
    c ∈ all /\ c !! "link" = Some link /\ PyStr.truthy link = true /\
    kv.1 = Parser.extract_youtube_id (Some link) /\
    kv.2 = <["id" := kv.1]> c.

Lemma key_of_link (c : gmap string string) (k : string) :
  key_of c = Some k ->
  exists link, c !! "link" = Some link /\ PyStr.truthy link = true /\
               k = Parser.extract_youtube_id (Some link).
Proof.
  unfold key_of. destruct (c !! "link") as [link|]; [|done].
  destruct (PyStr.truthy link) eqn:E; [|done].
  intros [= <-]. by exists link.
Qed.

Lemma from_input_step (all : list (gmap string string))
    (acc : list (string * gmap string string)) (c : gmap string string) :
  c ∈ all -> Forall (from_input all) acc ->
  Forall (from_input all) (dedup_step acc c).
Proof.
  intros Hc Hacc. rewrite dedup_step_key.
  destruct (key_of c) as [k|] eqn:Hk; [|done].
  destruct (has_key k acc); [done|].
  apply Forall_app. split; [done|]. constructor; [|done].
  destruct (key_of_link c k Hk) as (link & Hl & Ht & ->).
  by exists c, link.
Qed.

Lemma from_input_fold (all cands : list (gmap string string)) :
  forall acc,
    (forall c, c ∈ cands -> c ∈ all) ->
    Forall (from_input all) acc ->
    Forall (from_input all) (fold_left dedup_step cands acc).
Proof.
  induction cands as [|c cands IH]; intros acc Hsub Hacc; [done|].
  simpl. apply IH.
  - intros c' Hc'. apply Hsub, elem_of_cons. by right.
  - apply from_input_step; [|done]. apply Hsub, elem_of_cons. by left.
Qed.

Lemma dedup_step_length (acc : list (string * gmap string string))
    (c : gmap string string) :
  (length (dedup_step acc c) <= S (length acc))%nat.
Proof.
  rewrite dedup_step_key. destruct (key_of c); [|lia].
  destruct (has_key _ _); [lia|]. rewrite length_app. simpl. lia.
Qed.

Lemma dedup_fold_length (cands : list (gmap string string)) :
  forall acc,
    (length (fold_left dedup_step cands acc) <= length acc + length cands)%nat.
Proof.
  induction cands as [|c cands IH]; intros acc; simpl; [lia|].
  specialize (IH (dedup_step acc c)).
  pose proof (dedup_step_length acc c). lia.
Qed.

Lemma ids_of_well_keyed (acc : list (string * gmap string string)) :
  well_keyed acc ->
  (fun e : gmap string string => e !! "id") <$> acc.*2 = Some <$> acc.*1.
Proof.
  intros [_ Hid]. induction acc as [|[k e] acc IH]; [done|].
  apply Forall_cons in Hid as [He Hid]. rewrite !fmap_cons.
  simpl in He. cbn [fst snd]. rewrite He. f_equal. by apply IH.
Qed.

(** X11: the candidates the deduplication returns carry pairwise distinct
    identifiers under "id"; each of them is a candidate of the input that
    had a non-empty link, with the identifier its link resolves to written
    under "id"; and there are no more of them than the input held. *)
Theorem dedup_candidates_distinct (cands : list (gmap string string)) :
  let out := dedup_candidates cands in
  NoDup ((fun e : gmap string string => e !! "id") <$> out) /\
  (forall e, e ∈ out ->
     exists c link,
       c ∈ cands /\ c !! "link" = Some link /\ PyStr.truthy link = true /\
       e = <["id" := Parser.extract_youtube_id (Some link)]> c) /\
  (length out <= length cands)%nat.
Proof.
  unfold dedup_candidates.
  assert (Hwk : well_keyed (fold_left dedup_step cands []))
    by (apply well_keyed_fold; split; constructor).
  assert (Hfrom : Forall (from_input cands) (fold_left dedup_step cands []))
    by (by apply from_input_fold).
  split; [|split].
  - rewrite ids_of_well_keyed by done.
    apply NoDup_fmap; [intros ?? [= ->]; done | apply Hwk].
  - intros e He. apply list_elem_of_fmap in He as ([k e'] & -> & Hin).
    rewrite Forall_forall in Hfrom.
    destruct (Hfrom _ Hin) as (c & link & Hc & Hl & Ht & Hk & He).
    simpl in *. subst. by exists c, link.
  - rewrite length_fmap. apply (dedup_fold_length cands []).
Qed.

Section Searches.
Variable youtube_search serper_search : string -> option (list (gmap string string)).
Variable tavily_search serper_web_search : string -> option (list (gmap string string)).
Variable video_provider : string.
Variable text_provider : option string.

Let searcher_node :=
  Searcher.searcher_node youtube_search serper_search tavily_search
    serper_web_search video_provider text_provider.

Let search_all :=
  Searcher.search_all youtube_search serper_search tavily_search
    serper_web_search video_provider text_provider.

(** X12: without queries (none written, or an empty list) the Searcher
    calls no provider and returns an update that only empties the raw
    candidates: merged, it leaves both histories as they were. *)
Theorem searcher_without_queries (st : AgentState) :
  default [] (current_search_queries st) = [] ->
  searcher_node st = Fixtures.candidates_update [] /\
  let st' := Merge.apply_update st (searcher_node st) in
  raw_candidates st' = Some [] /\
  tried_queries st' = tried_queries st /\
  text_search_context st' = text_search_context st.
Proof.
  intros Hq.
  assert (H : searcher_node st = Fixtures.candidates_update []).
  { unfold searcher_node, Searcher.searcher_node. by rewrite Hq. }
  split; [exact H|]. rewrite H. by repeat split.
Qed.

Lemma search_all_nothing (queries : list string) :
  (forall q, Searcher.video_results youtube_search serper_search video_provider q = []) ->
  (forall q, Searcher.text_results tavily_search serper_web_search text_provider q = []) ->
  search_all queries = ([], []).
Proof.
  intros Hv Ht. unfold search_all, Searcher.search_all.
  induction queries as [|q qs IH] using rev_ind; [done|].
  rewrite fold_left_app. cbn [fold_left]. rewrite IH. cbn [fst snd].
  by rewrite Hv, Ht.
Qed.

(** X13: when every search of a round fails or finds nothing, the
    Searcher still returns: no candidates, no snippets, and the queries it
    was given for the history. *)
Theorem searcher_with_no_results (st : AgentState) (q : string) (qs : list string) :
  current_search_queries st = Some (q :: qs) ->
  (forall x, default [] (youtube_search x) = []) ->
  (forall x, default [] (serper_search x) = []) ->
  (forall x, default [] (tavily_search x) = []) ->
  (forall x, default [] (serper_web_search x) = []) ->
  Upd.raw_candidates (searcher_node st) = Some [] /\
  Upd.text_search_context (searcher_node st) = Some [] /\
  Upd.tried_queries (searcher_node st) = Some (q :: qs).
Proof.
  intros Hq Hy Hs Ht Hw.
  unfold searcher_node, Searcher.searcher_node. rewrite Hq. cbn [default].
  fold search_all. rewrite search_all_nothing.
  - cbn. by rewrite elements_empty.
  - intros x. unfold Searcher.video_results.
    destruct (String.eqb video_provider "youtube"); [apply Hy|].
    by destruct (String.eqb video_provider "serper").
  - intros x. unfold Searcher.text_results.
    destruct (bool_decide _); [by rewrite Ht|].
    destruct (bool_decide _); [by rewrite Hw | done].
Qed.

(** X14: the snippets a round returns are the snippets its text searches
    produced, each of them once. *)
Theorem searcher_snippets_once (st : AgentState) (q : string) (qs : list string) :
  current_search_queries st = Some (q :: qs) ->
  exists ctx,
    Upd.text_search_context (searcher_node st) = Some ctx /\
    NoDup ctx /\
    forall x, x ∈ ctx <-> x ∈ (search_all (q :: qs)).2.
Proof.
  intros Hq. unfold searcher_node, Searcher.searcher_node.
  rewrite Hq. cbn [default]. fold search_all.
  eexists. split; [reflexivity|]. split.
  - apply NoDup_elements.
  - intros x. by rewrite elem_of_elements, elem_of_list_to_set.
Qed.

End Searches.
End SearcherResults.

Lemma searcher_without_queries_witness :
  let none := fun _ : string => @None (list (gmap string string)) in
  let run := Searcher.searcher_node none none none none "youtube" (Some "tavily") in
  run (Fixtures.initial "X") = Fixtures.candidates_update [] /\
  let st' := Merge.apply_update (Fixtures.initial "X") (run (Fixtures.initial "X")) in
  State.raw_candidates st' = Some [] /\
  State.tried_queries st' = [] /\
  State.text_search_context st' = [].
Proof.
  intros none run.
  apply (searcher_without_queries none none none none "youtube" (Some "tavily")
           (Fixtures.initial "X")).
  reflexivity.
Defined.

Lemma searcher_with_no_results_witness :
  let fails := fun _ : string => @None (list (gmap string string)) in
  let empty := fun _ : string => Some (@nil (gmap string string)) in
  let run := Searcher.searcher_node fails empty empty fails "youtube" (Some "tavily") in
  Upd.raw_candidates (run one_query) = Some [] /\
  Upd.text_search_context (run one_query) = Some [] /\
  Upd.tried_queries (run one_query) = Some ["cats"].
Proof.
  intros fails empty run.
  apply (searcher_with_no_results fails empty empty fails "youtube" (Some "tavily")
           one_query "cats" []); reflexivity.
Defined.

Definition snippet : gmap string string :=
  {[ "title" := "Cats"; "url" := "https://example.org/cats"; "content" := "About cats." ]}.

Lemma searcher_snippets_once_witness :
  let none := fun _ : string => @None (list (gmap string string)) in
  let tavily := fun _ : string => Some [snippet; snippet] in
  exists ctx,
    Upd.text_search_context
      (Searcher.searcher_node none none tavily none "youtube" (Some "tavily") one_query)
      = Some ctx /\
    NoDup ctx /\
    forall x,
      x ∈ ctx <->
      x ∈ (Searcher.search_all none none tavily none "youtube" (Some "tavily") ["cats"]).2.
Proof.
  intros none tavily.
  apply (searcher_snippets_once none none tavily none "youtube" (Some "tavily")
           one_query "cats" []).
  reflexivity.
Defined.

Example repeated_snippet_kept_once :
  length
    (default []
       (Upd.text_search_context
          (Searcher.searcher_node (fun _ => None) (fun _ => None)
             (fun _ => Some [snippet; snippet]) (fun _ => None)
             "youtube" (Some "tavily") one_query)))
  = 1%nat.
Proof. vm_compute. reflexivity. Qed.

(** ** [nodes/selector.py]: what a selection holds *)

Section SelectorChoice.
Import State Selector.

(** A candidate as the Selector normalises it: a raw candidate with a
    non-empty URL, taken from "link" or else from "videourl", stored under
    "url". *)
Definition normalised (raws : list (gmap string string)) (v : gmap string string)
    : Prop :=
  exists raw url,
    raw ∈ raws /\
    url = str_or (default EmptyString (raw !! "link"))
                 (default EmptyString (raw !! "videourl")) /\
    PyStr.truthy url = true /\
    v = <["url" := url]> raw.

Lemma valid_candidates_normalised (raws : list (gmap string string)) :
  Forall (normalised raws) (valid_candidates_of raws).
Proof.
  apply Forall_forall. intros v Hv. unfold valid_candidates_of in Hv.
  apply list_elem_of_omap in Hv as (raw & Hraw & Hsome).
  destruct (PyStr.truthy (str_or _ _)) eqn:Ht; [|done].
  injection Hsome as <-. by eexists raw, _.
Qed.

Lemma slice_to_subset {A} (n : Z) (l : list A) (x : A) :
  x ∈ PyStr.slice_to n l -> x ∈ l.
Proof.
  unfold PyStr.slice_to. destruct (0 <=? n); apply subseteq_take.
Qed.

Lemma slice_to_length {A} (n : Z) (l : list A) :
  0 <= n -> Z.of_nat (length (PyStr.slice_to n l)) <= n.
Proof.
  intros Hn. unfold PyStr.slice_to.
  destruct (Z.leb_spec 0 n); [|lia]. rewrite length_take. lia.
Qed.

Lemma pick_subset (top_k : Z) (valid : list (gmap string string))
    (indices : list Json.json) :
  forall target,
    (forall x, x ∈ target -> x ∈ valid) ->
    forall x, x ∈ pick top_k valid indices target -> x ∈ valid.
Proof.
  induction indices as [|idx rest IH]; intros target Ht x; cbn [pick]; [apply Ht|].
  destruct (Json.as_int idx) as [n|]; [|by apply IH].
  destruct (_ && _); [|by apply IH].
  destruct (valid !! Z.to_nat n) as [v|] eqn:Hv; [|by apply IH].
  assert (Ht' : forall y, y ∈ target ++ [v] -> y ∈ valid).
  { intros y Hy. apply elem_of_app in Hy as [Hy|Hy]; [by apply Ht|].
    apply list_elem_of_singleton in Hy as ->. by apply list_elem_of_lookup_2 in Hv. }
  destruct (_ >=? _); [apply Ht' | by apply IH].
Qed.

Lemma pick_length (top_k : Z) (valid : list (gmap string string))
    (indices : list Json.json) :
  forall target,
    Z.of_nat (length (pick top_k valid indices target))
    <= Z.max (Z.of_nat (length target) + 1) top_k.
Proof.
  induction indices as [|idx rest IH]; intros target; cbn [pick]; [lia|].
  destruct (Json.as_int idx) as [n|]; [|specialize (IH target); lia].
  destruct (_ && _); [|specialize (IH target); lia].
  destruct (valid !! Z.to_nat n) as [v|]; [|specialize (IH target); lia].
  destruct (Z.geb_spec (Z.of_nat (length (target ++ [v]))) top_k) as [Hge|Hlt].
  - rewrite length_app. simpl. lia.
  - specialize (IH (target ++ [v])). rewrite length_app in *. simpl in *. lia.
Qed.

Section Run.
Variable llm_invoke : list Llm.message -> Llm.outcome.
Variable extract_json_from_text : string -> option Json.json.
Variable load_prompt : string -> Z -> list (gmap string string) -> string.
Variable top_k : Z.

Let targets (m : gmap string metric) (q : string) (valid : list (gmap string string)) :=
  (target_videos_of llm_invoke extract_json_from_text load_prompt top_k m q valid).1.

Lemma targets_subset (m : gmap string metric) (q : string)
    (valid : list (gmap string string)) (x : gmap string string) :
  x ∈ targets m q valid -> x ∈ valid.
Proof.
  unfold targets, target_videos_of.
  assert (Hsel : forall y,
             y ∈ (select llm_invoke extract_json_from_text load_prompt top_k m q valid).1
             -> y ∈ valid).
  { intros y. unfold select.
    destruct (llm_invoke _) as [r|e]; [|apply slice_to_subset].
    destruct (Metrics.update_token_metrics _ _ _); [|apply slice_to_subset].
    destruct (extract_json_from_text _) as [[]|]; cbn [fst];
      try apply slice_to_subset; apply pick_subset; intros ? H; by apply elem_of_nil in H. }
  destruct (select _ _ _ _ _ _ _).1 eqn:E; cbn [fst].
  - apply slice_to_subset.
  - rewrite E. apply Hsel.
Qed.

Lemma targets_length (m : gmap string metric) (q : string)
    (valid : list (gmap string string)) :
  1 <= top_k -> Z.of_nat (length (targets m q valid)) <= top_k.
Proof.
  intros Hk. unfold targets, target_videos_of.
  assert (Hsel : Z.of_nat (length
             (select llm_invoke extract_json_from_text load_prompt top_k m q valid).1)
             <= top_k).
  { unfold select.
    destruct (llm_invoke _) as [r|e]; [|apply slice_to_length; lia].
    destruct (Metrics.update_token_metrics _ _ _); [|apply slice_to_length; lia].
    destruct (extract_json_from_text _) as [[]|]; cbn [fst];
      try (apply slice_to_length; lia);
      match goal with
      | |- context [pick top_k valid ?idx []] =>
          pose proof (pick_length top_k valid idx []); simpl in *; lia
      end. }
  destruct (select _ _ _ _ _ _ _).1 eqn:E; cbn [fst].
  - apply slice_to_length. lia.
  - by rewrite E.
Qed.

(** X15: with a selection size of at least one, a Selector call selects at
    most [top_k] videos, whatever the model answers, and each of them is
    one of the raw candidates that carry a URL, with that URL stored under
    "url". *)
Theorem selector_selects_at_most_top_k (st : AgentState) :
  1 <= top_k ->
  let chosen := selected llm_invoke extract_json_from_text load_prompt top_k st in
  Z.of_nat (length chosen) <= top_k /\
  forall v, v ∈ chosen -> normalised (default [] (raw_candidates st)) v.
Proof.
  intros Hk chosen. unfold chosen, selected.
  destruct (default [] (raw_candidates st)) as [|raw raws] eqn:Hraws.
  { split; [simpl; lia | intros v Hv; by apply elem_of_nil in Hv]. }
  destruct (valid_candidates_of (raw :: raws)) as [|v0 vs] eqn:Hvalid.
  { split; [simpl; lia | intros v Hv; by apply elem_of_nil in Hv]. }
  split.
  - by apply targets_length.
  - intros v Hv. apply targets_subset in Hv.
    pose proof (valid_candidates_normalised (raw :: raws)) as Hall.
    rewrite Hvalid, Forall_forall in Hall. by apply Hall.
Qed.

End Run.
End SelectorChoice.

Lemma selector_selects_at_most_top_k_witness :
  let llm := fun _ : list Llm.message => Llm.Responded prose_answer in
  let parse := fun _ : string =>
    Some (Json.JArr [Json.JInt 2; Json.JStr "1"; Json.JInt 7; Json.JBool true;
                     Json.JInt 0]) in
  let prompt := fun (_ : string) (_ : Z) (_ : list (gmap string string)) => EmptyString in
  let chosen := selected llm parse prompt 2 rediscovery in
  chosen = [<["url" := "https://www.youtube.com/shorts/old9"]> raw_retry;
            <["url" := "https://www.youtube.com/watch?v=new1"]> raw_fresh] /\
  Z.of_nat (length chosen) <= 2 /\
  forall v, v ∈ chosen -> normalised (default [] (State.raw_candidates rediscovery)) v.
Proof.
  intros llm parse prompt chosen. split; [vm_compute; reflexivity|].
  apply (selector_selects_at_most_top_k llm parse prompt 2 rediscovery). lia.
Defined.

(** ** [nodes/selector.py]: what a Selector call does to the store *)

Section SelectorStoreShape.
Import State Selector.

Lemma store_loop_other (target_videos : list (gmap string string)) :
  forall (store : gmap string VideoResource) (i : nat) (vid : string),
    vid ∉ selected_ids i target_videos ->
    store_loop store i target_videos !! vid = store !! vid.
Proof.
  induction target_videos as [|video rest IH]; intros store i vid Hnot; [done|].
  cbn [store_loop selected_ids] in *. apply not_elem_of_cons in Hnot as [Hne Hnot].
  rewrite IH by done. by apply store_step_other.
Qed.

Lemma store_loop_present (target_videos : list (gmap string string))
    (store : gmap string VideoResource) (i : nat) (vid : string) :
  is_Some (store_loop store i target_videos !! vid) <->
  is_Some (store !! vid) \/ vid ∈ selected_ids i target_videos.
Proof.
  destruct (decide (vid ∈ selected_ids i target_videos)) as [Hin|Hnot].
  - split; [by right|]. intros _.
    destruct (store !! vid) as [res|] eqn:Hres.
    + rewrite (store_loop_known _ _ _ _ res Hres). by eexists.
    + destruct (store_loop_unseen _ _ _ _ Hres Hin) as (r & -> & _). by eexists.
  - rewrite store_loop_other by done. split; [by left | by intros [?|?]].
Qed.

(** A store in which every resource sits under its own identifier. *)
Definition keyed_by_id (store : gmap string VideoResource) : Prop :=
  forall vid res, store !! vid = Some res -> video_id res = vid.

Lemma store_step_keyed (store : gmap string VideoResource) (i : nat)
    (video : gmap string string) :
  keyed_by_id store -> keyed_by_id (store_step store i video).
Proof.
  intros Hk vid res. unfold store_step.
  destruct (store !! target_id i video) as [old|] eqn:Hold.
  - destruct (negb _); [|apply Hk].
    rewrite lookup_insert. case_decide as Heq; [|apply Hk].
    intros [= <-]. subst. simpl. by apply Hk.
  - rewrite lookup_insert. case_decide as Heq; [|apply Hk].
    intros [= <-]. by subst.
Qed.

Lemma store_loop_keyed (target_videos : list (gmap string string)) :
  forall (store : gmap string VideoResource) (i : nat),
    keyed_by_id store -> keyed_by_id (store_loop store i target_videos).
Proof.
  induction target_videos as [|video rest IH]; intros store i Hk; [done|].
  cbn [store_loop]. by apply IH, store_step_keyed.
Qed.

Section Run.
Variable llm_invoke : list Llm.message -> Llm.outcome.
Variable extract_json_from_text : string -> option Json.json.
Variable load_prompt : string -> Z -> list (gmap string string) -> string.
Variable top_k : Z.

Let selector_node :=
  Selector.selector_node llm_invoke extract_json_from_text load_prompt top_k.

Let chosen_ids (st : AgentState) : list string :=
  selected_ids 0 (selected llm_invoke extract_json_from_text load_prompt top_k st).

(** X16: a Selector call removes no video from the store and adds only
    the identifiers it selected; a resource whose identifier it did not
    select is returned as it was. *)
Theorem selector_only_adds (st : AgentState) :
  exists new,
    Upd.video_store (selector_node st) = Some new /\
    (forall vid,
       is_Some (new !! vid) <->
       is_Some (default ∅ (video_store st) !! vid) \/ vid ∈ chosen_ids st) /\
    (forall vid,
       vid ∉ chosen_ids st -> new !! vid = default ∅ (video_store st) !! vid).
Proof.
  eexists. split; [apply selector_node_store|]. split.
  - intros vid. apply store_loop_present.
  - intros vid Hnot. by apply store_loop_other.
Qed.

(** X17: a store in which every resource sits under its own identifier is
    still such a store after a Selector call. *)
Theorem selector_keeps_store_keyed (st : AgentState) :
  keyed_by_id (default ∅ (video_store st)) ->
  exists new,
    Upd.video_store (selector_node st) = Some new /\ keyed_by_id new.
Proof.
  intros Hk. eexists. split; [apply selector_node_store|].
  by apply store_loop_keyed.
Qed.


(** X19: when the model call fails, or the model answers with a text
    in which [extract_json_from_text] finds no JSON, the selection is the
    first [top_k] candidates that carry a URL, in input order. *)
Theorem selector_falls_back_to_first_k (st : AgentState)
    (v : gmap string string) (vs : list (gmap string string)) :
  valid_candidates_of (default [] (raw_candidates st)) = v :: vs ->
  (exists e,
     llm_invoke
       [Llm.HumanMessage
          (load_prompt (default EmptyString (user_query st)) top_k (v :: vs))]
     = Llm.Failed e) \/
  (exists r,
     llm_invoke
       [Llm.HumanMessage
          (load_prompt (default EmptyString (user_query st)) top_k (v :: vs))]
     = Llm.Responded r /\
     extract_json_from_text (Llm.content r) = None) ->
  selected llm_invoke extract_json_from_text load_prompt top_k st
  = PyStr.slice_to top_k (v :: vs).
Proof.
  intros Hvalid Hfail. unfold selected.
  destruct (default [] (raw_candidates st)) as [|raw raws]; [done|].
  rewrite Hvalid. unfold target_videos_of, select.
  destruct Hfail as [[e ->]|(r & -> & Hparse)].
  - cbn [fst]. by destruct (PyStr.slice_to top_k (v :: vs)).
  - destruct (Metrics.update_token_metrics _ _ _); rewrite ?Hparse; cbn [fst];
      by destruct (PyStr.slice_to top_k (v :: vs)).
Qed.

(** X20: when a Selector call selects an identifier the store does not
    hold, or holds with a status other than "verified" and "watched", the
    routing function evaluated on the merged blackboard returns
    "watcher". *)
Theorem selector_then_route_watcher (st : AgentState) (vid : string) :
  vid ∈ chosen_ids st ->
  match default ∅ (video_store st) !! vid with
  | Some res => str_in (status res) ["verified"; "watched"] = false
  | None => True
  end ->
  Builder.route_selector_output (Merge.apply_update st (selector_node st))
  = Some "watcher".
Proof.
  intros Hin Hstatus. unfold Builder.route_selector_output.
  cbn [Merge.apply_update video_store]. unfold selector_node.
  rewrite selector_node_store. cbn [Merge.last_value].
  set (new := store_loop _ _ _).
  assert (Hres : exists res, new !! vid = Some res /\ status res = "candidate").
  { unfold new. destruct (default ∅ (video_store st) !! vid) as [res|] eqn:Hold.
    - rewrite (store_loop_known _ _ _ _ res Hold).
      rewrite bool_decide_eq_true_2 by done. unfold mark. rewrite Hstatus.
      by eexists.
    - by apply store_loop_unseen. }
  destruct Hres as (res & Hlook & Hst).
  destruct (List.filter _ _) as [|c cs] eqn:E; [|done].
  exfalso. rewrite filter_empty_iff in E.
  assert (Hf : str_in (status res) ["candidate"; "analyzing"] = false)
    by (apply E, store_values; by exists vid).
  by rewrite Hst in Hf.
Qed.

End Run.
End SelectorStoreShape.

Definition one_verified : State.AgentState :=
  Merge.apply_update
    (Fixtures.with_store {[ "abc" := Fixtures.video "abc" "verified" None ]}
       (Fixtures.initial "X"))
    (Fixtures.candidates_update [raw_fresh; no_link]).

Lemma selector_keeps_store_keyed_witness :
  exists new,
    Upd.video_store
      (Selector.selector_node (fun _ => Llm.Failed "offline") (fun _ => None)
         (fun _ _ _ => EmptyString) 5 one_verified) = Some new /\
    keyed_by_id new.
Proof.
  apply (selector_keeps_store_keyed (fun _ => Llm.Failed "offline") (fun _ => None)
           (fun _ _ _ => EmptyString) 5 one_verified).
  intros vid res H.
  change (default ∅ (State.video_store one_verified))
    with ({[ "abc" := Fixtures.video "abc" "verified" None ]}
          : gmap string State.VideoResource) in H.
  apply lookup_singleton_Some in H as [<- <-]. reflexivity.
Defined.



(** A parser that finds the JSON array in one text and none in any other. *)
Definition finds_one_array (text : string) : option Json.json :=
  if String.eqb text "[1]" then Some (Json.JArr [Json.JInt 1]) else None.

Lemma selector_falls_back_to_first_k_witness :
  selected (fun _ => Llm.Failed "offline") finds_one_array
    (fun _ _ _ => EmptyString) 2 rediscovery
  = [<["url" := "https://youtu.be/abc?t=5"]> raw_known;
     <["url" := "https://www.youtube.com/watch?v=new1"]> raw_fresh] /\
  selected (fun _ => Llm.Responded prose_answer) finds_one_array
    (fun _ _ _ => EmptyString) 2 rediscovery
  = [<["url" := "https://youtu.be/abc?t=5"]> raw_known;
     <["url" := "https://www.youtube.com/watch?v=new1"]> raw_fresh].
Proof.
  split.
  - apply (selector_falls_back_to_first_k (fun _ => Llm.Failed "offline")
             finds_one_array (fun _ _ _ => EmptyString) 2 rediscovery
             (<["url" := "https://youtu.be/abc?t=5"]> raw_known)
             [<["url" := "https://www.youtube.com/watch?v=new1"]> raw_fresh;
              <["url" := "https://www.youtube.com/shorts/old9"]> raw_retry]).
    + vm_compute. reflexivity.
    + left. by exists "offline".
  - apply (selector_falls_back_to_first_k (fun _ => Llm.Responded prose_answer)
             finds_one_array (fun _ _ _ => EmptyString) 2 rediscovery
             (<["url" := "https://youtu.be/abc?t=5"]> raw_known)
             [<["url" := "https://www.youtube.com/watch?v=new1"]> raw_fresh;
              <["url" := "https://www.youtube.com/shorts/old9"]> raw_retry]).
    + vm_compute. reflexivity.
    + right. exists prose_answer. split; reflexivity.
Defined.

(** The same parser does find the array when the model answers with it,
    and the selection is then the model's. *)
Example selector_follows_the_model :
  selected
    (fun _ => Llm.Responded
                {| Llm.content := "[1]"; Llm.prompt_tokens := None;
                   Llm.completion_tokens := None; Llm.total_tokens := None |})
    finds_one_array (fun _ _ _ => EmptyString) 2 rediscovery
  = [<["url" := "https://www.youtube.com/watch?v=new1"]> raw_fresh].
Proof. vm_compute. reflexivity. Qed.

Lemma selector_then_route_watcher_witness :
  let llm := fun _ : list Llm.message => Llm.Failed "offline" in
  let parse := fun _ : string => @None Json.json in
  let prompt := fun (_ : string) (_ : Z) (_ : list (gmap string string)) => EmptyString in
  Builder.route_selector_output
    (Merge.apply_update one_verified (Selector.selector_node llm parse prompt 5 one_verified))
  = Some "watcher".
Proof.
  intros llm parse prompt.
  apply (selector_then_route_watcher llm parse prompt 5 one_verified "new1").
  - vm_compute. repeat constructor.
  - vm_compute. exact I.
Defined.

(** Rediscovering only a verified video sends the round to the Checker. *)
Example selector_then_route_checker :
  Builder.route_selector_output
    (Merge.apply_update
       (Merge.apply_update one_verified (Fixtures.candidates_update [raw_known]))
       (Selector.selector_node (fun _ => Llm.Failed "offline") (fun _ => None)
          (fun _ _ _ => EmptyString) 5
          (Merge.apply_update one_verified (Fixtures.candidates_update [raw_known]))))
  = Some "checker".
Proof. vm_compute. reflexivity. Qed.

(** ** [nodes/planner.py]: when the Planner raises, and what it returns *)

Section PlannerResults.
Import State Json.

Variable llm_invoke : list Llm.message -> Llm.outcome.
Variable extract_json_from_text : string -> option json.
Variable format_planner_view : AgentState -> string.
Variable load_prompt : Z -> string.
Variable max_queries : Z.
Variable py_str : json -> string.

Let planner_node :=
  Planner.planner_node llm_invoke extract_json_from_text format_planner_view
    load_prompt max_queries py_str.

Let try_plan := Planner.try_plan extract_json_from_text max_queries.

Let messages (st : AgentState) : list Llm.message :=
  [Llm.SystemMessage (load_prompt max_queries);
   Llm.HumanMessage (format_planner_view st)].

(** X21: the Planner raises in exactly three situations: the model call
    itself fails (it is made outside the [try]); the metrics record cannot
    be updated; or parsing fails and the blackboard holds no user query to
    fall back on. *)
Theorem planner_raises_iff (st : AgentState) :
  planner_node st = None <->
  (exists e, llm_invoke (messages st) = Llm.Failed e) \/
  (exists r,
     llm_invoke (messages st) = Llm.Responded r /\
     (Metrics.update_token_metrics (metrics st) r None = None \/
      (try_plan (Llm.content r) = None /\ user_query st = None))).
Proof.
  unfold planner_node, Planner.planner_node, try_plan, messages.
  destruct (llm_invoke _) as [r|e].
  - destruct (Metrics.update_token_metrics _ _ _) as [m|] eqn:Hm;
      cbn [mbind option_bind].
    + destruct (Planner.try_plan _ _ _) as [fields|] eqn:Ht; cbn [mbind option_bind].
      * split; [done|].
        intros [[e He]|(r' & Hr & [H|[H _]])]; [done| |];
          injection Hr as <-; congruence.
      * destruct (user_query st) as [q|] eqn:Hq; cbn [mbind option_bind].
        -- split; [done|].
           intros [[e He]|(r' & Hr & [H|[_ H]])]; [done| |];
             injection Hr as <-; congruence.
        -- split; [|done]. intros _. right. exists r.
           split; [done|]. right. by split.
    + split; [|done]. intros _. right. exists r. split; [done | by left].
  - split; [|done]. intros _. left. by exists e.
Qed.

Lemma dict_get_set_eq (fields : list (string * json)) (k : string) (v : json) :
  dict_get (dict_set fields k v) k = Some v.
Proof.
  induction fields as [|[k' v'] fields IH]; simpl.
  - by rewrite String.eqb_refl.
  - destruct (String.eqb k' k) eqn:E; simpl; [by rewrite String.eqb_refl|].
    by rewrite E.
Qed.

Lemma dict_get_set_ne (fields : list (string * json)) (k k' : string) (v : json) :
  k <> k' -> dict_get (dict_set fields k v) k' = dict_get fields k'.
Proof.
  intros Hne. induction fields as [|[k0 v0] fields IH]; simpl.
  - by destruct (String.eqb_spec k k').
  - destruct (String.eqb_spec k0 k) as [->|Hk]; simpl.
    + by destruct (String.eqb_spec k k').
    + by rewrite IH.
Qed.

Lemma slice_to_prefix {A} (n : Z) (l : list A) : PyStr.slice_to n l `prefix_of` l.
Proof. unfold PyStr.slice_to. destruct (0 <=? n); apply prefix_take. Qed.

(** X22: when the model's plan is an object whose "search_queries" is a
    list, the Planner returns a prefix of that list, of at most
    [max_queries] elements for a non-negative [max_queries], and a trace
    of exactly one entry that carries the plan's thought. *)
Theorem planner_caps_queries (st : AgentState) (r : Llm.response)
    (m : gmap string metric) (fields : list (string * json)) (qs : list json) :
  llm_invoke (messages st) = Llm.Responded r ->
  Metrics.update_token_metrics (metrics st) r None = Some m ->
  extract_json_from_text (Llm.content r) = Some (JObj fields) ->
  dict_get fields "search_queries" = Some (JArr qs) ->
  exists out cut,
    planner_node st = Some out /\
    Planner.current_search_queries out = JArr cut /\
    cut `prefix_of` qs /\
    (0 <= max_queries -> Z.of_nat (length cut) <= max_queries) /\
    Planner.plan_trace out
      = ["Thought: " +:+ Planner.fmt py_str (dict_get fields "thought")] /\
    Planner.metrics out = m.
Proof.
  intros Hllm Hm Hparse Hqs.
  unfold planner_node, Planner.planner_node. fold (messages st).
  rewrite Hllm, Hm. cbn [mbind option_bind].
  unfold Planner.try_plan. rewrite Hparse. cbn [mbind option_bind]. rewrite Hqs.
  destruct qs as [|q qs'].
  - cbn [truthy mbind option_bind]. rewrite Hqs. cbn [default].
    eexists. exists []. split; [reflexivity|].
    split; [reflexivity|]. split; [done|].
    split; [intros; simpl; lia|]. by split.
  - cbn [truthy slice_to mbind option_bind].
    rewrite dict_get_set_eq, dict_get_set_ne by done. cbn [default].
    eexists. exists (PyStr.slice_to max_queries (q :: qs')).
    split; [reflexivity|]. split; [reflexivity|].
    split; [apply slice_to_prefix|].
    split; [apply slice_to_length|]. by split.
Qed.

End PlannerResults.

Definition long_plan : Json.json :=
  Json.JObj [("thought", Json.JStr "look wider");
             ("search_queries",
              Json.JArr [Json.JStr "a"; Json.JStr "b"; Json.JStr "c"; Json.JStr "d"])].

Lemma planner_caps_queries_witness :
  exists out,
    Planner.planner_node (fun _ => Llm.Responded prose_answer) (fun _ => Some long_plan)
      (fun _ => "view") (fun _ => "prompt") 3 (fun _ => "?") (Fixtures.initial "X")
    = Some out /\
    Planner.current_search_queries out
      = Json.JArr [Json.JStr "a"; Json.JStr "b"; Json.JStr "c"] /\
    Planner.plan_trace out = ["Thought: look wider"].
Proof.
  destruct (planner_caps_queries (fun _ => Llm.Responded prose_answer)
              (fun _ => Some long_plan) (fun _ => "view") (fun _ => "prompt") 3
              (fun _ => "?") (Fixtures.initial "X") prose_answer
              {[ "input_tokens" := State.MNum 12; "output_tokens" := State.MNum 7;
                 "total_tokens" := State.MNum 19 ]}
              [("thought", Json.JStr "look wider");
               ("search_queries",
                Json.JArr [Json.JStr "a"; Json.JStr "b"; Json.JStr "c"; Json.JStr "d"])]
              [Json.JStr "a"; Json.JStr "b"; Json.JStr "c"; Json.JStr "d"])
    as (out & cut & Hout & Hq & _ & _ & Ht & _).
  - reflexivity.
  - vm_compute. reflexivity.
  - reflexivity.
  - reflexivity.
  - exists out. split; [exact Hout|]. split; [|exact Ht].
    vm_compute in Hout. injection Hout as <-. reflexivity.
Defined.

(** ** [nodes/analyst.py]: when the Analyst calls the synthesis model *)

Section AnalystCalls.
Import State Json Analyst.

Variable items : gmap string VideoResource -> list (string * VideoResource).
Variable json_loads : string -> option json.
Variable download_video_file : string -> download.
Variable extract_frames_from_window : string -> Q -> Q -> list frame.
Variable le_other : json -> json -> option bool.
Variable str_of : json -> string.
Variable splitlines : string -> list string.
Variable line_times : string -> option (Q * Q).
Variable fmt1 : Q -> string.
Variable slice_chars : Z -> string -> string.
Variable load_prompt : string -> string.
Variable llm_invoke : list Llm.message -> Llm.outcome.
Variable metrics_error : string.

Let analyst_node :=
  Analyst.analyst_node items json_loads download_video_file extract_frames_from_window
    le_other str_of splitlines line_times fmt1 slice_chars load_prompt llm_invoke
    metrics_error.

Let raises := raises json_loads download_video_file le_other str_of.
Let yields_window := yields_window json_loads download_video_file le_other str_of.






End AnalystCalls.

Definition spoken : State.AgentState :=
  Fixtures.with_store {[ "abc" := Fixtures.video "abc" "verified" (Some "[0.0s - 2.0s] hi") ]}
    (Fixtures.initial "X").




Definition spoken_message : list Llm.content_part :=
  [Llm.TextPart
     ("User Query: X" +:+ PyStr.newline +:+ PyStr.newline
        +:+ "Analyze the following video clips and transcripts to answer the query.");
   Llm.TextPart
     (PyStr.newline +:+ "=== Video Transcript: A title ===" +:+ PyStr.newline
        +:+ "[0.0s - 2.0s] hi...");
   Llm.TextPart "instructions"].





(** A window whose bounds are numbers is read; one whose end is a text is
    not, and the first loop raises on it once the file is there. *)
Example window_with_text_bound_raises :
  Analyst.read_window (fun _ _ => None) (fun _ => EmptyString)
    (Json.JObj [("start_time_seconds", Json.JInt 2);
                ("end_time_seconds", Json.JStr "soon")])
  = Analyst.Raise.
Proof. reflexivity. Qed.

(** With a transcript at hand the Analyst does call the synthesis model. *)
Example analyst_synthesizes_from_transcript :
  Analyst.llm_calls <$> offline_analyst (fun _ => Llm.Failed "offline") spoken
  = Some [spoken_message].
Proof. vm_compute. reflexivity. Qed.

(** ** [nodes/watcher.py] *)

Module Watcher.
Import State.

(** A transcript segment as [fetch_transcript_with_timestamps] returns it,
    read with the defaults of [seg.get]. *)
Record segment := {
  start_ : Q;
  end_ : Q;
  text : string }.

Section WithCollaborators.
(** The media tools ([None]: the call raised, or returned nothing), the
    accounting of Whisper audio seconds (a counter of its own that depends
    on the configuration and on the file), [f"{x:.1f}"], the prompt
    renderer, the inspection model, [extract_json_from_text], [json.dumps]
    and the text of the error [update_token_metrics] raises. *)
Variable download_video_file : string -> option string.
Variable extract_frames_with_timestamps : string -> Z -> option (list Analyst.frame).
Variable fetch_transcript_with_timestamps : string -> option (list segment).
Variable whisper_metrics : option string -> gmap string metric -> gmap string metric.
Variable fmt1 : Q -> string.
Variable load_prompt : string -> string -> list Analyst.frame -> string -> string.
Variable llm_invoke : list Llm.message -> Llm.outcome.
Variable extract_json_from_text : string -> option Json.json.
Variable json_dumps : Json.json -> string.
Variable metrics_error : string.
Variable num_frames : Z.

Definition segment_line (seg : segment) : string :=
  "[" +:+ fmt1 (start_ seg) +:+ "s - " +:+ fmt1 (end_ seg) +:+ "s] " +:+ text seg.

Definition join_lines (ls : list string) : string :=
  match ls with
  | [] => EmptyString
  | l :: rest => fold_left (fun acc x => acc +:+ PyStr.newline +:+ x) rest l
  end.

(** The body of the loop for one candidate: the resource as the loop
    leaves it, and the metrics after it. *)
Definition watch_video (metrics : gmap string metric) (user_query : string)
    (video : VideoResource) : VideoResource * gmap string metric :=
  let video_url := url video in
  let video_path := download_video_file video_url in
  let frames_data :=
    match video_path with
    | Some p =>
        if PyStr.truthy p
        then default [] (extract_frames_with_timestamps p num_frames) else []
    | None => []
    end in
  let heard :=
    match fetch_transcript_with_timestamps video_url with
    | Some (seg :: segs) =>
        (join_lines (segment_line <$> seg :: segs), whisper_metrics video_path metrics)
    | _ => (EmptyString, metrics)
    end in
  let transcript_text_with_timestamps := heard.1 in
  let metrics := heard.2 in
  let prompt_text :=
    load_prompt user_query (title video) frames_data
      (PyStr.slice_to_str 25000 transcript_text_with_timestamps) in
  let content_parts :=
    Llm.TextPart prompt_text
      :: ((fun f => Llm.ImagePart ("data:image/jpeg;base64," +:+ Analyst.image f))
            <$> frames_data) in
  let seen :=
    match llm_invoke [Llm.HumanParts content_parts] with
    | Llm.Failed e => ("Error: " +:+ e, metrics)
    | Llm.Responded response =>
        match Metrics.update_token_metrics metrics response (Some "jit_watcher") with
        | None => ("Error: " +:+ metrics_error, metrics)
        | Some metrics =>
            (match extract_json_from_text (Llm.content response) with
             | Some analysis_result => json_dumps analysis_result
             | None => Llm.content response
             end, metrics)
        end
    end in
  ({| video_id := video_id video; title := title video; url := url video;
      duration := duration video; status := "verified";
      relevance_reason := relevance_reason video; evidence := evidence video;
      summary := Some seen.1;
      transcript := Some transcript_text_with_timestamps |},
   seen.2).

(** One pass of the loop: [video_store[video.video_id] = video].  (The
    loop changes the resource object in place; in a store where every
    resource sits under its own identifier that is the same write.) *)
Definition watch_step (user_query : string)
    (acc : gmap string VideoResource * gmap string metric) (video : VideoResource)
    : gmap string VideoResource * gmap string metric :=
  let watched := watch_video acc.2 user_query video in
  (<[video_id watched.1 := watched.1]> acc.1, watched.2).

Definition watcher_node (state : AgentState) : Upd.Update :=
  let metrics := State.metrics state in
  let video_store := default ∅ (State.video_store state) in
  let user_query := default EmptyString (State.user_query state) in
  let candidates :=
    List.filter (fun v => String.eqb (status v) "candidate")
                (map_to_list video_store).*2 in
  match candidates with
  | [] => Selector.only_store video_store
  | _ =>
      let done := fold_left (watch_step user_query) candidates (video_store, metrics) in
      {| Upd.user_query := None; Upd.constraints := None;
         Upd.video_store := Some done.1;
         Upd.current_search_queries := None; Upd.visual_hypothesis := None;
         Upd.raw_candidates := None; Upd.ambiguity_note := None;
         Upd.tried_queries := None; Upd.visited_video_ids := None;
         Upd.text_search_context := None; Upd.plan_trace := None;
         Upd.loop_step := None; Upd.final_answer := None;
         Upd.routing_signal := None; Upd.metrics := Some done.2 |}
  end.

End WithCollaborators.
End Watcher.

Section WatcherStore.
Import State.

Variable download_video_file : string -> option string.
Variable extract_frames_with_timestamps : string -> Z -> option (list Analyst.frame).
Variable fetch_transcript_with_timestamps : string -> option (list Watcher.segment).
Variable whisper_metrics : option string -> gmap string metric -> gmap string metric.
Variable fmt1 : Q -> string.
Variable load_prompt : string -> string -> list Analyst.frame -> string -> string.
Variable llm_invoke : list Llm.message -> Llm.outcome.
Variable extract_json_from_text : string -> option Json.json.
Variable json_dumps : Json.json -> string.
Variable metrics_error : string.
Variable num_frames : Z.

Let watch_video :=
  Watcher.watch_video download_video_file extract_frames_with_timestamps
    fetch_transcript_with_timestamps whisper_metrics fmt1 load_prompt llm_invoke
    extract_json_from_text json_dumps metrics_error num_frames.

Let watch_step :=
  Watcher.watch_step download_video_file extract_frames_with_timestamps
    fetch_transcript_with_timestamps whisper_metrics fmt1 load_prompt llm_invoke
    extract_json_from_text json_dumps metrics_error num_frames.

Let watcher_node :=
  Watcher.watcher_node download_video_file extract_frames_with_timestamps
    fetch_transcript_with_timestamps whisper_metrics fmt1 load_prompt llm_invoke
    extract_json_from_text json_dumps metrics_error num_frames.

(** What the Watcher makes of a candidate: the same video, verified, with
    a summary and a transcript written (either may be empty text). *)
Definition watched_from (old new : VideoResource) : Prop :=
  video_id new = video_id old /\ title new = title old /\ url new = url old /\
  duration new = duration old /\ evidence new = evidence old /\
  relevance_reason new = relevance_reason old /\
  status new = "verified" /\
  is_Some (summary new) /\ is_Some (transcript new).

Lemma watch_video_watched (m : gmap string metric) (q : string) (v : VideoResource) :
  watched_from v (watch_video m q v).1.
Proof. unfold watched_from. cbn. repeat split; by eexists. Qed.

Definition is_candidate (v : VideoResource) : bool := String.eqb (status v) "candidate".

Lemma watch_fold_lookup (q : string) (cs : list VideoResource) :
  forall (store : gmap string VideoResource) (m : gmap string metric) (k : string),
    (k ∉ video_id <$> cs ->
     (fold_left (watch_step q) cs (store, m)).1 !! k = store !! k) /\
    (k ∈ video_id <$> cs ->
     exists v m0,
       v ∈ cs /\ video_id v = k /\
       (fold_left (watch_step q) cs (store, m)).1 !! k = Some (watch_video m0 q v).1).
Proof.
  induction cs as [|c cs IH]; intros store m k.
  - split; [done|]. intros H. by apply elem_of_nil in H.
  - cbn [fold_left]. unfold watch_step at 2 4, Watcher.watch_step.
    cbn [fst snd].
    set (w := Watcher.watch_video _ _ _ _ _ _ _ _ _ _ _ m q c).
    destruct (IH (<[video_id w.1 := w.1]> store) w.2 k) as [IHout IHin].
    rewrite fmap_cons.
    assert (Hid : video_id w.1 = video_id c) by done.
    split.
    + intros Hnot. apply not_elem_of_cons in Hnot as [Hne Hnot].
      rewrite IHout by done. rewrite lookup_insert_ne; [done | congruence].
    + intros Hin. destruct (decide (k ∈ video_id <$> cs)) as [Hcs|Hcs].
      * destruct (IHin Hcs) as (v & m0 & Hv & Hk & Hl).
        exists v, m0. split; [apply elem_of_cons; by right | done].
      * apply elem_of_cons in Hin as [->|Hin]; [|done].
        rewrite IHout by done. rewrite <- Hid, lookup_insert_eq.
        exists c, m. split; [apply elem_of_cons; by left | done].
Qed.

Lemma candidates_of_store (store : gmap string VideoResource) (v : VideoResource) :
  v ∈ List.filter is_candidate (map_to_list store).*2 <->
  (exists k, store !! k = Some v) /\ status v = "candidate".
Proof.
  rewrite list_elem_of_In, filter_In, <- list_elem_of_In, store_values.
  unfold is_candidate. by rewrite String.eqb_eq.
Qed.

(** The store a Watcher call returns, whether or not it found candidates. *)
Definition watched_store (st : AgentState) : gmap string VideoResource :=
  default ∅ (Upd.video_store (watcher_node st)).

Lemma watched_store_fold (st : AgentState) :
  watched_store st
  = (fold_left (watch_step (default EmptyString (user_query st)))
       (List.filter is_candidate (map_to_list (default ∅ (video_store st))).*2)
       (default ∅ (video_store st), metrics st)).1.
Proof.
  unfold watched_store, watcher_node, Watcher.watcher_node. fold is_candidate.
  by destruct (List.filter is_candidate _).
Qed.

Lemma watcher_store_lookup (st : AgentState) (k : string) :
  keyed_by_id (default ∅ (video_store st)) ->
  match default ∅ (video_store st) !! k with
  | Some res =>
      if is_candidate res
      then exists new, watched_store st !! k = Some new /\ watched_from res new
      else watched_store st !! k = Some res
  | None => watched_store st !! k = None
  end.
Proof.
  intros Hkeyed. rewrite watched_store_fold.
  set (old := default ∅ (video_store st)) in *.
  set (cs := List.filter is_candidate (map_to_list old).*2).
  assert (Hcs : forall v, v ∈ cs -> old !! video_id v = Some v /\ is_candidate v = true).
  { intros v Hv. apply candidates_of_store in Hv as [[k' Hk'] Hst].
    split; [by rewrite (Hkeyed _ _ Hk') | unfold is_candidate; by rewrite Hst]. }
  assert (Hmem : forall res, old !! k = Some res -> is_candidate res = true ->
                             k ∈ video_id <$> cs).
  { intros res Hres Hc. apply list_elem_of_fmap. exists res.
    split; [by rewrite (Hkeyed _ _ Hres)|].
    apply candidates_of_store. split; [by exists k|].
    unfold is_candidate in Hc. by apply String.eqb_eq. }
  destruct (watch_fold_lookup (default EmptyString (user_query st)) cs old
              (metrics st) k) as [Hout Hin].
  destruct (old !! k) as [res|] eqn:Hres.
  - destruct (is_candidate res) eqn:Hc.
    + destruct (Hin (Hmem res eq_refl Hc)) as (v & m0 & Hv & Hk & Hl).
      destruct (Hcs v Hv) as [Hv' _]. rewrite Hk, Hres in Hv'. injection Hv' as <-.
      eexists. split; [exact Hl | apply watch_video_watched].
    + rewrite Hout; [done|]. intros Hk.
      apply list_elem_of_fmap in Hk as (v & -> & Hv).
      destruct (Hcs v Hv) as [Hv' Hvc]. congruence.
  - rewrite Hout; [done|]. intros Hk.
    apply list_elem_of_fmap in Hk as (v & -> & Hv).
    destruct (Hcs v Hv) as [Hv' _]. congruence.
Qed.


(** X27: on a store in which every resource sits under its own
    identifier, the Watcher turns every candidate into a verified resource
    of the same video with a summary and a transcript written, whatever
    the media tools and the model do; it returns every other resource
    unchanged and adds or removes none. *)
Theorem watcher_verifies_candidates (st : AgentState) :
  keyed_by_id (default ∅ (video_store st)) ->
  exists new,
    Upd.video_store (watcher_node st) = Some new /\
    forall k,
      match default ∅ (video_store st) !! k with
      | Some res =>
          if String.eqb (status res) "candidate"
          then exists res', new !! k = Some res' /\ watched_from res res'
          else new !! k = Some res
      | None => new !! k = None
      end.
Proof.
  intros Hkeyed.
  assert (Hsome : exists new, Upd.video_store (watcher_node st) = Some new).
  { unfold watcher_node, Watcher.watcher_node.
    destruct (List.filter _ _); by eexists. }
  destruct Hsome as [new Hnew]. exists new. split; [done|].
  intros k. pose proof (watcher_store_lookup st k Hkeyed) as H.
  unfold watched_store in H. rewrite Hnew in H. exact H.
Qed.


End WatcherStore.

Definition one_candidate : State.AgentState :=
  Fixtures.with_store {[ "abc" := Fixtures.video "abc" "candidate" None ]}
    (Fixtures.initial "X").

Definition watcher_offline (st : State.AgentState) : Upd.Update :=
  Watcher.watcher_node (fun _ => None) (fun _ _ => None)
    (fun _ => Some [{| Watcher.start_ := 0; Watcher.end_ := 2; Watcher.text := "hi" |}])
    (fun _ m => m) (fun _ => "0.0") (fun _ _ _ _ => "prompt")
    (fun _ => Llm.Failed "offline") (fun _ => None) (fun _ => "json") "error" 10 st.

Lemma keyed_one_candidate :
  keyed_by_id (default ∅ (State.video_store one_candidate)).
Proof.
  intros vid res H.
  change (default ∅ (State.video_store one_candidate))
    with ({[ "abc" := Fixtures.video "abc" "candidate" None ]}
          : gmap string State.VideoResource) in H.
  apply lookup_singleton_Some in H as [<- <-]. reflexivity.
Defined.



Lemma watcher_verifies_candidates_witness :
  exists new,
    Upd.video_store (watcher_offline one_candidate) = Some new /\
    forall k,
      match default ∅ (State.video_store one_candidate) !! k with
      | Some res =>
          if String.eqb (State.status res) "candidate"
          then exists res', new !! k = Some res' /\ watched_from res res'
          else new !! k = Some res
      | None => new !! k = None
      end.
Proof.
  unfold watcher_offline.
  apply watcher_verifies_candidates. exact keyed_one_candidate.
Defined.


(** A model that is down still leaves the video verified, with the error
    as its summary and the transcript that was fetched. *)
Example watcher_offline_result :
  (fun r => (State.status r, State.summary r, State.transcript r)) <$>
    (default ∅ (Upd.video_store (watcher_offline one_candidate)) !! "abc")
  = Some ("verified", Some "Error: offline", Some "[0.0s - 0.0s] hi").
Proof. vm_compute. reflexivity. Qed.

(** ** [utils/parser.py]: cleaning a VTT transcript *)

Module Vtt.

(** [sep.join(parts)] *)
Definition join (sep : string) (parts : list string) : string :=
  match parts with
  | [] => EmptyString
  | p :: rest => fold_left (fun acc x => acc +:+ sep +:+ x) rest p
  end.

(** The loop that removes roll-up repetitions: [current_buffer] is the
    line being held, [final_lines] the lines already kept. *)
Fixpoint rollup (current_buffer : string) (rest : list string)
    (final_lines : list string) : list string :=
  match rest with
  | [] => final_lines ++ [current_buffer]
  | next_line :: rest' =>
      if String.eqb next_line current_buffer then rollup current_buffer rest' final_lines
      else if PyStr.contains current_buffer next_line
           then rollup next_line rest' final_lines
           else rollup next_line rest' (final_lines ++ [current_buffer])
  end.

Section WithText.
(** [str.splitlines], [re.sub(r'<[^>]+>', '', line)] and [str.split()]. *)
Variable splitlines : string -> list string.
Variable remove_tags : string -> string.
Variable split_whitespace : string -> list string.

(** The first loop: header and timestamp lines are skipped, tags removed,
    whitespace normalised, lines left empty dropped. *)
Definition clean_line (line : string) : option string :=
  if String.prefix "Kind:" line || String.prefix "Language:" line
     || String.prefix "WEBVTT" line then None
  else if PyStr.contains "-->" line then None
  else
    let line_clean := join " " (split_whitespace (remove_tags line)) in
    if PyStr.truthy line_clean then Some line_clean else None.

Definition cleaned_lines (text : string) : list string :=
  omap clean_line (splitlines text).

Definition clean_vtt_text (text : string) : string :=
  match cleaned_lines text with
  | [] => EmptyString
  | first :: rest => join " " (rollup first rest [])
  end.

End WithText.
End Vtt.

Section VttRollup.
Import Vtt.

Lemma rollup_tail (rest : list string) :
  forall (cur : string) (acc : list string),
    exists tail,
      rollup cur rest acc = acc ++ tail /\
      tail `sublist_of` (cur :: rest) /\
      last tail = last (cur :: rest).
Proof.
  induction rest as [|next rest IH]; intros cur acc; cbn [rollup].
  - by exists [cur].
  - destruct (String.eqb_spec next cur) as [->|Hne].
    + destruct (IH cur acc) as (tail & Heq & Hsub & Hlast).
      exists tail. split; [done|]. split.
      * etrans; [exact Hsub|]. apply sublist_skip, sublist_cons. reflexivity.
      * rewrite Hlast, !last_cons. by destruct (last rest).
    + destruct (PyStr.contains cur next).
      * destruct (IH next acc) as (tail & Heq & Hsub & Hlast).
        exists tail. split; [done|]. split; [by apply sublist_cons|].
        by rewrite Hlast, last_cons_cons.
      * destruct (IH next (acc ++ [cur])) as (tail & Heq & Hsub & Hlast).
        exists (cur :: tail). split; [by rewrite Heq, <- app_assoc|]. split.
        -- by apply sublist_skip.
        -- rewrite (last_cons cur tail), Hlast, (last_cons cur (next :: rest)).
           rewrite last_cons. by destruct (last rest).
Qed.

(** Every line of a chain holds the line before it. *)
Fixpoint grows (cur : string) (rest : list string) : Prop :=
  match rest with
  | [] => True
  | next :: rest' => PyStr.contains cur next = true /\ grows next rest'
  end.

Lemma last_cons_default {A} (l : list A) :
  forall x d, List.last (x :: l) d = List.last l x.
Proof.
  induction l as [|a l IH]; intros x d; [done|].
  change (List.last (x :: a :: l) d) with (List.last (a :: l) d).
  by rewrite !IH.
Qed.

Lemma rollup_chain (rest : list string) :
  forall (cur : string) (acc : list string),
    grows cur rest -> rollup cur rest acc = acc ++ [List.last rest cur].
Proof.
  induction rest as [|next rest IH]; intros cur acc Hg; cbn [rollup]; [done|].
  destruct Hg as [Hc Hg]. rewrite last_cons_default.
  destruct (String.eqb_spec next cur) as [->|Hne].
  - by rewrite IH.
  - by rewrite Hc, IH.
Qed.

Section Text.
Variable splitlines : string -> list string.
Variable remove_tags : string -> string.
Variable split_whitespace : string -> list string.

Let cleaned := Vtt.cleaned_lines splitlines remove_tags split_whitespace.
Let clean_vtt_text := Vtt.clean_vtt_text splitlines remove_tags split_whitespace.

(** X29: the cleaned transcript is the space-joined text of lines taken
    from the cleaned caption lines, in their order and without inventing
    any, and the last caption line is always the last one kept; a text
    without caption lines gives the empty string. *)
Theorem clean_vtt_text_keeps_order (text : string) :
  exists kept,
    clean_vtt_text text = join " " kept /\
    kept `sublist_of` cleaned text /\
    last kept = last (cleaned text).
Proof.
  unfold clean_vtt_text, Vtt.clean_vtt_text. fold (cleaned text).
  destruct (cleaned text) as [|first rest]; [by exists []|].
  destruct (rollup_tail rest first []) as (tail & Heq & Hsub & Hlast).
  exists tail. by rewrite Heq.
Qed.

(** X30: a roll-up block, in which every caption line holds the line
    before it, is reduced to its last line. *)
Theorem clean_vtt_text_collapses_rollup (text first : string) (rest : list string) :
  cleaned text = first :: rest ->
  grows first rest ->
  clean_vtt_text text = List.last rest first.
Proof.
  intros Hc Hg. unfold clean_vtt_text, Vtt.clean_vtt_text.
  fold (cleaned text). rewrite Hc. by rewrite rollup_chain.
Qed.

End Text.
End VttRollup.

Definition caption_lines (text : string) : list string := PyStr.split PyStr.newline text.

Definition rolling_captions : string :=
  "WEBVTT" +:+ PyStr.newline +:+ "00:00.000 --> 00:02.000" +:+ PyStr.newline
    +:+ "Hello" +:+ PyStr.newline +:+ "Hello world" +:+ PyStr.newline
    +:+ "Hello world" +:+ PyStr.newline +:+ "Hello world this is".

Lemma clean_vtt_text_collapses_rollup_witness :
  Vtt.clean_vtt_text caption_lines (fun s => s) (fun s => [s]) rolling_captions
  = "Hello world this is".
Proof.
  apply (clean_vtt_text_collapses_rollup caption_lines (fun s => s) (fun s => [s])
           rolling_captions "Hello" ["Hello world"; "Hello world"; "Hello world this is"]).
  - vm_compute. reflexivity.
  - vm_compute. tauto.
Defined.

(** Lines that do not continue one another are all kept. *)
Example clean_vtt_text_separate_lines :
  Vtt.clean_vtt_text caption_lines (fun s => s) (fun s => [s])
    ("Kind: captions" +:+ PyStr.newline +:+ "one" +:+ PyStr.newline +:+ "two"
       +:+ PyStr.newline +:+ "two" +:+ PyStr.newline +:+ "three")
  = "one two three".
Proof. vm_compute. reflexivity. Qed.
